(** * superviseInfo: incremental crawl-and-diff pipeline

    A shallow embedding of the crawler ([base_crawler.py],
    [sichuan_fgw_crawler.py], [example_other_site_crawler.py]), the crawler
    registry ([crawler_factory.py]), the file-backed store ([storage.py]) and
    the runner ([crawler_manager.py], [main.py]).

    Python [str] values are sequences of Unicode code points ([pystr]); Python
    [int]s are [Z].  The process environment (network, wall clock, files of
    the working directory) is an explicit [World] threaded through a state and
    exception monad [M]. *)

From Stdlib Require Import ZArith NArith List Lia Ascii String DecimalString.
From Stdlib Require DecimalPos.
From stdpp Require Import base gmap list.

Local Open Scope Z_scope.

(** ** Python values *)

Module Py.

(** A [str]: one [N] per code point. *)
Abbreviation pystr := (list N).

(** Code points of a UTF-8 byte sequence; [need] continuation bytes are still
    expected for the code point whose leading bits are [acc]. *)
Fixpoint utf8_decode (need : nat) (acc : N) (bs : list N) : pystr :=
  match bs with
  | [] => []
  | b :: bs' =>
      match need with
      | O =>
          if (b <? 128)%N then b :: utf8_decode 0 0%N bs'
          else if (b <? 224)%N then utf8_decode 1 (b - 192)%N bs'
          else if (b <? 240)%N then utf8_decode 2 (b - 224)%N bs'
          else utf8_decode 3 (b - 240)%N bs'
      | S O => (acc * 64 + (b - 128))%N :: utf8_decode 0 0%N bs'
      | S n => utf8_decode n (acc * 64 + (b - 128))%N bs'
      end
  end.

(** A string literal of the source. *)
Definition lit (s : string) : pystr :=
  utf8_decode 0 0%N (List.map N_of_ascii (list_ascii_of_string s)).

(** [str(n)] / [f"{n}"] for an [int]. *)
Definition str_of_int (n : Z) : pystr :=
  lit (NilZero.string_of_int (Z.to_int n)).

(** [len(x)] *)
Definition len {A} (l : list A) : Z := Z.of_nat (length l).

(** Truth value of a list or a [str]: empty is false. *)
Definition truthy {A} (l : list A) : bool :=
  match l with [] => false | _ :: _ => true end.

(** Truth value of an [Optional[str]]: [None] and [''] are false. *)
Definition truthy_opt {A} (o : option (list A)) : bool :=
  match o with None => false | Some l => truthy l end.

(** [s.startswith(p)] *)
Fixpoint startswith (p s : pystr) : bool :=
  match p, s with
  | [], _ => true
  | _ :: _, [] => false
  | a :: p', b :: s' => (a =? b)%N && startswith p' s'
  end.

(** [p in s] for two [str]s: substring test. *)
Fixpoint contains (p s : pystr) : bool :=
  startswith p s ||
  match s with
  | [] => false
  | _ :: s' => contains p s'
  end.

(** [s.endswith(p)] *)
Definition endswith (p s : pystr) : bool :=
  startswith (rev p) (rev s).

(** [os.path.join(a, b)] on a POSIX system, two components. *)
Definition os_path_join (a b : pystr) : pystr :=
  if startswith (lit "/") b then b
  else if negb (truthy a) || endswith (lit "/") a then a ++ b
  else a ++ lit "/" ++ b.

(** [re.sub(prefix + r'\d+', repl, s)] for a literal, non-empty [prefix]:
    the leftmost match is found at each position, [\d+] takes every digit that
    follows the prefix, matches do not overlap.  [digit] is [re]'s [\d] on a
    [str] pattern (the Unicode decimal digits). *)
Section ReSub.

Variable digit : N -> bool.

(** Number of digits at the head of [s]. *)
Fixpoint leading_digits (s : pystr) : nat :=
  match s with
  | [] => O
  | c :: s' => if digit c then S (leading_digits s') else O
  end.

(** Length of the match that starts at the head of [s], if there is one. *)
Definition match_at (prefix s : pystr) : option nat :=
  if startswith prefix s then
    match leading_digits (drop (length prefix) s) with
    | O => None
    | S k => Some (length prefix + S k)%nat
    end
  else None.

(** [skip] characters of the current match are still to be dropped. *)
Fixpoint re_sub_from (prefix repl : pystr) (skip : nat) (s : pystr) : pystr :=
  match s with
  | [] => []
  | c :: s' =>
      match skip with
      | S k => re_sub_from prefix repl k s'
      | O =>
          match match_at prefix s with
          | Some n => repl ++ re_sub_from prefix repl (n - 1) s'
          | None => c :: re_sub_from prefix repl 0 s'
          end
      end
  end.

Definition re_sub (prefix repl s : pystr) : pystr := re_sub_from prefix repl 0 s.

End ReSub.

(** Exceptions are values of a class with the text [str(e)]. *)
Inductive exn_class :=
| ValueError | AttributeError | KeyError | JSONDecodeError
| FileNotFoundError | RequestException | AssertionError | NotADirectoryError.

Record exn := Exn { exn_cls : exn_class; exn_str : pystr }.

End Py.
Import Py.

(** ** The process environment and the monad of effects *)

Module Env.

(** One extracted item: the dict [{'title': .., 'url': ..}], with the
    optional ['discovered_at'] key that [export_to_csv] reads. *)
Record Item := mkItem {
  title : pystr;
  url : pystr;
  discovered_at : option pystr
}.

(** The object [save_data] dumps into a data file. *)
Record SourceRecordSet := mkSet {
  set_url : pystr;
  set_source_key : option pystr;
  set_source_name : option pystr;
  last_updated : pystr;
  total_count : Z;
  items : list Item
}.

(** One element of the array [_save_history] dumps into a history file. *)
Record HistoryEntry := mkEntry {
  timestamp : pystr;
  he_source_key : option pystr;
  he_source_name : option pystr;
  new_items_count : Z;
  new_items : list Item
}.

(** What a file of the working directory holds: a JSON object written by
    [save_data], a JSON array written by [_save_history], the rows written by
    [export_to_csv], the Markdown text written by [save_markdown_report]
    (it begins with [#]), or bytes that [json.load] rejects.  [json.load]
    reads back what [json.dump] wrote. *)
Inductive file :=
| DataFile (d : SourceRecordSet)
| HistoryFile (h : list HistoryEntry)
| CsvFile (rows : list (list pystr))
| MarkdownFile (content : pystr)
| Unparseable.

(** Outcome of [session.get(url, timeout=30)] followed by
    [raise_for_status()]: the body of a 2xx response, or an exception. *)
Inductive http_outcome :=
| HttpOk (body : list N)
| HttpError (e : exn).

(** Observable actions of the crawler, oldest first: a request with the body
    it brought back ([None] when it raised), a pause, a call of
    [build_next_page_url] with its arguments. *)
Inductive event :=
| EvGet (address : pystr) (response : option (list N))
| EvSleep (seconds : Z)
| EvNextPage (base : pystr) (page_num : Z).

(** [net n u] is what the [n]-th request of the process answers when it is
    sent to [u]; [clock n] is the [n]-th reading of
    [datetime.now().isoformat()]. *)
Record World := mkWorld {
  net : nat -> pystr -> http_outcome;
  gets : nat;
  clock : nat -> pystr;
  ticks : nat;
  files : gmap pystr file;
  trace : list event
}.

Inductive result (A : Type) :=
| Ok (a : A)
| Raise (e : exn).
Arguments Ok {A} a.
Arguments Raise {A} e.

Definition M (A : Type) : Type := World -> result A * World.

#[global] Instance M_ret : MRet M := fun A a w => (Ok a, w).

#[global] Instance M_bind : MBind M := fun A B k m w =>
  match m w with
  | (Ok a, w') => k a w'
  | (Raise e, w') => (Raise e, w')
  end.

Definition raise {A} (c : exn_class) (msg : pystr) : M A :=
  fun w => (Raise (Exn c msg), w).

(** A call without effect on the world, which returns or raises. *)
Definition of_result {A} (r : result A) : M A := fun w => (r, w).

(** [try: m except Exception as e: h e] *)
Definition try_except {A} (m : M A) (h : exn -> M A) : M A :=
  fun w =>
    match m w with
    | (Ok a, w') => (Ok a, w')
    | (Raise e, w') => h e w'
    end.

Definition emit (e : event) : M unit :=
  fun w => (Ok tt, mkWorld (net w) (gets w) (clock w) (ticks w) (files w)
                           (trace w ++ [e])).

(** [datetime.now().isoformat()] *)
Definition datetime_now : M pystr :=
  fun w => (Ok (clock w (ticks w)),
            mkWorld (net w) (gets w) (clock w) (S (ticks w)) (files w) (trace w)).

(** [time.sleep(s)] *)
Definition time_sleep (s : Z) : M unit := emit (EvSleep s).

(** [session.get(url, timeout=30); response.raise_for_status()] *)
Definition session_get (address : pystr) : M (list N) :=
  fun w =>
    let w' response := mkWorld (net w) (S (gets w)) (clock w) (ticks w) (files w)
                               (trace w ++ [EvGet address response]) in
    match net w (gets w) address with
    | HttpOk body => (Ok body, w' (Some body))
    | HttpError e => (Raise e, w' None)
    end.

(** [os.path.exists(p)] *)
Definition path_exists (p : pystr) : M bool :=
  fun w => (Ok (bool_decide (is_Some (files w !! p))), w).

(** [with open(p, 'w') as f: ...] leaving [c] in the file. *)
Definition write_file (p : pystr) (c : file) : M unit :=
  fun w => (Ok tt, mkWorld (net w) (gets w) (clock w) (ticks w)
                           (<[p := c]> (files w)) (trace w)).

(** A JSON document after [json.load]. *)
Inductive json :=
| JEmptyDict
| JData (d : SourceRecordSet)
| JHistory (h : list HistoryEntry).

(** [with open(p, 'r') as f: json.load(f)] *)
Definition json_load (p : pystr) : M json :=
  fun w =>
    match files w !! p with
    | Some (DataFile d) => (Ok (JData d), w)
    | Some (HistoryFile h) => (Ok (JHistory h), w)
    | Some (CsvFile _) | Some (MarkdownFile _) | Some Unparseable =>
        (Raise (Exn JSONDecodeError (lit "Expecting value")), w)
    | None => (Raise (Exn FileNotFoundError (lit "No such file or directory")), w)
    end.

(** *** Directories

    The world records regular files, not directories: a path that holds no
    file can be a directory, and a directory without files is not told
    apart from a path that does not exist. *)

(** The name [p] has in the directory [dir], if it is a file of [dir] itself:
    [p] is [os.path.join(dir, name)] for a name without [/]. *)
Definition name_in (dir p : pystr) : option pystr :=
  let prefix := os_path_join dir [] in
  let name := drop (length prefix) p in
  if startswith prefix p && truthy name && negb (contains (lit "/") name)
  then Some name else None.

(** The names of the files of the directory [dir], as [os.listdir(dir)] gives
    them.  The listing has no order of its own; the order of the map of
    files stands for it. *)
Definition listdir (dir : pystr) (fs : gmap pystr file) : list pystr :=
  omap (fun entry => name_in dir (fst entry)) (map_to_list fs).

Section Directories.

(** [repr] of a [str]. *)
Variable py_repr : pystr -> pystr.

(** [os.path.exists(dir)] for a path used as a directory: it is a regular
    file, or files lie in it. *)
Definition dir_exists (dir : pystr) : M bool :=
  fun w => (Ok (bool_decide (is_Some (files w !! dir)) || truthy (listdir dir (files w))),
            w).

(** The [NotADirectoryError] of the system call that finds a regular file
    where the path [p] needs a directory. *)
Definition not_a_directory (p : pystr) : exn :=
  Exn NotADirectoryError (lit "[Errno 20] Not a directory: " ++ py_repr p).

(** [os.listdir(dir)]: raises when [dir] is a regular file. *)
Definition os_listdir (dir : pystr) : M (list pystr) :=
  fun w =>
    match files w !! dir with
    | Some _ => (Raise (not_a_directory dir), w)
    | None => (Ok (listdir dir (files w)), w)
    end.

(** [os.makedirs(dir)] for a path that does not exist. *)
Definition os_makedirs (dir : pystr) : M unit := mret tt.

(** [with open(p, 'w') as f: ...] leaving [c] in the file [p] of the
    directory [dir]: raises when [dir] is a regular file. *)
Definition write_file_in (dir p : pystr) (c : file) : M unit :=
  fun w =>
    match files w !! dir with
    | Some _ => (Raise (not_a_directory p), w)
    | None => write_file p c w
    end.

End Directories.

End Env.
Import Env.

(** ** storage.py *)

Module Storage.

Section DataStorage.

(** [re]'s [\w] on a [str] pattern: the Unicode word characters. *)
Variable unicode_word : N -> bool.

(** [hashlib.md5(s.encode('utf-8')).hexdigest()] *)
Variable md5_hexdigest : pystr -> pystr.

(** [self.data_dir] *)
Variable data_dir : pystr.

(** [repr] of a [str], in the text of an [OSError]. *)
Variable py_repr : pystr -> pystr.

(** [re.sub(r'[^\w\u4e00-\u9fff\-_]', '_', source_name)] *)
Definition clean_char (c : N) : N :=
  if negb (unicode_word c
           || ((0x4e00 <=? c) && (c <=? 0x9fff))%N
           || (c =? 45)%N || (c =? 95)%N)
  then 95%N else c.

Definition _get_file_name (url : pystr) (source_name : option pystr) : pystr :=
  match source_name with
  | Some name =>
      if truthy name then List.map clean_char name else md5_hexdigest url
  | None => md5_hexdigest url
  end.

Definition _get_data_file (url : pystr) (source_name : option pystr) : pystr :=
  os_path_join data_dir (_get_file_name url source_name ++ lit ".json").

Definition _get_history_file (url : pystr) (source_name : option pystr) : pystr :=
  os_path_join data_dir (_get_file_name url source_name ++ lit "_history.json").

Definition load_existing_data (url : pystr) (source_name : option pystr) : M json :=
  let data_file := _get_data_file url source_name in
  ex ← path_exists data_file;
  if ex : bool then try_except (json_load data_file) (fun _ => mret JEmptyDict)
  else mret JEmptyDict.

(** [data.get('items', [])] *)
Definition get_items (data : json) : M (list Item) :=
  match data with
  | JEmptyDict => mret []
  | JData d => mret (items d)
  | JHistory _ => raise AttributeError (lit "'list' object has no attribute 'get'")
  end.

(** [history.append(entry)] *)
Definition history_append (history : json) (entry : HistoryEntry)
  : M (list HistoryEntry) :=
  match history with
  | JHistory h => mret (h ++ [entry])
  | JEmptyDict | JData _ =>
      raise AttributeError (lit "'dict' object has no attribute 'append'")
  end.

(** [history[-50:]] when [len(history) > 50] *)
Definition keep_recent (history : list HistoryEntry) : list HistoryEntry :=
  if 50 <? len history then drop (length history - 50) history else history.

Definition _save_history (url : pystr) (new_items : list Item)
    (source_key source_name : option pystr) : M unit :=
  if negb (truthy new_items) then mret tt
  else
    let history_file := _get_history_file url source_name in
    now ← datetime_now;
    let history_entry := mkEntry now source_key source_name (len new_items) new_items in
    ex ← path_exists history_file;
    history ← (if ex : bool
               then try_except (json_load history_file) (fun _ => mret (JHistory []))
               else mret (JHistory []));
    history ← history_append history history_entry;
    write_file history_file (HistoryFile (keep_recent history)).

Definition save_data (url : pystr) (results : list Item)
    (source_key source_name : option pystr) : M (list Item * list Item) :=
  existing_data ← load_existing_data url source_name;
  existing_items ← get_items existing_data;
  let existing_urls : gset pystr := list_to_set (List.map Env.url existing_items) in
  let new_items :=
    List.filter (fun item => negb (bool_decide (Env.url item ∈ existing_urls))) results in
  let all_items := existing_items ++ new_items in
  now ← datetime_now;
  let updated_data := mkSet url source_key source_name now (len all_items) all_items in
  write_file (_get_data_file url source_name) (DataFile updated_data);;
  _save_history url new_items source_key source_name;;
  mret (all_items, new_items).

(** The items a data file holds, as [load_existing_data] followed by
    [.get('items', [])] sees them: none when the file is absent or unreadable. *)
Definition stored_items (w : World) (data_file : pystr) : list Item :=
  match files w !! data_file with
  | Some (DataFile d) => items d
  | _ => []
  end.

(** The entries a history file holds, as [_save_history] sees them. *)
Definition stored_history (w : World) (history_file : pystr) : list HistoryEntry :=
  match files w !! history_file with
  | Some (HistoryFile h) => h
  | _ => []
  end.

(** Successive calls of [save_data] for one source, one per element of
    [inputs]; the pairs the calls return are collected in order. *)
Fixpoint save_each (url : pystr) (source_key source_name : option pystr)
    (inputs : list (list Item)) : M (list (list Item * list Item)) :=
  match inputs with
  | [] => mret []
  | results :: rest =>
      out ← save_data url results source_key source_name;
      outs ← save_each url source_key source_name rest;
      mret (out :: outs)
  end.

(** The world after a clock reading and a write of [c] into [p]. *)
Definition written (w : World) (p : pystr) (c : file) : World :=
  mkWorld (net w) (gets w) (clock w) (S (ticks w)) (<[p := c]> (files w)) (trace w).

(** The entry [_save_history] builds in [w]. *)
Definition entry_at (w : World) (new : list Item) (key name : option pystr) : HistoryEntry :=
  mkEntry (clock w (ticks w)) key name (len new) new.

(** The records of [results] that [save_data] keeps as new, given the items
    already stored. *)
Definition new_of (existing results : list Item) : list Item :=
  List.filter
    (fun item => negb (bool_decide (Env.url item ∈
                   (list_to_set (List.map Env.url existing) : gset pystr))))
    results.

(** The last fifty elements of a list. *)
Definition last50 {A} (l : list A) : list A := drop (length l - 50) l.

(** [e] is the history entry of a call that had [new] as its new records. *)
Definition entry_of (key name : option pystr) (e : HistoryEntry) (new : list Item) : Prop :=
  new_items e = new /\ new_items_count e = len new /\
  he_source_key e = key /\ he_source_name e = name.

(** The dict [get_summary] returns. *)
Record Summary := mkSummary {
  sm_url : pystr;
  sm_source_key : option pystr;
  sm_source_name : option pystr;
  total_items : Z;
  sm_last_updated : pystr;
  history_entries : Z;
  latest_new_items : Z
}.

(** [data.get(k)] / [data.get(k, default)] for the keys [get_summary] reads. *)
Definition get_fields (data : json)
  : M (option pystr * option pystr * Z * pystr) :=
  match data with
  | JEmptyDict => mret (None, None, 0, lit "Never")
  | JData d =>
      mret (set_source_key d, set_source_name d, total_count d, last_updated d)
  | JHistory _ => raise AttributeError (lit "'list' object has no attribute 'get'")
  end.

(** [len(history)] and [history[-1]['new_items_count'] if history else 0] *)
Definition history_stats (history : json) : M (Z * Z) :=
  match history with
  | JHistory h =>
      mret (len h, match last h with Some e => new_items_count e | None => 0 end)
  | JEmptyDict => mret (0, 0)
  | JData _ => raise KeyError (lit "-1")
  end.

Definition get_summary (url : pystr) (source_name : option pystr) : M Summary :=
  data ← load_existing_data url source_name;
  let history_file := _get_history_file url source_name in
  ex ← path_exists history_file;
  history ← (if ex : bool
             then try_except (json_load history_file) (fun _ => mret (JHistory []))
             else mret (JHistory []));
  '(key, name, total, updated) ← get_fields data;
  '(entries, latest) ← history_stats history;
  mret (mkSummary url key name total updated entries latest).

Definition csv_header : list pystr := [lit "标题"; lit "链接地址"; lit "发现时间"].

Definition csv_row (item : Item) : list pystr :=
  [title item; Env.url item; default [] (discovered_at item)].

Definition export_to_csv (url output_file : pystr) : M unit :=
  data ← load_existing_data url None;
  items ← get_items data;
  write_file output_file (CsvFile (csv_header :: List.map csv_row items)).

(** The dict [get_all_summaries] builds for a data file. *)
Record SourceSummary := mkSourceSummary {
  ss_url : pystr;
  ss_source_key : option pystr;
  ss_source_name : option pystr;
  ss_total_items : Z;
  ss_last_updated : pystr
}.

(** [data.get('url', 'Unknown')], [data.get('source_key')], ... *)
Definition summary_fields (data : json) : M SourceSummary :=
  match data with
  | JEmptyDict => mret (mkSourceSummary (lit "Unknown") None None 0 (lit "Never"))
  | JData d =>
      mret (mkSourceSummary (set_url d) (set_source_key d) (set_source_name d)
                            (total_count d) (last_updated d))
  | JHistory _ => raise AttributeError (lit "'list' object has no attribute 'get'")
  end.

(** What [get_all_summaries] reports for the name of a file, if anything. *)
Definition reported (w : World) (filename : pystr) : option SourceSummary :=
  if endswith (lit ".json") filename && negb (endswith (lit "_history.json") filename)
  then match files w !! os_path_join data_dir filename with
       | Some (DataFile d) =>
           Some (mkSourceSummary (set_url d) (set_source_key d) (set_source_name d)
                                 (total_count d) (last_updated d))
       | _ => None
       end
  else None.

(** The loop of [get_all_summaries] over the listing. *)
Fixpoint summarize (filenames : list pystr) (summaries : list SourceSummary)
  : M (list SourceSummary) :=
  match filenames with
  | [] => mret summaries
  | filename :: rest =>
      if endswith (lit ".json") filename && negb (endswith (lit "_history.json") filename)
      then
        summaries ← try_except
                      (data ← json_load (os_path_join data_dir filename);
                       summary ← summary_fields data;
                       mret (summaries ++ [summary]))
                      (fun _ => mret summaries);
        summarize rest summaries
      else summarize rest summaries
  end.

(** [get_all_summaries]; [os.listdir] is outside the [try]. *)
Definition get_all_summaries : M (list SourceSummary) :=
  ex ← dir_exists data_dir;
  if negb ex then mret []
  else
    filenames ← os_listdir py_repr data_dir;
    summarize filenames [].

End DataStorage.

End Storage.

(** ** base_crawler.py *)

Module BaseCrawler.

(** [BeautifulSoup(response.text, 'html.parser')] after
    [response.encoding = encoding]: the parse is determined by the body and
    the encoding it is decoded with. *)
Record Soup := mkSoup {
  soup_encoding : pystr;
  soup_body : list N
}.

(** A crawler class: what a subclass provides, and the parser the base
    class calls.  [get_page_encoding] and [extract_search_results] return or
    raise; [html_parser encoding body] is the exception that
    [BeautifulSoup(response.text, 'html.parser')] raises on the body decoded
    with the encoding, if it raises one. *)
Record Crawler := mkCrawler {
  get_base_url : pystr;
  get_crawler_name : pystr;
  get_page_encoding : list N -> result pystr;
  html_parser : pystr -> list N -> option exn;
  extract_search_results : Soup -> result (list Item);
  build_next_page_url : pystr -> Z -> option pystr
}.

(** The request numbered [n] of the process, sent to [url], as the trace
    shows it; [answers] is the network of the world. *)
Definition attempt_event (answers : nat -> pystr -> http_outcome) (n : nat)
    (url : pystr) : event :=
  EvGet url match answers n url with
            | HttpOk body => Some body
            | HttpError _ => None
            end.

(** The world after the next request of the process, sent to [url]. *)
Definition requested (w : World) (url : pystr) : World :=
  mkWorld (net w) (S (gets w)) (clock w) (ticks w) (files w)
          (trace w ++ [attempt_event (net w) (gets w) url]).

(** The requests and pauses of a call of [fetch_page] whose first request is
    the one numbered [n], at attempt number [attempt]: [failures] failed
    attempts, each followed by a pause of [2 ** attempt] seconds, then a last
    attempt. *)
Fixpoint attempts_trace (answers : nat -> pystr -> http_outcome) (url : pystr)
    (n : nat) (attempt : Z) (failures : nat) : list event :=
  match failures with
  | O => [attempt_event answers n url]
  | S k =>
      attempt_event answers n url :: EvSleep (2 ^ attempt)
        :: attempts_trace answers url (S n) (attempt + 1) k
  end.

Section Methods.

Variable self : Crawler.

(** [response.encoding = self.get_page_encoding(response)] and
    [BeautifulSoup(response.text, 'html.parser')] on the body of a response. *)
Definition parse_response (body : list N) : result Soup :=
  match get_page_encoding self body with
  | Ok encoding =>
      match html_parser self encoding body with
      | Some e => Raise e
      | None => Ok (mkSoup encoding body)
      end
  | Raise e => Raise e
  end.

(** What the [try] block of [fetch_page] comes to when its request is the
    one numbered [n]: the parsed page, or the exception of the request or of
    the parse. *)
Definition attempt_outcome (answers : nat -> pystr -> http_outcome) (n : nat)
    (url : pystr) : result Soup :=
  match answers n url with
  | HttpOk body => parse_response body
  | HttpError e => Raise e
  end.

(** The body of [for attempt in range(max_retries)], [remaining] iterations
    being left.  The [try] block either returns from the function ([Some v])
    or lets the loop go on ([None]). *)
Fixpoint fetch_attempts (url : pystr) (max_retries attempt : Z) (remaining : nat)
  : M (option Soup) :=
  match remaining with
  | O => mret None
  | S remaining' =>
      r ← try_except
            (body ← session_get url;
             soup ← of_result (parse_response body);
             mret (Some (Some soup)))
            (fun _ =>
               if attempt <? max_retries - 1
               then time_sleep (2 ^ attempt);; mret None
               else mret (Some None));
      match r with
      | Some v => mret v
      | None => fetch_attempts url max_retries (attempt + 1) remaining'
      end
  end.

Definition fetch_page (url : pystr) (max_retries : Z) : M (option Soup) :=
  fetch_attempts url max_retries 0 (Z.to_nat max_retries).

(** How the [while] loop of [crawl_search_url] was left. *)
Inductive loop_exit :=
| ExitBound        (* the loop test failed *)
| ExitNoNext       (* [if not next_page_url: break] *)
| ExitFetchFailed  (* [if not next_soup: break] *)
| ExitEmptyPage.   (* [if not next_results: break] *)

(** [while page_num < max_pages - 1: ...]; every iteration that does not
    break increments [page_num], so [remaining] iterations are enough when it
    starts at [max_pages - 1 - page_num]. *)
Fixpoint crawl_pages (url : pystr) (max_pages page_num : Z) (results : list Item)
    (remaining : nat) : M (list Item * loop_exit) :=
  match remaining with
  | O => mret (results, ExitBound)
  | S remaining' =>
      if page_num <? max_pages - 1 then
        emit (EvNextPage url (page_num + 1));;
        let next_page_url := build_next_page_url self url (page_num + 1) in
        if negb (truthy_opt next_page_url) then mret (results, ExitNoNext)
        else
          next_soup ← fetch_page (default [] next_page_url) 3;
          match next_soup with
          | None => mret (results, ExitFetchFailed)
          | Some next_soup =>
              next_results ← of_result (extract_search_results self next_soup);
              if negb (truthy next_results) then mret (results, ExitEmptyPage)
              else
                time_sleep 1;;
                crawl_pages url max_pages (page_num + 1)
                            (results ++ next_results) remaining'
          end
      else mret (results, ExitBound)
  end.

Definition crawl_search_url (url : pystr) (max_pages : Z) : M (list Item) :=
  soup ← fetch_page url 3;
  match soup with
  | None => mret []
  | Some soup =>
      results ← of_result (extract_search_results self soup);
      '(results, _) ← crawl_pages url max_pages 0 results (Z.to_nat (max_pages - 1));
      mret results
  end.

(** The pages a trace shows as fetched: one per request that brought a body
    which [fetch_page] parsed. *)
Definition pages_of (evs : list event) : list Soup :=
  omap (fun ev =>
          match ev with
          | EvGet _ (Some body) =>
              match parse_response body with
              | Ok soup => Some soup
              | Raise _ => None
              end
          | _ => None
          end) evs.

(** [per_page] is what the extraction finds in the pages of a trace, page by
    page. *)
Definition extractions (evs : list event) (per_page : list (list Item)) : Prop :=
  Forall2 (fun soup items => extract_search_results self soup = Ok items)
          (pages_of evs) per_page.

(** The list a run of the loop has gathered. *)
Definition gathered (out : result (list Item * loop_exit)) : result (list Item) :=
  match out with
  | Ok (results, _) => Ok results
  | Raise e => Raise e
  end.

(** What a run that started with [results] has gathered at its end, by the
    pages of its trace [evs]: the records of each page in turn, or the
    exception the extraction raised on the last page. *)
Definition pages_gathered (results : list Item) (evs : list event)
    (r : result (list Item)) : Prop :=
  match r with
  | Ok res =>
      exists per_page, extractions evs per_page /\ res = results ++ concat per_page
  | Raise e =>
      exists soup, last (pages_of evs) = Some soup /\
                   extract_search_results self soup = Raise e
  end.

(** The world after the call of [build_next_page_url] for the page that
    follows [page_num], and after the pause that follows a page. *)
Definition asked_next (url : pystr) (page_num : Z) (w : World) : World :=
  snd (emit (EvNextPage url (page_num + 1)) w).

Definition paused (w : World) : World := snd (time_sleep 1 w).

(** The pagination as the specification words it, from the page that
    follows [page_num] on, [results] being gathered so far: up to page
    [max_pages - 1], ask for the next address from the start address [url]
    and the page number and stop if there is none; fetch it and stop if the
    fetch fails; extract, and stop if the page has no record; else append
    its records, pause and go on.  An exception of the extraction ends the
    crawl. *)
Inductive spec_paginate (url : pystr) (max_pages : Z)
  : Z -> list Item -> World -> result (list Item) -> World -> Prop :=
| paginate_bound page_num results w :
    max_pages - 1 <= page_num ->
    spec_paginate url max_pages page_num results w (Ok results) w
| paginate_no_next page_num results w :
    page_num < max_pages - 1 ->
    truthy_opt (build_next_page_url self url (page_num + 1)) = false ->
    spec_paginate url max_pages page_num results w (Ok results) (asked_next url page_num w)
| paginate_fetch_failed page_num results w address w2 :
    page_num < max_pages - 1 ->
    build_next_page_url self url (page_num + 1) = Some address ->
    truthy address = true ->
    fetch_page address 3 (asked_next url page_num w) = (Ok None, w2) ->
    spec_paginate url max_pages page_num results w (Ok results) w2
| paginate_extract_raises page_num results w address next_soup w2 e :
    page_num < max_pages - 1 ->
    build_next_page_url self url (page_num + 1) = Some address ->
    truthy address = true ->
    fetch_page address 3 (asked_next url page_num w) = (Ok (Some next_soup), w2) ->
    extract_search_results self next_soup = Raise e ->
    spec_paginate url max_pages page_num results w (Raise e) w2
| paginate_empty_page page_num results w address next_soup w2 :
    page_num < max_pages - 1 ->
    build_next_page_url self url (page_num + 1) = Some address ->
    truthy address = true ->
    fetch_page address 3 (asked_next url page_num w) = (Ok (Some next_soup), w2) ->
    extract_search_results self next_soup = Ok [] ->
    spec_paginate url max_pages page_num results w (Ok results) w2
| paginate_next_page page_num results w address next_soup w2 next_results r w' :
    page_num < max_pages - 1 ->
    build_next_page_url self url (page_num + 1) = Some address ->
    truthy address = true ->
    fetch_page address 3 (asked_next url page_num w) = (Ok (Some next_soup), w2) ->
    extract_search_results self next_soup = Ok next_results ->
    next_results <> [] ->
    spec_paginate url max_pages (page_num + 1) (results ++ next_results) (paused w2) r w' ->
    spec_paginate url max_pages page_num results w r w'.

(** A crawl as the specification words it: fetch the start address; without
    a page the result is empty; else extract the first page, whatever it
    holds, and paginate from page 0. *)
Inductive spec_crawl (url : pystr) (max_pages : Z) (w : World)
  : result (list Item) -> World -> Prop :=
| crawl_no_page w1 :
    fetch_page url 3 w = (Ok None, w1) ->
    spec_crawl url max_pages w (Ok []) w1
| crawl_extract_raises soup w1 e :
    fetch_page url 3 w = (Ok (Some soup), w1) ->
    extract_search_results self soup = Raise e ->
    spec_crawl url max_pages w (Raise e) w1
| crawl_pages_from soup w1 results r w' :
    fetch_page url 3 w = (Ok (Some soup), w1) ->
    extract_search_results self soup = Ok results ->
    spec_paginate url max_pages 0 results w1 r w' ->
    spec_crawl url max_pages w r w'.

End Methods.

(** [clean_title] *)
Section CleanTitle.

(** The whitespace [str.strip()] removes: the characters [c] with
    [c.isspace()]. *)
Variable unicode_space : N -> bool.

(** After a [<], the pattern [[^>]+>] matches: the next character is not
    [>] and a [>] comes later. *)
Definition closes (s : pystr) : bool :=
  match s with
  | [] => false
  | c :: s' => negb (c =? 62)%N && existsb (fun a => (a =? 62)%N) s'
  end.

(** [re.sub(r'<[^>]+>', '', s)]: [inside] tells that a match has begun and
    runs up to the next [>]. *)
Fixpoint strip_tags_from (inside : bool) (s : pystr) : pystr :=
  match s with
  | [] => []
  | c :: s' =>
      if inside then
        if (c =? 62)%N then strip_tags_from false s' else strip_tags_from true s'
      else if (c =? 60)%N && closes s' then strip_tags_from true s'
      else c :: strip_tags_from false s'
  end.

Definition strip_tags (s : pystr) : pystr := strip_tags_from false s.

(** [s.lstrip()] and [s.strip()] *)
Fixpoint lstrip (s : pystr) : pystr :=
  match s with
  | [] => []
  | c :: s' => if unicode_space c then lstrip s' else s
  end.

Definition strip (s : pystr) : pystr := rev (lstrip (rev (lstrip s))).

(** [clean_title]; a title that is [None] or empty is returned as it is. *)
Definition clean_title (title : option pystr) : option pystr :=
  match title with
  | Some t => if truthy t then Some (strip (strip_tags t)) else Some t
  | None => None
  end.

(** No [<] of [s] begins a match of [<[^>]+>]. *)
Fixpoint tagless (s : pystr) : bool :=
  match s with
  | [] => true
  | c :: s' => negb ((c =? 60)%N && closes s') && tagless s'
  end.

End CleanTitle.

(** The calls of [build_next_page_url] a trace shows, with their arguments. *)
Definition next_requests (evs : list event) : list (pystr * Z) :=
  omap (fun ev =>
          match ev with
          | EvNextPage base page_num => Some (base, page_num)
          | _ => None
          end) evs.

(** [k] successive calls of [build_next_page_url], all with the address
    [url], for the page numbers that follow [page_num]. *)
Fixpoint page_requests (url : pystr) (page_num : Z) (k : nat) : list (pystr * Z) :=
  match k with
  | O => []
  | S k' => (url, page_num + 1) :: page_requests url (page_num + 1) k'
  end.

(** The seconds a trace spends in [time.sleep]. *)
Definition total_sleep (evs : list event) : Z :=
  foldr (fun ev acc => match ev with EvSleep s => s + acc | _ => acc end) 0 evs.

(** [w'] differs from [w] by requests made and by the trace only. *)
Definition same_store (w w' : World) : Prop :=
  net w' = net w /\ clock w' = clock w /\ ticks w' = ticks w /\ files w' = files w.

End BaseCrawler.

(** ** sichuan_fgw_crawler.py *)

Module SichuanFGW.

Section SichuanFGWCrawler.

Variable unicode_digit : N -> bool.

(** [BeautifulSoup(text, 'html.parser')]: the exception it raises, if any. *)
Variable html_parser : pystr -> list N -> option exn.

(** [extract_search_results]: the selection of anchors from the parsed page
    ([soup.select], [soup.find_all]) followed by the filters of the class
    and by [normalize_url], whose [urljoin] raises [ValueError] on a
    malformed [href]. *)
Variable extract_search_results : BaseCrawler.Soup -> result (list Item).

Definition get_base_url : pystr := lit "https://fgw.sc.gov.cn".

Definition get_crawler_name : pystr := lit "sichuan_fgw".

(** The loop of [_deduplicate_results]: [seen] is the set of identifiers met,
    [unique_results] the list built so far. *)
Fixpoint dedup_loop (seen : gset (pystr * pystr)) (unique_results results : list Item)
  : list Item :=
  match results with
  | [] => unique_results
  | result :: rest =>
      let identifier := (title result, url result) in
      if bool_decide (identifier ∈ seen) then dedup_loop seen unique_results rest
      else dedup_loop ({[identifier]} ∪ seen) (unique_results ++ [result]) rest
  end.

Definition _deduplicate_results (results : list Item) : list Item :=
  dedup_loop ∅ [] results.

Definition build_next_page_url (base_url : pystr) (page_num : Z) : option pystr :=
  if contains (lit "pageNum=") base_url then
    Some (re_sub unicode_digit (lit "pageNum=") (lit "pageNum=" ++ str_of_int page_num)
                 base_url)
  else
    let separator := if contains (lit "?") base_url then lit "&" else lit "?" in
    Some (base_url ++ separator ++ lit "pageNum=" ++ str_of_int page_num).

Definition SichuanFGWCrawler : BaseCrawler.Crawler :=
  BaseCrawler.mkCrawler get_base_url get_crawler_name (fun _ => Ok (lit "utf-8"))
                        html_parser extract_search_results build_next_page_url.

End SichuanFGWCrawler.

End SichuanFGW.

(** ** example_other_site_crawler.py *)

Module ExampleOtherSite.

Section ExampleOtherSiteCrawler.

Variable unicode_digit : N -> bool.

Variable html_parser : pystr -> list N -> option exn.

Variable extract_search_results : BaseCrawler.Soup -> result (list Item).

Definition get_base_url : pystr := lit "https://example.gov.cn".

Definition get_crawler_name : pystr := lit "example_other_site".

Definition get_page_encoding (response : list N) : result pystr := Ok (lit "gbk").

(** The loop of [_deduplicate_results]: [seen] is the set of identifiers met,
    [unique_results] the list built so far. *)
Fixpoint dedup_loop (seen : gset (pystr * pystr)) (unique_results results : list Item)
  : list Item :=
  match results with
  | [] => unique_results
  | result :: rest =>
      let identifier := (title result, url result) in
      if bool_decide (identifier ∈ seen) then dedup_loop seen unique_results rest
      else dedup_loop ({[identifier]} ∪ seen) (unique_results ++ [result]) rest
  end.

Definition _deduplicate_results (results : list Item) : list Item :=
  dedup_loop ∅ [] results.

Definition build_next_page_url (base_url : pystr) (page_num : Z) : option pystr :=
  if contains (lit "page=") base_url then
    Some (re_sub unicode_digit (lit "page=") (lit "page=" ++ str_of_int page_num) base_url)
  else if contains (lit "p=") base_url then
    Some (re_sub unicode_digit (lit "p=") (lit "p=" ++ str_of_int page_num) base_url)
  else
    let separator := if contains (lit "?") base_url then lit "&" else lit "?" in
    Some (base_url ++ separator ++ lit "page=" ++ str_of_int page_num).

Definition ExampleOtherSiteCrawler : BaseCrawler.Crawler :=
  BaseCrawler.mkCrawler get_base_url get_crawler_name get_page_encoding
                        html_parser extract_search_results build_next_page_url.

End ExampleOtherSiteCrawler.

End ExampleOtherSite.

(** ** crawler_factory.py *)

Module CrawlerFactory.

(** The class attribute [_crawlers]: a dict, kept in insertion order. *)
Abbreviation registry := (list (pystr * BaseCrawler.Crawler)).

(** [crawler_type in cls._crawlers] / [cls._crawlers[crawler_type]] *)
Fixpoint lookup_crawler (crawler_type : pystr) (_crawlers : registry)
  : option BaseCrawler.Crawler :=
  match _crawlers with
  | [] => None
  | (k, c) :: rest =>
      if bool_decide (k = crawler_type) then Some c else lookup_crawler crawler_type rest
  end.

(** [list(cls._crawlers.keys())] *)
Definition get_available_crawlers (_crawlers : registry) : list pystr :=
  List.map fst _crawlers.

(** [cls._crawlers[crawler_type] = crawler_class] *)
Fixpoint register_crawler (crawler_type : pystr) (crawler_class : BaseCrawler.Crawler)
    (_crawlers : registry) : registry :=
  match _crawlers with
  | [] => [(crawler_type, crawler_class)]
  | (k, c) :: rest =>
      if bool_decide (k = crawler_type) then (k, crawler_class) :: rest
      else (k, c) :: register_crawler crawler_type crawler_class rest
  end.

Section Factory.

(** [repr] of a [str], as the f-string applies it to the elements of a list. *)
Variable py_repr : pystr -> pystr.

(** [", ".join(parts)] *)
Fixpoint join_comma (parts : list pystr) : pystr :=
  match parts with
  | [] => []
  | [x] => x
  | x :: rest => x ++ lit ", " ++ join_comma rest
  end.

(** [f"{l}"] for a list of [str]. *)
Definition str_of_list (l : list pystr) : pystr :=
  lit "[" ++ join_comma (List.map py_repr l) ++ lit "]".

Definition unsupported_message (crawler_type : pystr) (available_types : list pystr)
  : pystr :=
  lit "不支持的爬虫类型: " ++ crawler_type ++ lit "，可用类型: "
      ++ str_of_list available_types.

Definition create_crawler (_crawlers : registry) (crawler_type : pystr)
  : M BaseCrawler.Crawler :=
  match lookup_crawler crawler_type _crawlers with
  | None =>
      let available_types := get_available_crawlers _crawlers in
      raise ValueError (unsupported_message crawler_type available_types)
  | Some crawler_class => mret crawler_class
  end.

(** The dict [get_crawler_info] returns; [None] is the empty dict. *)
Record CrawlerInfo := mkCrawlerInfo {
  info_type : pystr;
  info_name : pystr;
  info_base_url : pystr
}.

Definition get_crawler_info (_crawlers : registry) (crawler_type : pystr)
  : M (option CrawlerInfo) :=
  match lookup_crawler crawler_type _crawlers with
  | None => mret None
  | Some _ =>
      crawler ← create_crawler _crawlers crawler_type;
      mret (Some (mkCrawlerInfo crawler_type (BaseCrawler.get_crawler_name crawler)
                                (BaseCrawler.get_base_url crawler)))
  end.

End Factory.

End CrawlerFactory.

(** ** crawler_manager.py *)

Module CrawlerManager.

(** One value of the ['search_urls'] object of [urls_config.json]; a key that
    may be absent is an [option]. *)
Record UrlConfig := mkUrlConfig {
  cfg_enabled : option bool;
  cfg_name : option pystr;
  cfg_url : pystr;
  cfg_description : option pystr;
  cfg_crawler_type : option pystr
}.

(** What [load_config] returns: the ['search_urls'] items in file order and
    [crawler_settings.get('max_pages')]. *)
Record Config := mkConfig {
  cfg_search_urls : list (pystr * UrlConfig);
  cfg_max_pages : option Z
}.

(** An element of the list [search_urls]. *)
Record SearchUrl := mkSearchUrl {
  su_key : pystr;
  su_name : pystr;
  su_url : pystr;
  su_description : pystr;
  su_crawler_type : pystr
}.

(** The dict [config_result]. *)
Record ConfigResult := mkConfigResult {
  cr_key : pystr;
  cr_name : pystr;
  cr_url : pystr;
  cr_crawler_type : pystr;
  crawled_count : Z;
  new_count : Z;
  cr_total_count : Z;
  cr_new_items : list Item;
  error : option pystr
}.

(** The variables the loop of [run_crawler] assigns. *)
Record Locals := mkLocals {
  total_new_items : Z;
  total_all_items : Z;
  config_result : ConfigResult
}.

(** The dict [run_result] handed to the report; a time is the reading of
    the clock, as its [isoformat()]. *)
Record RunResult := mkRunResult {
  rr_start_time : pystr;
  rr_end_time : pystr;
  rr_total_configs : Z;
  rr_total_all_items : Z;
  rr_total_new_items : Z;
  rr_results : list ConfigResult
}.

(** The enabled entries, with the defaults of [url_config.get]. *)
Definition enabled_search_urls (url_configs : list (pystr * UrlConfig))
  : list SearchUrl :=
  List.map
    (fun '(key, url_config) =>
       mkSearchUrl key (default key (cfg_name url_config)) (cfg_url url_config)
                   (default [] (cfg_description url_config))
                   (default (lit "sichuan_fgw") (cfg_crawler_type url_config)))
    (List.filter (fun '(_, url_config) => default true (cfg_enabled url_config))
                 url_configs).

Definition new_config_result (c : SearchUrl) : ConfigResult :=
  mkConfigResult (su_key c) (su_name c) (su_url c) (su_crawler_type c) 0 0 0 [] None.

(** The [config_result] of a source whose processing raised [msg] before
    anything was counted. *)
Definition failed_result (url_config : SearchUrl) (msg : pystr) : ConfigResult :=
  mkConfigResult (su_key url_config) (su_name url_config) (su_url url_config)
                 (su_crawler_type url_config) 0 0 0 [] (Some msg).

(** [config_result['crawled_count'] = n] *)
Definition set_crawled_count (n : Z) (st : Locals) : Locals :=
  let r := config_result st in
  mkLocals (total_new_items st) (total_all_items st)
    (mkConfigResult (cr_key r) (cr_name r) (cr_url r) (cr_crawler_type r)
                    n (new_count r) (cr_total_count r) (cr_new_items r) (error r)).

(** The assignments that follow [storage.save_data]. *)
Definition record_saved (all_items new_items : list Item) (st : Locals) : Locals :=
  let r := config_result st in
  mkLocals (total_new_items st + len new_items) (total_all_items st + len all_items)
    (mkConfigResult (cr_key r) (cr_name r) (cr_url r) (cr_crawler_type r)
                    (crawled_count r) (len new_items) (len all_items) new_items
                    (error r)).

(** [config_result['error'] = str(e)] *)
Definition set_error (e : exn) (st : Locals) : Locals :=
  let r := config_result st in
  mkLocals (total_new_items st) (total_all_items st)
    (mkConfigResult (cr_key r) (cr_name r) (cr_url r) (cr_crawler_type r)
                    (crawled_count r) (new_count r) (cr_total_count r)
                    (cr_new_items r) (Some (exn_str e))).

(** The sum of a count over the results of a run. *)
Definition sum_of (count : ConfigResult -> Z) (results : list ConfigResult) : Z :=
  foldr (fun r acc => count r + acc) 0 results.

(** What identifies the source of a result, and a configured source. *)
Definition result_source (r : ConfigResult) : pystr * pystr * pystr * pystr :=
  (cr_key r, cr_name r, cr_url r, cr_crawler_type r).

Definition config_source (c : SearchUrl) : pystr * pystr * pystr * pystr :=
  (su_key c, su_name c, su_url c, su_crawler_type c).

(** The counts of a result fit together: the new items are counted, they
    are no more than the records crawled and no more than the items stored. *)
Definition counts_fit (r : ConfigResult) : Prop :=
  new_count r = len (cr_new_items r) /\
  0 <= new_count r <= crawled_count r /\ new_count r <= cr_total_count r.

(** A statement [m] of the [try] block, followed by the rest [k] of the
    block.  When [m] raises, the [except Exception as e] clause runs with the
    locals as they are at that point. *)
Definition try_stmt {A} (st : Locals) (m : M A) (k : A -> M Locals) : M Locals :=
  fun w =>
    match m w with
    | (Ok a, w') => k a w'
    | (Raise e, w') => (Ok (set_error e st), w')
    end.

(** ["\n".join(lines)] *)
Fixpoint join_lines (lines : list pystr) : pystr :=
  match lines with
  | [] => []
  | [x] => x
  | x :: rest => x ++ [10%N] ++ join_lines rest
  end.

(** The lines of the report for the new items of a result, numbered from
    [j]. *)
Fixpoint new_item_lines (j : Z) (new_items : list Item) : list pystr :=
  match new_items with
  | [] => []
  | item :: rest =>
      (str_of_int j ++ lit ". [" ++ title item ++ lit "](" ++ url item ++ lit ")")
        :: new_item_lines (j + 1) rest
  end.

(** The lines of the report for one result, the [i]-th. *)
Definition result_lines (i : Z) (result : ConfigResult) : list pystr :=
  [lit "## " ++ str_of_int i ++ lit ". " ++ cr_name result
     ++ lit " (" ++ cr_key result ++ lit ")";
   [];
   lit "- **URL**: " ++ cr_url result;
   lit "- **爬虫类型**: " ++ cr_crawler_type result;
   lit "- **爬取结果数**: " ++ str_of_int (crawled_count result);
   lit "- **新增数量**: " ++ str_of_int (new_count result);
   lit "- **总计数据项**: " ++ str_of_int (cr_total_count result);
   []]
  ++ (if truthy (cr_new_items result)
      then [lit "### 本次新增项目 (" ++ str_of_int (len (cr_new_items result)) ++ lit " 项)";
            []]
           ++ new_item_lines 1 (cr_new_items result) ++ [[]]
      else [lit "*本次运行未发现新项目*"; []])
  ++ [lit "---"; []].

(** The loop of [generate_markdown_report] over the results, numbered from
    [i]. *)
Fixpoint results_lines (i : Z) (results : list ConfigResult) : list pystr :=
  match results with
  | [] => []
  | result :: rest => result_lines i result ++ results_lines (i + 1) rest
  end.

Section Runner.

Variable unicode_word : N -> bool.
Variable md5_hexdigest : pystr -> pystr.
Variable py_repr : pystr -> pystr.

(** [t.strftime(format)] for the time whose [isoformat()] is the reading
    [t] of the clock. *)
Variable strftime : pystr -> pystr -> pystr.

(** [CrawlerFactory._crawlers] when the runner starts. *)
Variable _crawlers : CrawlerFactory.registry.

(** [DataStorage()] *)
Definition data_dir : pystr := lit "data".

(** One iteration of [for i, url_config in enumerate(search_urls, 1)]; the
    totals come in with [st], whose [config_result] is the fresh dict. *)
Definition process_config (max_pages : option Z) (url_config : SearchUrl)
    (st : Locals) : M Locals :=
  let key := su_key url_config in
  let name := su_name url_config in
  let url := su_url url_config in
  let crawler_type := su_crawler_type url_config in
  try_stmt st (CrawlerFactory.create_crawler py_repr _crawlers crawler_type)
    (fun crawler =>
  let max_pages := default 20 max_pages in
  try_stmt st (BaseCrawler.crawl_search_url crawler url max_pages)
    (fun results =>
  let st := set_crawled_count (len results) st in
  if truthy results then
    try_stmt st (Storage.save_data unicode_word md5_hexdigest data_dir
                                   url results (Some key) (Some name))
      (fun '(all_items, new_items) =>
    let st := record_saved all_items new_items st in
    try_stmt st (Storage.get_summary unicode_word md5_hexdigest data_dir url (Some name))
      (fun _ => mret st))
  else mret st)).

(** The loop over [search_urls]; [run_results] collects each [config_result]. *)
Fixpoint process_all (max_pages : option Z) (search_urls : list SearchUrl)
    (total_new total_all : Z) (run_results : list ConfigResult)
  : M (Z * Z * list ConfigResult) :=
  match search_urls with
  | [] => mret (total_new, total_all, run_results)
  | url_config :: rest =>
      st ← process_config max_pages url_config
             (mkLocals total_new total_all (new_config_result url_config));
      process_all max_pages rest (total_new_items st) (total_all_items st)
                  (run_results ++ [config_result st])
  end.

(** [generate_markdown_report]; the two defaults [datetime.now()] of
    [run_result.get] are evaluated, and not used. *)
Definition generate_markdown_report (run_result : RunResult) : M pystr :=
  _ ← datetime_now;
  _ ← datetime_now;
  mret (join_lines
          ([lit "# 爬虫运行报告";
            [];
            lit "**运行时间**: "
              ++ strftime (lit "%Y-%m-%d %H:%M:%S") (rr_start_time run_result)
              ++ lit " - " ++ strftime (lit "%H:%M:%S") (rr_end_time run_result);
            lit "**处理配置**: " ++ str_of_int (rr_total_configs run_result) ++ lit " 个";
            lit "**总计数据项**: " ++ str_of_int (rr_total_all_items run_result);
            lit "**本次新增**: " ++ str_of_int (rr_total_new_items run_result);
            [];
            lit "---";
            []]
           ++ results_lines 1 (rr_results run_result))).

(** [save_markdown_report]; the file is opened in [output_dir], the name
    that [strftime] gives having no [/]. *)
Definition save_markdown_report (run_result : RunResult) (output_dir : pystr) : M pystr :=
  ex ← dir_exists output_dir;
  (if negb ex then os_makedirs output_dir else mret tt);;
  now ← datetime_now;
  let timestamp := strftime (lit "%Y%m%d_%H%M%S") now in
  let filename := lit "result_" ++ timestamp ++ lit ".md" in
  let filepath := os_path_join output_dir filename in
  report_content ← generate_markdown_report run_result;
  write_file_in py_repr output_dir filepath (MarkdownFile report_content);;
  mret filepath.

(** [run_crawler], [config] being what [load_config] returns.  The function
    returns [None]; the model returns the dict [run_result] when the
    function has built it and [save_markdown_report] has returned, for the
    theorems to speak of it. *)
Definition run_crawler (generate_report : bool) (config : option Config)
  : M (option RunResult) :=
  start_time ← datetime_now;
  match config with
  | None => mret None
  | Some config =>
      let search_urls := enabled_search_urls (cfg_search_urls config) in
      if negb (truthy search_urls) then mret None
      else
        '(total_new, total_all, run_results) ←
          process_all (cfg_max_pages config) search_urls 0 0 [];
        end_time ← datetime_now;
        all_summaries ← Storage.get_all_summaries data_dir py_repr;
        if generate_report then
          let run_result :=
            mkRunResult start_time end_time (len search_urls) total_all total_new
                        run_results in
          report_path ← save_markdown_report run_result (lit "result");
          mret (Some run_result)
        else mret None
  end.

End Runner.

End CrawlerManager.

(** ** main.py *)

Module Main.

Import CrawlerManager.

(** A statement of the [try] block of [main], whose [except] clause only
    logs: the totals stay as they are at that point. *)
Definition try_stmt {A} (totals : Z * Z) (m : M A) (k : A -> M (Z * Z)) : M (Z * Z) :=
  fun w =>
    match m w with
    | (Ok a, w') => k a w'
    | (Raise _, w') => (Ok totals, w')
    end.

Section Runner.

Variable unicode_word : N -> bool.
Variable md5_hexdigest : pystr -> pystr.
Variable py_repr : pystr -> pystr.
Variable _crawlers : CrawlerFactory.registry.

(** One iteration of the loop of [main] over [search_urls]; [totals] is
    [(total_new_items, total_all_items)]. *)
Definition process_config (max_pages : option Z) (url_config : SearchUrl)
    (totals : Z * Z) : M (Z * Z) :=
  let key := su_key url_config in
  let name := su_name url_config in
  let url := su_url url_config in
  let crawler_type := su_crawler_type url_config in
  try_stmt totals (CrawlerFactory.create_crawler py_repr _crawlers crawler_type)
    (fun crawler =>
  let max_pages := default 20 max_pages in
  try_stmt totals (BaseCrawler.crawl_search_url crawler url max_pages)
    (fun results =>
  if truthy results then
    try_stmt totals (Storage.save_data unicode_word md5_hexdigest data_dir
                                       url results (Some key) (Some name))
      (fun '(all_items, new_items) =>
    let totals := (fst totals + len new_items, snd totals + len all_items) in
    try_stmt totals
      (Storage.get_summary unicode_word md5_hexdigest data_dir url (Some name))
      (fun _ => mret totals))
  else mret totals)).

End Runner.

End Main.

(** ** Closed instances for the examples *)

Module Sample.

(** A process that starts in an empty working directory, with no network. *)
Definition offline_world : World :=
  mkWorld (fun _ _ => HttpError (Exn RequestException (lit "Connection refused")))
          0 (fun n => lit "2024-01-01T00:00:0" ++ str_of_int (Z.of_nat n)) 0 ∅ [].

(** A process that starts in an empty working directory; the first request
    brings a page with the characters [ab], the second one a page with [c],
    every later one fails. *)
Definition two_page_world : World :=
  mkWorld (fun n _ =>
             match n with
             | O => HttpOk (lit "ab")
             | S O => HttpOk (lit "c")
             | _ => HttpError (Exn RequestException (lit "Read timed out"))
             end)
          0 (fun n => lit "2024-01-01T00:00:0" ++ str_of_int (Z.of_nat n)) 0 ∅ [].

(** The ASCII part of [\w]. *)
Definition ascii_word (c : N) : bool :=
  ((48 <=? c) && (c <=? 57) || (65 <=? c) && (c <=? 90)
   || (97 <=? c) && (c <=? 122) || (c =? 95))%N.

(** The ASCII part of [\d]. *)
Definition ascii_digit (c : N) : bool := ((48 <=? c) && (c <=? 57))%N.

(** The digest function at the listing address of the examples,
    [http://x/list]. *)
Definition list_digest (_ : pystr) : pystr := lit "e97e7405df891d49988701f80e9bf922".

(** [repr] of a [str] without quote, backslash or non-printable character. *)
Definition plain_repr (s : pystr) : pystr := lit "'" ++ s ++ lit "'".

(** A parser that accepts every page but those that contain [!]. *)
Definition strict_parser (encoding : pystr) (body : list N) : option exn :=
  if contains (lit "!") body
  then Some (Exn AssertionError (lit "expected name token")) else None.

(** An extraction that finds one record per character of the page, and
    raises on a page that contains [[]. *)
Definition extract_chars (soup : BaseCrawler.Soup) : result (list Item) :=
  if contains (lit "[") (BaseCrawler.soup_body soup)
  then Raise (Exn ValueError (lit "Invalid IPv6 URL"))
  else Ok (List.map (fun c => mkItem [c] (lit "http://x/" ++ [c]) None)
                    (BaseCrawler.soup_body soup)).

(** The class [SichuanFGWCrawler] with these instances. *)
Definition sichuan_fgw : BaseCrawler.Crawler :=
  SichuanFGW.SichuanFGWCrawler ascii_digit strict_parser extract_chars.

(** The registry of [crawler_factory.py]. *)
Definition registry : CrawlerFactory.registry := [(lit "sichuan_fgw", sichuan_fgw)].

(** The record [{'title': t, 'url': u}]. *)
Definition item (t u : string) : Item := mkItem (lit t) (lit u) None.

(** The record with the [i]-th url, for inputs that each bring a record of
    their own. *)
Definition numbered (i : nat) : Item :=
  mkItem (lit "T") (lit "http://x/" ++ str_of_int (Z.of_nat i)) None.

(** A configured source of the listing address, named after its key. *)
Definition source (key crawler_type : string) : CrawlerManager.SearchUrl :=
  CrawlerManager.mkSearchUrl (lit key) (lit key) (lit "http://x/list") []
                             (lit crawler_type).

(** The loops of [run_crawler] and of [main] with these instances. *)
Definition process_config :=
  CrawlerManager.process_config ascii_word list_digest plain_repr registry.

Definition process_all :=
  CrawlerManager.process_all ascii_word list_digest plain_repr registry.

Definition main_process_config :=
  Main.process_config ascii_word list_digest plain_repr registry.

Definition list_url : pystr := lit "http://x/list".

(** [DataStorage().save_data] and [export_to_csv] with these instances. *)
Definition save := Storage.save_data ascii_word list_digest (lit "data").

Definition save_each := Storage.save_each ascii_word list_digest (lit "data").

Definition export := Storage.export_to_csv ascii_word list_digest (lit "data").

(** [strftime] on the readings of the sample clocks: what the format keeps
    of [2024-01-01T00:00:0s]. *)
Definition sample_strftime (format reading : pystr) : pystr :=
  if bool_decide (format = lit "%Y%m%d_%H%M%S")
  then lit "20240101_00000" ++ drop 18 reading
  else if bool_decide (format = lit "%H:%M:%S")
  then lit "00:00:0" ++ drop 18 reading
  else lit "2024-01-01 00:00:0" ++ drop 18 reading.

(** [run_crawler] with these instances, and a configuration with a source
    of the registered type and a source of an unregistered one. *)
Definition run_crawler :=
  CrawlerManager.run_crawler ascii_word list_digest plain_repr sample_strftime registry.

Definition sample_config : CrawlerManager.Config :=
  CrawlerManager.mkConfig
    [(lit "a", CrawlerManager.mkUrlConfig None None (lit "http://x/list") None None);
     (lit "off", CrawlerManager.mkUrlConfig (Some false) None (lit "http://x/off") None None);
     (lit "b", CrawlerManager.mkUrlConfig (Some true) (Some (lit "B")) (lit "http://x/b")
                 None (Some (lit "unknown_site")))]
    (Some 3).

End Sample.

(** * Properties *)

(** ** The store *)

Module StorageFacts.

Import Storage.

Section Facts.

Variable unicode_word : N -> bool.
Variable md5_hexdigest : pystr -> pystr.
Variable data_dir : pystr.

Local Abbreviation data_file := (_get_data_file unicode_word md5_hexdigest data_dir).
Local Abbreviation history_file := (_get_history_file unicode_word md5_hexdigest data_dir).
Local Abbreviation save := (save_data unicode_word md5_hexdigest data_dir).

Lemma os_path_join_inj (a b suffix1 suffix2 : pystr) :
  startswith (lit "/") (b ++ suffix1) = startswith (lit "/") (b ++ suffix2) ->
  os_path_join a (b ++ suffix1) = os_path_join a (b ++ suffix2) ->
  suffix1 = suffix2.
Proof.
  unfold os_path_join. intros ->.
  destruct (startswith (lit "/") (b ++ suffix2)).
  - intros H. by apply app_inv_head in H.
  - destruct (negb (truthy a) || endswith (lit "/") a); intros H.
    + apply app_inv_head in H. by apply app_inv_head in H.
    + apply app_inv_head in H. apply app_inv_head in H. by apply app_inv_head in H.
Qed.

Lemma data_history_distinct url name : data_file url name <> history_file url name.
Proof.
  unfold _get_data_file, _get_history_file. intros H.
  apply os_path_join_inj in H; [discriminate H|].
  destruct (_get_file_name unicode_word md5_hexdigest url name); reflexivity.
Qed.

Lemma load_existing_data_eq url name w :
  load_existing_data unicode_word md5_hexdigest data_dir url name w =
  (Ok match files w !! data_file url name with
      | Some (DataFile d) => JData d
      | Some (HistoryFile h) => JHistory h
      | _ => JEmptyDict
      end, w).
Proof.
  unfold load_existing_data, mbind, M_bind, path_exists, try_except, json_load.
  destruct (files w !! data_file url name) as [[]|] eqn:E; simpl; rewrite ?E; reflexivity.
Qed.

Lemma _save_history_eq url new key name w :
  _save_history unicode_word md5_hexdigest data_dir url new key name w =
  match new with
  | [] => (Ok tt, w)
  | _ :: _ =>
      match files w !! history_file url name with
      | Some (DataFile _) =>
          (Raise (Exn AttributeError (lit "'dict' object has no attribute 'append'")),
           mkWorld (net w) (gets w) (clock w) (S (ticks w)) (files w) (trace w))
      | _ =>
          (Ok tt, written w (history_file url name)
                    (HistoryFile (keep_recent (stored_history w (history_file url name)
                                               ++ [entry_at w new key name]))))
      end
  end.
Proof.
  unfold _save_history, stored_history, entry_at, written.
  destruct new as [|r new]; [reflexivity|].
  unfold mbind, M_bind, path_exists, try_except, json_load, datetime_now; simpl.
  destruct (files w !! history_file url name) as [[]|] eqn:E; simpl; rewrite ?E;
    reflexivity.
Qed.

Lemma new_of_filter existing results :
  new_of existing results =
  List.filter (fun item => negb (bool_decide (url item ∈ List.map url existing))) results.
Proof.
  unfold new_of. apply List.filter_ext. intros item. f_equal.
  apply bool_decide_ext. apply elem_of_list_to_set.
Qed.

Lemma save_data_eq url results key name w :
  save url results key name w =
  match files w !! data_file url name with
  | Some (HistoryFile _) =>
      (Raise (Exn AttributeError (lit "'list' object has no attribute 'get'")), w)
  | _ =>
      let existing := stored_items w (data_file url name) in
      let new := new_of existing results in
      let all := existing ++ new in
      let w1 := written w (data_file url name)
                  (DataFile (mkSet url key name (clock w (ticks w)) (len all) all)) in
      match _save_history unicode_word md5_hexdigest data_dir url new key name w1 with
      | (Ok _, w2) => (Ok (all, new), w2)
      | (Raise e, w2) => (Raise e, w2)
      end
  end.
Proof.
  unfold save_data, stored_items. unfold mbind at 1, M_bind at 1.
  rewrite load_existing_data_eq.
  destruct (files w !! data_file url name) as [[]|] eqn:E; reflexivity.
Qed.

(** What a call of [save_data] that returns has done. *)
Lemma save_data_inv url results key name w all new w' :
  save url results key name w = (Ok (all, new), w') ->
  let existing := stored_items w (data_file url name) in
  new = new_of existing results /\
  all = existing ++ new /\
  files w' !! data_file url name =
    Some (DataFile (mkSet url key name (clock w (ticks w)) (len all) all)) /\
  (new = [] -> files w' !! history_file url name = files w !! history_file url name) /\
  (new <> [] ->
   files w' !! history_file url name =
     Some (HistoryFile
             (keep_recent (stored_history w (history_file url name)
                           ++ [mkEntry (clock w (S (ticks w))) key name (len new) new])))).
Proof.
  intros Hsave existing. rewrite save_data_eq in Hsave.
  pose proof (data_history_distinct url name) as Hne.
  fold existing in Hsave.
  assert (Hrun :
    match _save_history unicode_word md5_hexdigest data_dir url
            (new_of existing results) key name
            (written w (data_file url name)
               (DataFile (mkSet url key name (clock w (ticks w))
                            (len (existing ++ new_of existing results))
                            (existing ++ new_of existing results)))) with
    | (Ok _, w2) => (Ok (existing ++ new_of existing results, new_of existing results), w2)
    | (Raise e, w2) => (Raise e, w2)
    end = (Ok (all, new), w')).
  { destruct (files w !! data_file url name) as [[]|]; try exact Hsave; discriminate. }
  clear Hsave. rewrite _save_history_eq in Hrun.
  unfold stored_history, entry_at, written in Hrun. simpl in Hrun.
  rewrite lookup_insert_ne in Hrun by exact Hne.
  destruct (new_of existing results) as [|r rest] eqn:Hnew.
  - inversion Hrun; subst; clear Hrun. simpl.
    rewrite lookup_insert_eq, lookup_insert_ne by exact Hne.
    rewrite app_nil_r. repeat split; try done.
  - unfold stored_history.
    destruct (files w !! history_file url name) as [[]|] eqn:EH;
      inversion Hrun; subst; clear Hrun; simpl;
      rewrite lookup_insert_eq, lookup_insert_ne, lookup_insert_eq by (by apply not_eq_sym);
      repeat split; done.
Qed.

Lemma filter_none {A} (f : A -> bool) (l : list A) :
  (forall x, In x l -> f x = false) -> List.filter f l = [].
Proof.
  induction l as [|a l IH]; intros H; [reflexivity|]. simpl.
  rewrite (H a) by (left; reflexivity). apply IH. intros x Hx. apply H. right. exact Hx.
Qed.

Lemma new_of_In existing results item :
  In item (new_of existing results) <->
  In item results /\ ~ In (url item) (List.map url existing).
Proof.
  rewrite new_of_filter, List.filter_In, negb_true_iff, bool_decide_eq_false.
  by rewrite list_elem_of_In.
Qed.

(** Once the new records are stored, none of the input is new. *)
Lemma new_of_saved existing results :
  new_of (existing ++ new_of existing results) results = [].
Proof.
  rewrite new_of_filter. apply filter_none. intros item Hin.
  rewrite negb_false_iff, bool_decide_eq_true, list_elem_of_In, List.map_app, List.in_app_iff.
  destruct (decide (url item ∈ List.map url existing)) as [Hold|Hnew];
    rewrite list_elem_of_In in *; [left; exact Hold|right].
  apply List.in_map. apply new_of_In. split; assumption.
Qed.

(** The new records are the input records whose url is not stored, in the
    order of the input; nothing else is filtered. *)
Lemma save_data_new_records url results key name w all new w' :
  save url results key name w = (Ok (all, new), w') ->
  new = List.filter
          (fun item => negb (bool_decide
             (Env.url item ∈ List.map Env.url (stored_items w (data_file url name)))))
          results.
Proof.
  intros H. destruct (save_data_inv _ _ _ _ _ _ _ _ H) as (-> & _).
  apply new_of_filter.
Qed.


(** C1. Idempotence of [save_data]: when a call returns [(all, new)], the
    same call made again right after it returns [(all, [])], and the data
    file holds the same items, in the same number, after both calls. *)
Theorem save_data_idempotent url results key name w all1 new1 w1 :
  save url results key name w = (Ok (all1, new1), w1) ->
  exists w2,
    save url results key name w1 = (Ok (all1, []), w2) /\
    stored_items w2 (data_file url name) = stored_items w1 (data_file url name) /\
    stored_items w1 (data_file url name) = all1 /\
    length (stored_items w2 (data_file url name)) = length all1.
Proof.
  intros H1. destruct (save_data_inv _ _ _ _ _ _ _ _ H1) as (Hnew & Hall & Hfile & _).
  assert (Hstored : stored_items w1 (data_file url name) = all1).
  { unfold stored_items. by rewrite Hfile. }
  assert (Hnone : new_of all1 results = []).
  { rewrite Hall, Hnew. apply new_of_saved. }
  rewrite save_data_eq, Hfile. cbv zeta. rewrite Hstored, Hnone, _save_history_eq.
  rewrite app_nil_r. eexists. split; [reflexivity|].
  unfold stored_items, written. simpl. rewrite lookup_insert_eq. simpl. done.
Qed.

(** C3. Store invariant of [save_data]: after a call that returns, the data
    file holds a record set whose [total_count] is the length of its [items];
    the items stored before are a prefix of it, each at its position; the
    rest is [new_records]; and a record of the new file whose url was
    already stored is one of the records stored before, so an input record
    that repeats a stored url (with whatever title) is not stored. *)
Theorem save_data_invariant url results key name w all new w' :
  save url results key name w = (Ok (all, new), w') ->
  let before := stored_items w (data_file url name) in
  exists d,
    files w' !! data_file url name = Some (DataFile d) /\
    total_count d = len (items d) /\
    items d = before ++ new /\
    all = items d /\
    (length before <= length (items d))%nat /\
    (forall i r, before !! i = Some r -> items d !! i = Some r) /\
    (forall r, In r (items d) -> In (Env.url r) (List.map Env.url before) -> In r before) /\
    (forall r, In r results -> In (Env.url r) (List.map Env.url before) -> ~ In r new).
Proof.
  intros H before. destruct (save_data_inv _ _ _ _ _ _ _ _ H) as (Hnew & Hall & Hfile & _).
  fold before in Hnew, Hall. subst all.
  eexists. split; [exact Hfile|]. simpl.
  split; [reflexivity|]. split; [reflexivity|]. split; [reflexivity|].
  split; [rewrite length_app; lia|].
  split; [intros i r Hi; by apply lookup_app_l_Some|].
  split.
  - intros r Hr Hurl. apply List.in_app_iff in Hr as [Hr|Hr]; [exact Hr|].
    rewrite Hnew in Hr. apply new_of_In in Hr as [_ Hr]. contradiction.
  - intros r _ Hurl Hr. rewrite Hnew in Hr. apply new_of_In in Hr as [_ Hr]. contradiction.
Qed.

Lemma keep_recent_last50 h : keep_recent h = last50 h.
Proof.
  unfold keep_recent, last50, len. destruct (Z.ltb_spec 50 (Z.of_nat (length h))) as [Hlt|Hle];
    [reflexivity|].
  replace (length h - 50)%nat with 0%nat by lia. reflexivity.
Qed.

Lemma last50_length {A} (l : list A) : length (last50 l) = Nat.min (length l) 50.
Proof. unfold last50. rewrite length_drop. lia. Qed.

Lemma last50_app {A} (l k : list A) : last50 (last50 l ++ k) = last50 (l ++ k).
Proof.
  unfold last50. rewrite !length_app, length_drop.
  destruct (Nat.le_gt_cases (length l) 50) as [Hle|Hgt].
  - replace (length l - 50)%nat with 0%nat by lia. rewrite drop_0.
    by replace (length l - 0)%nat with (length l) by lia.
  - rewrite (drop_app l), (drop_app (drop _ l)), drop_drop, length_drop.
    f_equal; f_equal; lia.
Qed.

Lemma save_each_history url key name inputs : forall w outs w',
  save_each unicode_word md5_hexdigest data_dir url key name inputs w = (Ok outs, w') ->
  length outs = length inputs /\
  exists entries,
    Forall2 (entry_of key name) entries
            (List.filter (fun new => truthy new) (List.map snd outs)) /\
    (entries = [] ->
     files w' !! history_file url name = files w !! history_file url name) /\
    (entries <> [] ->
     files w' !! history_file url name =
       Some (HistoryFile (last50 (stored_history w (history_file url name) ++ entries)))).
Proof.
  induction inputs as [|results rest IH]; intros w outs w' Hrun.
  - inversion Hrun; subst. split; [reflexivity|]. exists []. simpl. repeat split; done.
  - simpl in Hrun. unfold mbind at 1, M_bind at 1 in Hrun.
    destruct (save url results key name w) as [[[all new]|e] w1] eqn:Hsave; [|discriminate].
    unfold mbind, M_bind in Hrun.
    destruct (save_each _ _ _ _ _ _ rest w1) as [[outs'|e] w2] eqn:Hrest; [|discriminate].
    inversion Hrun; subst; clear Hrun.
    destruct (IH _ _ _ Hrest) as (Hlen & entries & Hent & Hnil & Hcons).
    destruct (save_data_inv _ _ _ _ _ _ _ _ Hsave) as (_ & _ & _ & Hsame & Happ).
    split; [simpl; by rewrite Hlen|]. simpl.
    destruct new as [|r new]; simpl.
    + specialize (Hsame eq_refl). exists entries. split; [exact Hent|].
      unfold stored_history in *. rewrite Hsame in Hnil, Hcons. split; assumption.
    + assert (Hne : r :: new <> []) by discriminate. specialize (Happ Hne).
      rewrite keep_recent_last50 in Happ.
      exists (mkEntry (clock w (S (ticks w))) key name (len (r :: new)) (r :: new)
                :: entries).
      split; [apply Forall2_cons; split; [|exact Hent]|].
      { repeat split; reflexivity. }
      split; [discriminate|]. intros _.
      destruct entries as [|e entries].
      * rewrite Hnil by reflexivity. exact Happ.
      * rewrite Hcons by discriminate. unfold stored_history at 1. rewrite Happ.
        rewrite last50_app, <- app_assoc. reflexivity.
Qed.

(** C4. History log of a source over a run of [save_data] calls that all
    return: the history file has one entry for each call whose [new_records]
    is non-empty, in call order, and for no other call; when no call has
    new records the file is what it was (absent if it was absent); otherwise
    it holds the last fifty of the entries it held followed by the new
    ones.  Starting without a history file, [N] calls that all have new
    records leave [min N 50] entries, the most recent ones. *)
Theorem history_log_bounded url key name inputs w outs w' :
  save_each unicode_word md5_hexdigest data_dir url key name inputs w = (Ok outs, w') ->
  exists entries,
    Forall2 (entry_of key name) entries
            (List.filter (fun new => truthy new) (List.map snd outs)) /\
    (entries = [] ->
     files w' !! history_file url name = files w !! history_file url name) /\
    (entries <> [] ->
     files w' !! history_file url name =
       Some (HistoryFile (last50 (stored_history w (history_file url name) ++ entries)))) /\
    (files w !! history_file url name = None ->
     Forall (fun out => snd out <> []) outs ->
     length entries = length inputs /\
     stored_history w' (history_file url name) = last50 entries /\
     length (stored_history w' (history_file url name)) = Nat.min (length inputs) 50).
Proof.
  intros Hrun.
  destruct (save_each_history _ _ _ _ _ _ _ Hrun) as (Hlen & entries & Hent & Hnil & Hcons).
  exists entries. split; [exact Hent|]. split; [exact Hnil|]. split; [exact Hcons|].
  intros Habsent Hall.
  assert (Hcount : length entries = length inputs).
  { rewrite (Forall2_length _ _ _ Hent), <- Hlen. clear -Hall.
    induction Hall as [|[all new] outs Hnew _ IH]; [reflexivity|].
    simpl in *. destruct new; [done|]. simpl. by rewrite IH. }
  assert (Hhist : stored_history w' (history_file url name) = last50 entries).
  { unfold stored_history in *. destruct entries as [|e entries].
    - rewrite Hnil, Habsent by reflexivity. reflexivity.
    - rewrite Hcons, Habsent by discriminate. reflexivity. }
  split; [exact Hcount|]. split; [exact Hhist|].
  by rewrite Hhist, last50_length, Hcount.
Qed.

End Facts.

Import Sample.

Lemma save_data_idempotent_witness :
  let results := [item "T" "http://x/1"; item "U" "http://x/2"] in
  let w1 := snd (save list_url results (Some (lit "k")) (Some (lit "src")) offline_world) in
  save list_url results (Some (lit "k")) (Some (lit "src")) offline_world
    = (Ok (results, results), w1) /\
  exists w2,
    save list_url results (Some (lit "k")) (Some (lit "src")) w1 = (Ok (results, []), w2) /\
    stored_items w2 (lit "data/src.json") = stored_items w1 (lit "data/src.json") /\
    stored_items w1 (lit "data/src.json") = results /\
    length (stored_items w2 (lit "data/src.json")) = length results.
Proof.
  intros results w1.
  assert (H : save list_url results (Some (lit "k")) (Some (lit "src")) offline_world
              = (Ok (results, results), w1)) by (vm_compute; reflexivity).
  split; [exact H|].
  exact (save_data_idempotent ascii_word list_digest (lit "data") list_url results
           (Some (lit "k")) (Some (lit "src")) offline_world results results w1 H).
Defined.

(** The scenario of C3: ["T"] is stored for [http://x/1]; the next crawl
    brings ["T2"] for the same url and ["U"] for [http://x/2]. *)
Lemma save_data_invariant_witness :
  let stored := item "T" "http://x/1" in
  let results := [item "T2" "http://x/1"; item "U" "http://x/2"] in
  let new := [item "U" "http://x/2"] in
  let w := snd (save list_url [stored] (Some (lit "k")) (Some (lit "src")) offline_world) in
  let w' := snd (save list_url results (Some (lit "k")) (Some (lit "src")) w) in
  save list_url results (Some (lit "k")) (Some (lit "src")) w
    = (Ok (stored :: new, new), w') /\
  exists d,
    files w' !! lit "data/src.json" = Some (DataFile d) /\
    total_count d = len (items d) /\
    items d = [stored] ++ new /\
    stored :: new = items d /\
    (length [stored] <= length (items d))%nat /\
    (forall i r, [stored] !! i = Some r -> items d !! i = Some r) /\
    (forall r, In r (items d) -> In (url r) (List.map url [stored]) -> In r [stored]) /\
    (forall r, In r results -> In (url r) (List.map url [stored]) -> ~ In r new).
Proof.
  intros stored results new w w'.
  assert (H : save list_url results (Some (lit "k")) (Some (lit "src")) w
              = (Ok (stored :: new, new), w')) by (vm_compute; reflexivity).
  split; [exact H|].
  exact (save_data_invariant ascii_word list_digest (lit "data") list_url results
           (Some (lit "k")) (Some (lit "src")) w (stored :: new) new w' H).
Defined.

Lemma history_log_bounded_witness :
  let t := item "T" "http://x/1" in
  let u := item "U" "http://x/2" in
  let inputs := [[t]; [t]; [t; u]] in
  let outs := [([t], [t]); ([t], []); ([t; u], [u])] in
  let key := Some (lit "k") in
  let name := Some (lit "src") in
  let w' := snd (save_each list_url key name inputs offline_world) in
  save_each list_url key name inputs offline_world = (Ok outs, w') /\
  exists entries,
    Forall2 (entry_of key name) entries [[t]; [u]] /\
    (entries = [] ->
     files w' !! lit "data/src_history.json"
       = files offline_world !! lit "data/src_history.json") /\
    (entries <> [] ->
     files w' !! lit "data/src_history.json" =
       Some (HistoryFile
               (last50 (stored_history offline_world (lit "data/src_history.json")
                        ++ entries)))) /\
    (files offline_world !! lit "data/src_history.json" = None ->
     Forall (fun out => snd out <> []) outs ->
     length entries = length inputs /\
     stored_history w' (lit "data/src_history.json") = last50 entries /\
     length (stored_history w' (lit "data/src_history.json"))
       = Nat.min (length inputs) 50).
Proof.
  intros t u inputs outs key name w'.
  assert (H : save_each list_url key name inputs offline_world = (Ok outs, w'))
    by (vm_compute; reflexivity).
  split; [exact H|].
  exact (history_log_bounded ascii_word list_digest (lit "data") list_url key name
           inputs offline_world outs w' H).
Defined.

(** Fifty-one calls that each bring one new record: the history file keeps
    fifty entries, the first call's entry is gone and the last one is last. *)
Example history_cap_51 :
  let inputs := List.map (fun i => [numbered i]) (seq 0 51) in
  let w' := snd (save_each list_url (Some (lit "k")) (Some (lit "src")) inputs
                   offline_world) in
  List.map new_items (stored_history w' (lit "data/src_history.json"))
    = List.map (fun i => [numbered i]) (seq 1 50).
Proof. vm_compute. reflexivity. Qed.

(** C2. [save_data] on an input that repeats a url, here two records with
    the url [http://x/1] and nothing stored yet: both records come back as
    new and both are stored; the new records are the input records whose url
    is not stored, and no record is dropped for repeating the url of an
    earlier input record. *)
Theorem save_data_repeated_url :
  let a := item "A" "http://x/1" in
  let b := item "B" "http://x/1" in
  let run := save list_url [a; b] (Some (lit "k")) (Some (lit "src")) offline_world in
  fst run = Ok ([a; b], [a; b]) /\
  stored_items (snd run) (lit "data/src.json") = [a; b].
Proof. vm_compute. split; reflexivity. Qed.

(** C8. [export_to_csv] for a source that was saved under its display name,
    as the runner saves every source: the two records are in
    [data/src.json], [export_to_csv] reads the file named after the digest
    of the url, finds none, and writes the header row and no record row. *)
Theorem export_to_csv_named_source :
  let records := [item "T" "http://x/1"; item "U" "http://x/2"] in
  let w := snd (save list_url records (Some (lit "k")) (Some (lit "src")) offline_world) in
  let w' := snd (export list_url (lit "export_1.csv") w) in
  stored_items w (lit "data/src.json") = records /\
  files w' !! lit "export_1.csv" = Some (CsvFile [csv_header]).
Proof. vm_compute. split; reflexivity. Qed.

End StorageFacts.

(** ** The crawler *)

Module CrawlerFacts.

Import BaseCrawler.

Section Facts.

Variable self : Crawler.

Lemma session_get_eq url w :
  session_get url w =
  (match net w (gets w) url with
   | HttpOk body => Ok body
   | HttpError e => Raise e
   end, requested w url).
Proof. unfold session_get, requested, attempt_event. by destruct (net w (gets w) url). Qed.

(** One iteration of the loop of [fetch_page]. *)
Lemma fetch_attempts_unfold url max_retries attempt remaining w :
  fetch_attempts self url max_retries attempt (S remaining) w =
  match attempt_outcome self (net w) (gets w) url with
  | Ok soup => (Ok (Some soup), requested w url)
  | Raise _ =>
      if attempt <? max_retries - 1
      then fetch_attempts self url max_retries (attempt + 1) remaining
             (snd (time_sleep (2 ^ attempt) (requested w url)))
      else (Ok None, requested w url)
  end.
Proof.
  change (fetch_attempts self url max_retries attempt (S remaining) w)
    with ((r ← try_except
                 (body ← session_get url;
                  soup ← of_result (parse_response self body);
                  mret (Some (Some soup)))
                 (fun _ =>
                    if attempt <? max_retries - 1
                    then time_sleep (2 ^ attempt);; mret None
                    else mret (Some None));
           match r with
           | Some v => mret v
           | None => fetch_attempts self url max_retries (attempt + 1) remaining
           end) w).
  unfold mbind, M_bind, try_except. rewrite session_get_eq.
  unfold attempt_outcome, of_result.
  destruct (net w (gets w) url) as [body|e].
  - destruct (parse_response self body); [reflexivity|].
    destruct (attempt <? max_retries - 1); reflexivity.
  - destruct (attempt <? max_retries - 1); reflexivity.
Qed.

Lemma fetch_attempts_spec url max_retries : forall remaining attempt w,
  Z.of_nat (S remaining) = max_retries - attempt ->
  exists r w' k,
    fetch_attempts self url max_retries attempt (S remaining) w = (Ok r, w') /\
    (k <= remaining)%nat /\ same_store w w' /\
    gets w' = (gets w + S k)%nat /\
    trace w' = trace w ++ attempts_trace (net w) url (gets w) attempt k /\
    (forall i, (i < k)%nat ->
       exists e, attempt_outcome self (net w) (gets w + i) url = Raise e) /\
    match r with
    | Some soup => attempt_outcome self (net w) (gets w + k) url = Ok soup
    | None => k = remaining /\
              exists e, attempt_outcome self (net w) (gets w + k) url = Raise e
    end.
Proof.
  induction remaining as [|remaining IH]; intros attempt w Hrem;
    rewrite fetch_attempts_unfold;
    destruct (attempt_outcome self (net w) (gets w) url) as [soup|e] eqn:Hout.
  - exists (Some soup), (requested w url), 0%nat. rewrite Nat.add_0_r.
    split; [reflexivity|]. split; [lia|]. split; [done|]. split; [simpl; lia|].
    split; [reflexivity|]. split; [intros i Hi; lia|]. exact Hout.
  - replace (attempt <? max_retries - 1) with false by (symmetry; apply Z.ltb_ge; lia).
    exists None, (requested w url), 0%nat. rewrite Nat.add_0_r.
    split; [reflexivity|]. split; [lia|]. split; [done|]. split; [simpl; lia|].
    split; [reflexivity|]. split; [intros i Hi; lia|]. split; [reflexivity|]. by exists e.
  - exists (Some soup), (requested w url), 0%nat. rewrite Nat.add_0_r.
    split; [reflexivity|]. split; [lia|]. split; [done|]. split; [simpl; lia|].
    split; [reflexivity|]. split; [intros i Hi; lia|]. exact Hout.
  - replace (attempt <? max_retries - 1) with true by (symmetry; apply Z.ltb_lt; lia).
    destruct (IH (attempt + 1) (snd (time_sleep (2 ^ attempt) (requested w url)))
                ltac:(lia))
      as (r & w' & k & Hrun & Hk & (Hn & Hc & Ht & Hf) & Hgets & Htrace & Hfail & Hlast).
    cbn -[fetch_attempts Z.pow Z.add attempts_trace attempt_outcome] in *.
    exists r, w', (S k). split; [exact Hrun|].
    split; [lia|]. split; [done|]. split; [lia|].
    split; [rewrite Htrace, <- !app_assoc; reflexivity|].
    split.
    + intros [|i] Hi; [rewrite Nat.add_0_r; by exists e|].
      destruct (Hfail i ltac:(lia)) as [e' He']. exists e'.
      rewrite <- He'. f_equal. lia.
    + replace (gets w + S k)%nat with (S (gets w + k))%nat by lia.
      destruct r; [exact Hlast|]. destruct Hlast as [-> Hlast]. by split.
Qed.

Lemma fetch_page_spec url max_retries w :
  exists r w',
    fetch_page self url max_retries w = (Ok r, w') /\ same_store w w' /\
    ((max_retries <= 0 /\ r = None /\ w' = w) \/
     exists k : nat,
       Z.of_nat k < max_retries /\
       gets w' = (gets w + S k)%nat /\
       trace w' = trace w ++ attempts_trace (net w) url (gets w) 0 k /\
       (forall i, (i < k)%nat ->
          exists e, attempt_outcome self (net w) (gets w + i) url = Raise e) /\
       match r with
       | Some soup => attempt_outcome self (net w) (gets w + k) url = Ok soup
       | None => Z.of_nat k = max_retries - 1 /\
                 exists e, attempt_outcome self (net w) (gets w + k) url = Raise e
       end).
Proof.
  unfold fetch_page. destruct (Z.to_nat max_retries) as [|remaining] eqn:Hn.
  - exists None, w. split; [reflexivity|]. split; [done|]. left. repeat split; lia.
  - destruct (fetch_attempts_spec url max_retries remaining 0 w ltac:(lia))
      as (r & w' & k & Hrun & Hk & Hsame & Hgets & Htrace & Hfail & Hlast).
    exists r, w'. split; [exact Hrun|]. split; [exact Hsame|]. right.
    exists k. split; [lia|]. split; [exact Hgets|]. split; [exact Htrace|].
    split; [exact Hfail|]. destruct r; [exact Hlast|].
    destruct Hlast as [-> Hlast]. split; [lia|exact Hlast].
Qed.

(** C6. Failure policy of [fetch_page] with its bound of three attempts.
    The call always returns: no exception comes out of it, whatever the
    requests and the parse raise.  What it does is fixed by what the next
    three requests of the process bring.  If the first attempt succeeds, the
    call makes that one request and returns its page.  If it fails, the call
    pauses [2 ** 0] seconds and makes a second request; if that fails too it
    pauses [2 ** 1] seconds and makes a third one; after a third failure it
    does not pause and returns [None].  An attempt fails when the request
    raises (connection error, timeout, status that is not 2xx) or when the
    body cannot be parsed.  Nothing but the requests and the pauses
    happens. *)
Theorem fetch_page_retry_policy url w :
  let outcome i := attempt_outcome self (net w) (gets w + i) url in
  let request i := attempt_event (net w) (gets w + i) url in
  exists r w',
    fetch_page self url 3 w = (Ok r, w') /\ same_store w w' /\
    match outcome 0%nat with
    | Ok soup =>
        r = Some soup /\ gets w' = (gets w + 1)%nat /\
        trace w' = trace w ++ [request 0%nat]
    | Raise _ =>
        match outcome 1%nat with
        | Ok soup =>
            r = Some soup /\ gets w' = (gets w + 2)%nat /\
            trace w' = trace w ++ [request 0%nat; EvSleep (2 ^ 0); request 1%nat]
        | Raise _ =>
            gets w' = (gets w + 3)%nat /\
            trace w' = trace w ++ [request 0%nat; EvSleep (2 ^ 0); request 1%nat;
                                   EvSleep (2 ^ 1); request 2%nat] /\
            match outcome 2%nat with
            | Ok soup => r = Some soup
            | Raise _ => r = None
            end
        end
    end.
Proof.
  intros outcome request.
  destruct (fetch_page_spec url 3 w) as (r & w' & Hrun & Hsame & [(H & _)|Hk]); [lia|].
  destruct Hk as (k & Hk & Hgets & Htrace & Hfail & Hlast).
  exists r, w'. split; [exact Hrun|]. split; [exact Hsame|].
  unfold outcome, request.
  destruct k as [|[|[|k]]]; [| | |lia]; simpl in Htrace.
  - rewrite ?Nat.add_succ_r, ?Nat.add_0_r in *.
    destruct r as [soup|]; [|lia]. rewrite Hlast.
    split; [reflexivity|]. split; [lia|]. exact Htrace.
  - destruct (Hfail 0%nat ltac:(lia)) as [e0 H0].
    rewrite ?Nat.add_succ_r, ?Nat.add_0_r in *. rewrite H0.
    destruct r as [soup|]; [|lia]. rewrite Hlast.
    split; [reflexivity|]. split; [lia|]. exact Htrace.
  - destruct (Hfail 0%nat ltac:(lia)) as [e0 H0].
    destruct (Hfail 1%nat ltac:(lia)) as [e1 H1].
    rewrite ?Nat.add_succ_r, ?Nat.add_0_r in *. rewrite H0, H1.
    split; [lia|]. split; [exact Htrace|].
    destruct r as [soup|]; [by rewrite Hlast|].
    by destruct Hlast as (_ & e2 & ->).
Qed.

Lemma next_requests_app evs1 evs2 :
  next_requests (evs1 ++ evs2) = next_requests evs1 ++ next_requests evs2.
Proof. apply omap_app. Qed.

Lemma pages_of_app evs1 evs2 :
  pages_of self (evs1 ++ evs2) = pages_of self evs1 ++ pages_of self evs2.
Proof. apply omap_app. Qed.

Lemma next_requests_attempts answers url n attempt k :
  next_requests (attempts_trace answers url n attempt k) = [].
Proof.
  revert n attempt. induction k as [|k IH]; intros n attempt; [reflexivity|]. apply IH.
Qed.

Lemma pages_of_attempt answers n url :
  pages_of self [attempt_event answers n url] =
  match attempt_outcome self answers n url with
  | Ok soup => [soup]
  | Raise _ => []
  end.
Proof.
  unfold attempt_event, attempt_outcome, pages_of. simpl.
  destruct (answers n url) as [body|e]; [|reflexivity].
  by destruct (parse_response self body).
Qed.

Lemma pages_of_attempts answers url : forall k n attempt,
  (forall i, (i < k)%nat -> exists e, attempt_outcome self answers (n + i) url = Raise e) ->
  pages_of self (attempts_trace answers url n attempt k) =
  match attempt_outcome self answers (n + k) url with
  | Ok soup => [soup]
  | Raise _ => []
  end.
Proof.
  induction k as [|k IH]; intros n attempt Hfail.
  - rewrite Nat.add_0_r. apply pages_of_attempt.
  - change (attempts_trace answers url n attempt (S k))
      with ([attempt_event answers n url] ++ [EvSleep (2 ^ attempt)]
            ++ attempts_trace answers url (S n) (attempt + 1) k).
    rewrite !pages_of_app, pages_of_attempt.
    destruct (Hfail 0%nat ltac:(lia)) as [e He]. rewrite Nat.add_0_r in He. rewrite He.
    simpl. rewrite IH.
    + by replace (S n + k)%nat with (n + S k)%nat by lia.
    + intros i Hi. destruct (Hfail (S i) ltac:(lia)) as [e' He']. exists e'.
      by replace (S n + i)%nat with (n + S i)%nat by lia.
Qed.

(** What [crawl_search_url] sees of a call of [fetch_page]. *)
Lemma fetch_page_events url max_retries w :
  exists r w' evs,
    fetch_page self url max_retries w = (Ok r, w') /\ same_store w w' /\
    trace w' = trace w ++ evs /\ next_requests evs = [] /\
    pages_of self evs = match r with Some soup => [soup] | None => [] end.
Proof.
  destruct (fetch_page_spec url max_retries w) as (r & w' & Hrun & Hsame & [H|H]).
  - destruct H as (_ & -> & ->). exists None, w, []. rewrite app_nil_r. done.
  - destruct H as (k & _ & _ & Htrace & Hfail & Hlast).
    exists r, w', (attempts_trace (net w) url (gets w) 0 k).
    split; [exact Hrun|]. split; [exact Hsame|]. split; [exact Htrace|].
    split; [apply next_requests_attempts|]. rewrite (pages_of_attempts _ _ _ _ _ Hfail).
    destruct r as [soup|]; [by rewrite Hlast|]. by destruct Hlast as (_ & e & ->).
Qed.

Lemma same_store_trans w1 w2 w3 : same_store w1 w2 -> same_store w2 w3 -> same_store w1 w3.
Proof. unfold same_store. intros (-> & -> & -> & ->) (-> & -> & -> & ->). done. Qed.

(** The body of the loop of [crawl_search_url] when its test holds. *)
Lemma crawl_pages_unfold url max_pages page_num results remaining w :
  page_num < max_pages - 1 ->
  crawl_pages self url max_pages page_num results (S remaining) w =
  let next_page_url := build_next_page_url self url (page_num + 1) in
  let w1 := asked_next url page_num w in
  if truthy_opt next_page_url then
    match fetch_page self (default [] next_page_url) 3 w1 with
    | (Ok None, w2) => (Ok (results, ExitFetchFailed), w2)
    | (Ok (Some next_soup), w2) =>
        match extract_search_results self next_soup with
        | Ok next_results =>
            if truthy next_results then
              crawl_pages self url max_pages (page_num + 1) (results ++ next_results)
                          remaining (paused w2)
            else (Ok (results, ExitEmptyPage), w2)
        | Raise e => (Raise e, w2)
        end
    | (Raise e, w2) => (Raise e, w2)
    end
  else (Ok (results, ExitNoNext), w1).
Proof.
  intros Hlt. cbv zeta.
  change (crawl_pages self url max_pages page_num results (S remaining) w)
    with ((if page_num <? max_pages - 1 then
             emit (EvNextPage url (page_num + 1));;
             if negb (truthy_opt (build_next_page_url self url (page_num + 1)))
             then mret (results, ExitNoNext)
             else
               next_soup ← fetch_page self
                             (default [] (build_next_page_url self url (page_num + 1))) 3;
               match next_soup with
               | None => mret (results, ExitFetchFailed)
               | Some next_soup =>
                   next_results ← of_result (extract_search_results self next_soup);
                   if negb (truthy next_results) then mret (results, ExitEmptyPage)
                   else
                     time_sleep 1;;
                     crawl_pages self url max_pages (page_num + 1)
                                 (results ++ next_results) remaining
               end
           else mret (results, ExitBound)) w).
  replace (page_num <? max_pages - 1) with true by (symmetry; apply Z.ltb_lt; lia).
  unfold asked_next, paused, mbind, M_bind, time_sleep, emit, of_result. cbn [snd].
  destruct (truthy_opt (build_next_page_url self url (page_num + 1))); [|reflexivity].
  cbn [negb].
  destruct (fetch_page self _ 3 _) as [[[soup|]|e] w2]; try reflexivity.
  destruct (extract_search_results self soup) as [[|item items]|e]; reflexivity.
Qed.

Lemma crawl_pages_done url max_pages page_num results remaining w :
  max_pages - 1 <= page_num ->
  crawl_pages self url max_pages page_num results remaining w = (Ok (results, ExitBound), w).
Proof.
  intros Hge. destruct remaining as [|remaining]; [reflexivity|]. simpl.
  by replace (page_num <? max_pages - 1) with false by (symmetry; apply Z.ltb_ge; lia).
Qed.

Lemma truthy_opt_Some (next_page_url : option pystr) :
  truthy_opt next_page_url = true ->
  exists address, next_page_url = Some address /\ truthy address = true.
Proof. destruct next_page_url as [address|]; [|discriminate]. intros H. by exists address. Qed.

(** The loop, given iterations enough for the pages left, runs as the
    specification says. *)
Lemma crawl_pages_spec url max_pages : forall remaining page_num results w,
  max_pages - 1 - page_num <= Z.of_nat remaining ->
  exists out w' evs k,
    crawl_pages self url max_pages page_num results remaining w = (out, w') /\
    spec_paginate self url max_pages page_num results w (gathered out) w' /\
    same_store w w' /\ trace w' = trace w ++ evs /\
    next_requests evs = page_requests url page_num k /\
    Z.of_nat k <= Z.max 0 (max_pages - 1 - page_num) /\
    pages_gathered self results evs (gathered out).
Proof.
  assert (Hstop : forall page_num results w,
            max_pages - 1 <= page_num ->
            exists out w' evs k,
              (Ok (results, ExitBound), w) = (out, w') /\
              spec_paginate self url max_pages page_num results w (gathered out) w' /\
              same_store w w' /\ trace w' = trace w ++ evs /\
              next_requests evs = page_requests url page_num k /\
              Z.of_nat k <= Z.max 0 (max_pages - 1 - page_num) /\
              pages_gathered self results evs (gathered out)).
  { intros page_num results w Hge.
    exists (Ok (results, ExitBound)), w, [], 0%nat. rewrite app_nil_r.
    split; [reflexivity|]. split; [by constructor|]. split; [done|].
    split; [reflexivity|]. split; [reflexivity|]. split; [lia|].
    exists []. split; [constructor|]. simpl. by rewrite app_nil_r. }
  induction remaining as [|remaining IH]; intros page_num results w Hrem.
  { apply Hstop. lia. }
  destruct (Z.lt_ge_cases page_num (max_pages - 1)) as [Hlt|Hge].
  2:{ rewrite crawl_pages_done by lia. by apply Hstop. }
  rewrite crawl_pages_unfold by exact Hlt. cbv zeta.
  assert (Hask : trace (asked_next url page_num w)
                 = trace w ++ [EvNextPage url (page_num + 1)]) by reflexivity.
  assert (Hsame0 : same_store w (asked_next url page_num w)) by done.
  destruct (truthy_opt (build_next_page_url self url (page_num + 1))) eqn:Hnext.
  2:{ exists (Ok (results, ExitNoNext)), (asked_next url page_num w),
        [EvNextPage url (page_num + 1)], 1%nat.
      split; [reflexivity|]. split; [by apply paginate_no_next|]. split; [done|].
      split; [exact Hask|]. split; [reflexivity|]. split; [lia|].
      exists []. split; [constructor|]. simpl. by rewrite app_nil_r. }
  destruct (truthy_opt_Some _ Hnext) as (address & Haddress & Htruthy).
  rewrite Haddress. cbn [from_option id].
  destruct (fetch_page_events address 3 (asked_next url page_num w))
    as (r & w2 & evs & Hrun & Hsame & Htrace & Hreq & Hpages).
  rewrite Hrun.
  assert (Hsame1 : same_store w w2) by (by apply (same_store_trans _ _ _ Hsame0)).
  assert (Htrace1 : trace w2 = trace w ++ EvNextPage url (page_num + 1) :: evs)
    by (rewrite Htrace, Hask, <- app_assoc; reflexivity).
  assert (Hreq1 : next_requests (EvNextPage url (page_num + 1) :: evs)
                  = page_requests url page_num 1)
    by (change (EvNextPage url (page_num + 1) :: evs)
          with ([EvNextPage url (page_num + 1)] ++ evs);
        rewrite next_requests_app, Hreq; reflexivity).
  assert (Hpages1 : pages_of self (EvNextPage url (page_num + 1) :: evs)
                    = pages_of self evs) by reflexivity.
  destruct r as [soup|].
  2:{ exists (Ok (results, ExitFetchFailed)), w2, (EvNextPage url (page_num + 1) :: evs),
        1%nat.
      split; [reflexivity|]. split; [by eapply paginate_fetch_failed|].
      split; [exact Hsame1|]. split; [exact Htrace1|]. split; [exact Hreq1|].
      split; [lia|]. exists []. unfold extractions. rewrite Hpages1, Hpages.
      split; [constructor|]. simpl. by rewrite app_nil_r. }
  destruct (extract_search_results self soup) as [[|item items]|e] eqn:Hextract.
  - exists (Ok (results, ExitEmptyPage)), w2, (EvNextPage url (page_num + 1) :: evs), 1%nat.
    split; [reflexivity|]. split; [by eapply paginate_empty_page|].
    split; [exact Hsame1|]. split; [exact Htrace1|]. split; [exact Hreq1|].
    split; [lia|]. exists [[]]. unfold extractions. rewrite Hpages1, Hpages.
    split; [by repeat constructor|]. simpl. by rewrite app_nil_r.
  - cbn [truthy].
    destruct (IH (page_num + 1) (results ++ item :: items) (paused w2) ltac:(lia))
      as (out & w' & evs' & k & Hrun' & Hspec & Hsame' & Htrace' & Hreq' & Hk & Hgath).
    exists out, w', (EvNextPage url (page_num + 1) :: evs ++ EvSleep 1 :: evs'), (S k).
    split; [exact Hrun'|].
    split; [by eapply paginate_next_page|].
    split; [apply (same_store_trans _ w2); [exact Hsame1|];
            apply (same_store_trans _ (paused w2)); [done|exact Hsame']|].
    split; [rewrite Htrace'; unfold paused; simpl; rewrite Htrace1, <- !app_assoc;
            reflexivity|].
    assert (Hall : pages_of self (EvNextPage url (page_num + 1) :: evs ++ EvSleep 1 :: evs')
                   = soup :: pages_of self evs').
    { change (EvNextPage url (page_num + 1) :: evs ++ EvSleep 1 :: evs')
        with ([EvNextPage url (page_num + 1)] ++ evs ++ [EvSleep 1] ++ evs').
      rewrite !pages_of_app, Hpages. reflexivity. }
    split.
    { change (EvNextPage url (page_num + 1) :: evs ++ EvSleep 1 :: evs')
        with ([EvNextPage url (page_num + 1)] ++ evs ++ [EvSleep 1] ++ evs').
      rewrite !next_requests_app, Hreq, Hreq'. reflexivity. }
    split; [lia|].
    unfold pages_gathered, extractions in *. rewrite Hall.
    destruct (gathered out) as [res|e].
    + destruct Hgath as (per_page & Hper & ->). exists ((item :: items) :: per_page).
      split; [by constructor|]. simpl. by rewrite <- app_assoc.
    + destruct Hgath as (soup' & Hlast & Hraise). exists soup'.
      split; [|exact Hraise]. rewrite last_cons, Hlast. reflexivity.
  - exists (Raise e), w2, (EvNextPage url (page_num + 1) :: evs), 1%nat.
    split; [reflexivity|]. split; [by eapply paginate_extract_raises|].
    split; [exact Hsame1|]. split; [exact Htrace1|]. split; [exact Hreq1|].
    split; [lia|]. exists soup. rewrite Hpages1, Hpages. by split.
Qed.

(** A run the specification allows is the run of the loop. *)
Lemma spec_paginate_run url max_pages page_num results w r w' :
  spec_paginate self url max_pages page_num results w r w' ->
  forall remaining,
    max_pages - 1 - page_num <= Z.of_nat remaining ->
    exists out, crawl_pages self url max_pages page_num results remaining w = (out, w') /\
                gathered out = r.
Proof.
  induction 1 as [page_num results w Hge
                 |page_num results w Hlt Hnext
                 |page_num results w address w2 Hlt Hnext Htruthy Hfetch
                 |page_num results w address soup w2 e Hlt Hnext Htruthy Hfetch Hextract
                 |page_num results w address soup w2 Hlt Hnext Htruthy Hfetch Hextract
                 |page_num results w address soup w2 next_results r w' Hlt Hnext Htruthy
                    Hfetch Hextract Hsome _ IH];
    intros remaining Hrem.
  - rewrite crawl_pages_done by exact Hge. by eexists.
  - destruct remaining as [|remaining]; [lia|].
    rewrite crawl_pages_unfold by exact Hlt. cbv zeta. rewrite Hnext. by eexists.
  - destruct remaining as [|remaining]; [lia|].
    rewrite crawl_pages_unfold by exact Hlt. cbv zeta. rewrite Hnext. simpl.
    rewrite Htruthy, Hfetch. by eexists.
  - destruct remaining as [|remaining]; [lia|].
    rewrite crawl_pages_unfold by exact Hlt. cbv zeta. rewrite Hnext. simpl.
    rewrite Htruthy, Hfetch, Hextract. by eexists.
  - destruct remaining as [|remaining]; [lia|].
    rewrite crawl_pages_unfold by exact Hlt. cbv zeta. rewrite Hnext. simpl.
    rewrite Htruthy, Hfetch, Hextract. by eexists.
  - destruct remaining as [|remaining]; [lia|].
    rewrite crawl_pages_unfold by exact Hlt. cbv zeta. rewrite Hnext. simpl.
    rewrite Htruthy, Hfetch, Hextract.
    replace (truthy next_results) with true by (by destruct next_results).
    apply IH. lia.
Qed.

(** A whole call of [crawl_search_url]. *)
Lemma crawl_search_url_run url max_pages w :
  exists r w' evs k,
    crawl_search_url self url max_pages w = (r, w') /\
    spec_crawl self url max_pages w r w' /\
    same_store w w' /\ trace w' = trace w ++ evs /\
    next_requests evs = page_requests url 0 k /\
    Z.of_nat k <= Z.max 0 (max_pages - 1) /\
    pages_gathered self [] evs r.
Proof.
  unfold crawl_search_url, mbind at 1, M_bind at 1.
  destruct (fetch_page_events url 3 w) as (r & w1 & evs & Hrun & Hsame & Htrace & Hreq & Hpages).
  rewrite Hrun. destruct r as [soup|].
  2:{ exists (Ok []), w1, evs, 0%nat. split; [reflexivity|].
      split; [by apply crawl_no_page|]. split; [exact Hsame|]. split; [exact Htrace|].
      split; [by rewrite Hreq|]. split; [lia|].
      exists []. unfold extractions. rewrite Hpages. split; [constructor|reflexivity]. }
  unfold mbind, M_bind, of_result.
  destruct (extract_search_results self soup) as [results|e] eqn:Hextract.
  2:{ exists (Raise e), w1, evs, 0%nat. split; [reflexivity|].
      split; [by eapply crawl_extract_raises|]. split; [exact Hsame|].
      split; [exact Htrace|]. split; [by rewrite Hreq|]. split; [lia|].
      exists soup. rewrite Hpages. by split. }
  destruct (crawl_pages_spec url max_pages (Z.to_nat (max_pages - 1)) 0 results w1
              ltac:(lia))
    as (out & w' & evs' & k & Hrun' & Hspec & Hsame' & Htrace' & Hreq' & Hk & Hgath).
  rewrite Hrun'. exists (gathered out), w', (evs ++ evs'), k.
  split; [by destruct out as [[res exit]|e]|].
  split; [by eapply crawl_pages_from|].
  split; [by apply (same_store_trans _ w1)|].
  split; [by rewrite Htrace', Htrace, <- app_assoc|].
  split; [by rewrite next_requests_app, Hreq, Hreq'|].
  split; [lia|].
  unfold pages_gathered, extractions in *. rewrite pages_of_app, Hpages.
  destruct (gathered out) as [res|e].
  - destruct Hgath as (per_page & Hper & ->). exists (results :: per_page).
    split; [by constructor|reflexivity].
  - destruct Hgath as (soup' & Hlast & Hraise). exists soup'. split; [|exact Hraise].
    simpl. rewrite last_cons, Hlast. reflexivity.
Qed.

(** C5. The crawl loop.  A call of [crawl_search_url] ends, and it ends as
    the crawl of the specification does, which is the only way that crawl
    can end: it fetches the start address and returns [[]] if that fails;
    else it extracts the first page and then, for the page numbers 1 up to
    [max_pages - 1] in turn, asks [build_next_page_url] for the address,
    always from the start address [url] and the page number, and stops at
    once when there is none, else fetches it and stops at once when the
    fetch fails, else extracts the page and stops at once when it has no
    record, else appends its records, pauses one second and goes on.  With
    [max_pages] equal to 1, and whenever [max_pages] is below 2,
    [build_next_page_url] is never called.  The list returned is the
    concatenation, in the order of the requests, of what the extraction
    finds in each page fetched; an exception of the extraction, which is
    outside every [try], comes out of the call with the page it was raised
    on being the last page fetched. *)
Theorem crawl_search_url_algorithm url max_pages w :
  (exists r w' evs k,
     crawl_search_url self url max_pages w = (r, w') /\
     spec_crawl self url max_pages w r w' /\
     same_store w w' /\ trace w' = trace w ++ evs /\
     next_requests evs = page_requests url 0 k /\
     Z.of_nat k <= Z.max 0 (max_pages - 1) /\
     (max_pages = 1 -> next_requests evs = []) /\
     match r with
     | Ok res =>
         exists per_page, extractions self evs per_page /\ res = concat per_page
     | Raise e =>
         exists soup, last (pages_of self evs) = Some soup /\
                      extract_search_results self soup = Raise e
     end) /\
  (forall r w', spec_crawl self url max_pages w r w' <->
                crawl_search_url self url max_pages w = (r, w')).
Proof.
  destruct (crawl_search_url_run url max_pages w)
    as (r & w' & evs & k & Hrun & Hspec & Hsame & Htrace & Hreq & Hk & Hgath).
  split.
  - exists r, w', evs, k. repeat (split; [assumption|]).
    split; [|exact Hgath]. intros ->. rewrite Hreq. destruct k; [reflexivity|lia].
  - intros r0 w0. split.
    + intros Hspec0. unfold crawl_search_url, mbind at 1, M_bind at 1.
      destruct Hspec0 as [w1 Hfetch|soup w1 e Hfetch Hextract
                         |soup w1 results r0 w0 Hfetch Hextract Hpages];
        rewrite Hfetch; [reflexivity| |]; unfold mbind, M_bind, of_result;
        rewrite Hextract; [reflexivity|].
      destruct (spec_paginate_run _ _ _ _ _ _ _ Hpages (Z.to_nat (max_pages - 1))
                  ltac:(lia)) as (out & -> & <-).
      by destruct out as [[res exit]|e].
    + intros Hrun0. rewrite Hrun in Hrun0. by inversion Hrun0; subst.
Qed.

(** With a [build_next_page_url] that always gives an address, the loop is
    never left by [if not next_page_url: break]. *)
Lemma crawl_pages_exit url max_pages :
  (forall page_num, truthy_opt (build_next_page_url self url page_num) = true) ->
  forall remaining page_num results w res exit w',
    crawl_pages self url max_pages page_num results remaining w = (Ok (res, exit), w') ->
    exit = ExitBound \/ exit = ExitFetchFailed \/ exit = ExitEmptyPage.
Proof.
  intros Hnext. induction remaining as [|remaining IH]; intros page_num results w res exit w' Hrun.
  - inversion Hrun. by left.
  - destruct (Z.lt_ge_cases page_num (max_pages - 1)) as [Hlt|Hge].
    2:{ rewrite crawl_pages_done in Hrun by lia. inversion Hrun. by left. }
    rewrite crawl_pages_unfold in Hrun by exact Hlt. cbv zeta in Hrun.
    rewrite Hnext in Hrun.
    destruct (fetch_page self _ 3 _) as [[[soup|]|e] w2]; [| |discriminate].
    + destruct (extract_search_results self soup) as [next_results|e]; [|discriminate].
      destruct (truthy next_results).
      * by apply IH in Hrun.
      * inversion Hrun. right; by right.
    + inversion Hrun. right; by left.
Qed.

End Facts.

(** *** The two subclasses *)

Section Subclasses.

Variable unicode_digit : N -> bool.

Lemma contains_truthy p s : contains p s = true -> truthy p = true -> truthy s = true.
Proof. destruct s, p; simpl; done. Qed.

Lemma re_sub_truthy prefix repl s :
  truthy repl = true -> truthy s = true -> truthy (re_sub unicode_digit prefix repl s) = true.
Proof.
  intros Hrepl Hs. destruct s as [|c s]; [discriminate|]. unfold re_sub. simpl.
  destruct (match_at unicode_digit prefix (c :: s)); [|reflexivity].
  by destruct repl.
Qed.

Lemma app_truthy {A} (a b : list A) : truthy a = true -> truthy (a ++ b) = true.
Proof. by destruct a. Qed.

Lemma app_truthy_r {A} (a b : list A) : truthy b = true -> truthy (a ++ b) = true.
Proof. destruct a; [done|reflexivity]. Qed.

Lemma sichuan_next_truthy base page_num :
  truthy_opt (SichuanFGW.build_next_page_url unicode_digit base page_num) = true.
Proof.
  unfold SichuanFGW.build_next_page_url.
  destruct (contains (lit "pageNum=") base) eqn:Hin; simpl.
  - apply re_sub_truthy; [reflexivity|]. by apply (contains_truthy _ _ Hin).
  - apply app_truthy_r. by destruct (contains (lit "?") base).
Qed.

Lemma example_next_truthy base page_num :
  truthy_opt (ExampleOtherSite.build_next_page_url unicode_digit base page_num) = true.
Proof.
  unfold ExampleOtherSite.build_next_page_url.
  destruct (contains (lit "page=") base) eqn:Hpage; simpl.
  - apply re_sub_truthy; [reflexivity|]. by apply (contains_truthy _ _ Hpage).
  - destruct (contains (lit "p=") base) eqn:Hp; simpl.
    + apply re_sub_truthy; [reflexivity|]. by apply (contains_truthy _ _ Hp).
    + apply app_truthy_r. by destruct (contains (lit "?") base).
Qed.

(** C10. [build_next_page_url] of [SichuanFGWCrawler] and of
    [ExampleOtherSiteCrawler] returns, for every base address and page
    number, an address that is not empty: the base address with the page
    parameter substituted when it has one, else with the parameter appended
    after [?] or [&].  So the loop of [crawl_search_url] of these classes is
    left only by its bound, by a failed fetch or by a page without records. *)
Theorem build_next_page_url_total :
  (forall base page_num,
     exists address,
       SichuanFGW.build_next_page_url unicode_digit base page_num = Some address /\
       truthy address = true /\
       address =
         if contains (lit "pageNum=") base
         then re_sub unicode_digit (lit "pageNum=") (lit "pageNum=" ++ str_of_int page_num) base
         else base ++ (if contains (lit "?") base then lit "&" else lit "?")
                   ++ lit "pageNum=" ++ str_of_int page_num) /\
  (forall base page_num,
     exists address,
       ExampleOtherSite.build_next_page_url unicode_digit base page_num = Some address /\
       truthy address = true /\
       address =
         if contains (lit "page=") base
         then re_sub unicode_digit (lit "page=") (lit "page=" ++ str_of_int page_num) base
         else if contains (lit "p=") base
         then re_sub unicode_digit (lit "p=") (lit "p=" ++ str_of_int page_num) base
         else base ++ (if contains (lit "?") base then lit "&" else lit "?")
                   ++ lit "page=" ++ str_of_int page_num) /\
  (forall parser extract url max_pages page_num results remaining w res exit w',
     crawl_pages (SichuanFGW.SichuanFGWCrawler unicode_digit parser extract)
                 url max_pages page_num results remaining w = (Ok (res, exit), w') ->
     exit = ExitBound \/ exit = ExitFetchFailed \/ exit = ExitEmptyPage) /\
  (forall parser extract url max_pages page_num results remaining w res exit w',
     crawl_pages (ExampleOtherSite.ExampleOtherSiteCrawler unicode_digit parser extract)
                 url max_pages page_num results remaining w = (Ok (res, exit), w') ->
     exit = ExitBound \/ exit = ExitFetchFailed \/ exit = ExitEmptyPage).
Proof.
  split; [|split; [|split]].
  - intros base page_num. pose proof (sichuan_next_truthy base page_num) as Hnext.
    unfold SichuanFGW.build_next_page_url in *.
    destruct (contains (lit "pageNum=") base); eexists; split; try reflexivity; by split.
  - intros base page_num. pose proof (example_next_truthy base page_num) as Hnext.
    unfold ExampleOtherSite.build_next_page_url in *.
    destruct (contains (lit "page=") base); [|destruct (contains (lit "p=") base)];
      eexists; split; try reflexivity; by split.
  - intros parser extract url max_pages page_num results remaining w res exit w'.
    apply crawl_pages_exit. intros n. apply sichuan_next_truthy.
  - intros parser extract url max_pages page_num results remaining w res exit w'.
    apply crawl_pages_exit. intros n. apply example_next_truthy.
Qed.

End Subclasses.

Import Sample.

(** The first page has no record and the second has one: the crawl goes on
    after the first page, whose extraction is not tested, and stops at the
    third request for a page, which fails. *)
Example crawl_after_empty_first_page :
  let w := mkWorld (fun n _ =>
                      match n with
                      | O => HttpOk []
                      | S O => HttpOk (lit "c")
                      | _ => HttpError (Exn RequestException (lit "Read timed out"))
                      end) 0 (fun _ => []) 0 ∅ [] in
  let run := crawl_search_url (sichuan_fgw)
               (lit "http://x/list?pageNum=0") 20 w in
  fst run = Ok [mkItem (lit "c") (lit "http://x/c") None] /\
  trace (snd run) =
    [EvGet (lit "http://x/list?pageNum=0") (Some []);
     EvNextPage (lit "http://x/list?pageNum=0") 1;
     EvGet (lit "http://x/list?pageNum=1") (Some (lit "c"));
     EvSleep 1;
     EvNextPage (lit "http://x/list?pageNum=0") 2;
     EvGet (lit "http://x/list?pageNum=2") None; EvSleep 1;
     EvGet (lit "http://x/list?pageNum=2") None; EvSleep 2;
     EvGet (lit "http://x/list?pageNum=2") None].
Proof. vm_compute. split; reflexivity. Qed.

(** A body that the parser rejects counts as a failed attempt: the first
    response is a 2xx with the body [!], the call pauses one second, asks
    again and returns the second page. *)
Example fetch_page_retries_parse_failure :
  let w := mkWorld (fun n _ =>
                      match n with
                      | O => HttpOk (lit "!")
                      | _ => HttpOk (lit "ab")
                      end) 0 (fun _ => []) 0 ∅ [] in
  let run := fetch_page sichuan_fgw list_url 3 w in
  fst run = Ok (Some (mkSoup (lit "utf-8") (lit "ab"))) /\
  gets (snd run) = 2%nat /\
  trace (snd run) =
    [EvGet list_url (Some (lit "!")); EvSleep 1; EvGet list_url (Some (lit "ab"))].
Proof. vm_compute. repeat split; reflexivity. Qed.

(** The extraction raises on the second page: the exception comes out of
    the crawl, and the record of the first page with it. *)
Example crawl_extraction_raises :
  let w := mkWorld (fun n _ =>
                      match n with
                      | O => HttpOk (lit "a")
                      | _ => HttpOk (lit "[")
                      end) 0 (fun _ => []) 0 ∅ [] in
  let run := crawl_search_url sichuan_fgw list_url 3 w in
  fst run = Raise (Exn ValueError (lit "Invalid IPv6 URL")) /\
  trace (snd run) =
    [EvGet list_url (Some (lit "a"));
     EvNextPage list_url 1;
     EvGet (lit "http://x/list?pageNum=1") (Some (lit "["))].
Proof. vm_compute. split; reflexivity. Qed.

End CrawlerFacts.

(** ** The runner *)

Module RunnerFacts.

Import BaseCrawler CrawlerFactory CrawlerManager.

Section Facts.

Variable unicode_word : N -> bool.
Variable md5_hexdigest : pystr -> pystr.
Variable py_repr : pystr -> pystr.
Variable _crawlers : registry.

Local Abbreviation process_config :=
  (CrawlerManager.process_config unicode_word md5_hexdigest py_repr _crawlers).
Local Abbreviation process_all :=
  (CrawlerManager.process_all unicode_word md5_hexdigest py_repr _crawlers).
Local Abbreviation main_process_config :=
  (Main.process_config unicode_word md5_hexdigest py_repr _crawlers).

(** No exception comes out of an iteration of the loop. *)
Lemma process_config_returns max_pages url_config st w :
  exists st' w', process_config max_pages url_config st w = (Ok st', w').
Proof.
  unfold CrawlerManager.process_config, try_stmt.
  destruct (create_crawler _ _ _ w) as [[crawler|e] w1]; [|by eexists _, _].
  destruct (crawl_search_url crawler _ _ w1) as [[results|e] w2]; [|by eexists _, _].
  destruct (truthy results); [|by eexists _, _].
  destruct (Storage.save_data _ _ _ _ _ _ _ w2) as [[[all new]|e] w3]; [|by eexists _, _].
  destruct (Storage.get_summary _ _ _ _ _ w3) as [[summary|e] w4]; by eexists _, _.
Qed.

(** The results gathered before a run of the loop stay in front. *)
Lemma process_all_results max_pages : forall search_urls total_new total_all run_results w,
  process_all max_pages search_urls total_new total_all run_results w =
  match process_all max_pages search_urls total_new total_all [] w with
  | (Ok (total_new', total_all', results), w') =>
      (Ok (total_new', total_all', run_results ++ results), w')
  | (Raise e, w') => (Raise e, w')
  end.
Proof.
  induction search_urls as [|url_config rest IH]; intros total_new total_all run_results w.
  - simpl. unfold mret, M_ret. by rewrite app_nil_r.
  - simpl. unfold mbind, M_bind.
    destruct (process_config_returns max_pages url_config
                (mkLocals total_new total_all (new_config_result url_config)) w)
      as (st & w1 & ->).
    rewrite (IH _ _ (run_results ++ [config_result st])), (IH _ _ [config_result st]).
    destruct (process_all max_pages rest _ _ [] w1) as [[[[tn ta] rs]|e] w2]; [|reflexivity].
    by rewrite <- app_assoc.
Qed.

(** The loop over a list in two parts. *)
Lemma process_all_app max_pages : forall pre post total_new total_all run_results w,
  process_all max_pages (pre ++ post) total_new total_all run_results w =
  match process_all max_pages pre total_new total_all run_results w with
  | (Ok (total_new', total_all', results), w') =>
      process_all max_pages post total_new' total_all' results w'
  | (Raise e, w') => (Raise e, w')
  end.
Proof.
  induction pre as [|url_config pre IH]; intros post total_new total_all run_results w.
  - reflexivity.
  - simpl. unfold mbind, M_bind.
    destruct (process_config max_pages url_config _ w) as [[st|e] w1]; [|reflexivity].
    apply IH.
Qed.

Lemma create_crawler_unknown crawler_type w :
  lookup_crawler crawler_type _crawlers = None ->
  create_crawler py_repr _crawlers crawler_type w =
  (Raise (Exn ValueError
            (unsupported_message py_repr crawler_type (get_available_crawlers _crawlers))),
   w).
Proof. intros H. unfold create_crawler. by rewrite H. Qed.

Lemma process_config_unknown max_pages url_config total_new total_all w :
  lookup_crawler (su_crawler_type url_config) _crawlers = None ->
  process_config max_pages url_config
    (mkLocals total_new total_all (new_config_result url_config)) w =
  (Ok (mkLocals total_new total_all
         (failed_result url_config
            (unsupported_message py_repr (su_crawler_type url_config)
               (get_available_crawlers _crawlers)))), w).
Proof.
  intros H. unfold CrawlerManager.process_config, try_stmt.
  by rewrite create_crawler_unknown.
Qed.

(** C7. A source whose crawler type is not registered: [create_crawler]
    raises at once, in an unchanged world (no request made, no file
    written), a [ValueError] whose text is the fixed prefix, the type asked
    for, and the list of the registered types.  The runner turns it into the
    [error] of that source's result, with all counts zero and the totals
    unchanged, and goes on: the sources after it are processed from the same
    world and totals, and give the same results, as if it were not there;
    the sources before it are not affected either. *)
Theorem unregistered_type_isolated max_pages pre bad post total_new total_all w :
  lookup_crawler (su_crawler_type bad) _crawlers = None ->
  let message :=
    unsupported_message py_repr (su_crawler_type bad) (get_available_crawlers _crawlers) in
  message = lit "不支持的爬虫类型: " ++ su_crawler_type bad ++ lit "，可用类型: "
              ++ lit "[" ++ join_comma (List.map py_repr (List.map fst _crawlers))
              ++ lit "]" /\
  (forall w0, create_crawler py_repr _crawlers (su_crawler_type bad) w0
              = (Raise (Exn ValueError message), w0)) /\
  (forall w0, process_config max_pages bad
                (mkLocals total_new total_all (new_config_result bad)) w0
              = (Ok (mkLocals total_new total_all (failed_result bad message)), w0)) /\
  process_all max_pages (pre ++ bad :: post) total_new total_all [] w =
  match process_all max_pages pre total_new total_all [] w with
  | (Ok (total_new1, total_all1, results1), w1) =>
      match process_all max_pages post total_new1 total_all1 [] w1 with
      | (Ok (total_new2, total_all2, results2), w2) =>
          (Ok (total_new2, total_all2,
               results1 ++ [failed_result bad message] ++ results2), w2)
      | (Raise e, w2) => (Raise e, w2)
      end
  | (Raise e, w1) => (Raise e, w1)
  end.
Proof.
  intros Hbad message.
  pose proof (fun w0 => create_crawler_unknown (su_crawler_type bad) w0 Hbad) as Hcreate.
  pose proof (fun w0 => process_config_unknown max_pages bad total_new total_all w0 Hbad)
    as Hconfig.
  split; [unfold message, unsupported_message, str_of_list, get_available_crawlers;
          reflexivity|].
  split; [exact Hcreate|]. split; [exact Hconfig|].
  rewrite process_all_app.
  destruct (process_all max_pages pre total_new total_all [] w)
    as [[[[total_new1 total_all1] results1]|e] w1]; [|reflexivity].
  change (process_all max_pages (bad :: post) total_new1 total_all1 results1 w1)
    with ((st ← process_config max_pages bad
                  (mkLocals total_new1 total_all1 (new_config_result bad));
           process_all max_pages post (total_new_items st) (total_all_items st)
                       (results1 ++ [config_result st])) w1).
  unfold mbind, M_bind.
  rewrite (process_config_unknown max_pages bad total_new1 total_all1 w1 Hbad).
  fold message. cbn [total_new_items total_all_items config_result].
  rewrite process_all_results.
  destruct (process_all max_pages post total_new1 total_all1 [] w1)
    as [[[[total_new2 total_all2] results2]|e] w2]; [|reflexivity].
  by rewrite <- app_assoc.
Qed.

(** C9. A source whose crawl returns an empty list: the iteration of the
    loop, in [run_crawler] and in [main] alike, ends in the very world the
    crawl left, so [save_data] was not called; no file has changed (the
    data file and the history file of the source in particular), the clock
    was not read, both totals are what they were and the result of the
    source keeps its three counts at zero, without an error. *)
Theorem empty_crawl_leaves_store max_pages url_config crawler total_new total_all w w1 :
  lookup_crawler (su_crawler_type url_config) _crawlers = Some crawler ->
  crawl_search_url crawler (su_url url_config) (default 20 max_pages) w = (Ok [], w1) ->
  process_config max_pages url_config
    (mkLocals total_new total_all (new_config_result url_config)) w
    = (Ok (mkLocals total_new total_all (new_config_result url_config)), w1) /\
  main_process_config max_pages url_config (total_new, total_all) w
    = (Ok (total_new, total_all), w1) /\
  files w1 = files w /\ ticks w1 = ticks w /\
  files w1 !! Storage._get_data_file unicode_word md5_hexdigest data_dir
                (su_url url_config) (Some (su_name url_config))
    = files w !! Storage._get_data_file unicode_word md5_hexdigest data_dir
                   (su_url url_config) (Some (su_name url_config)) /\
  files w1 !! Storage._get_history_file unicode_word md5_hexdigest data_dir
                (su_url url_config) (Some (su_name url_config))
    = files w !! Storage._get_history_file unicode_word md5_hexdigest data_dir
                   (su_url url_config) (Some (su_name url_config)).
Proof.
  intros Hreg Hcrawl.
  destruct (CrawlerFacts.crawl_search_url_run crawler (su_url url_config)
              (default 20 max_pages) w)
    as (res & w' & evs & k & Hrun & _ & (_ & _ & Hticks & Hfiles) & _).
  rewrite Hcrawl in Hrun. inversion Hrun; subst; clear Hrun.
  split.
  { unfold CrawlerManager.process_config, try_stmt, create_crawler.
    rewrite Hreg. unfold mret at 1, M_ret at 1. by rewrite Hcrawl. }
  split.
  { unfold Main.process_config, Main.try_stmt, create_crawler.
    rewrite Hreg. unfold mret at 1, M_ret at 1. by rewrite Hcrawl. }
  rewrite Hfiles. done.
Qed.

End Facts.

Import Sample.

Lemma unregistered_type_isolated_witness :
  let bad := source "b" "unknown_site" in
  let pre := [source "a" "sichuan_fgw"] in
  let post := [source "c" "sichuan_fgw"] in
  let message := unsupported_message plain_repr (lit "unknown_site") [lit "sichuan_fgw"] in
  lookup_crawler (su_crawler_type bad) Sample.registry = None /\
  (message = lit "不支持的爬虫类型: " ++ lit "unknown_site" ++ lit "，可用类型: "
               ++ lit "[" ++ join_comma (List.map plain_repr [lit "sichuan_fgw"])
               ++ lit "]" /\
   (forall w0, create_crawler plain_repr Sample.registry (lit "unknown_site") w0
               = (Raise (Exn ValueError message), w0)) /\
   (forall w0, Sample.process_config (Some 3) bad
                 (mkLocals 0 0 (new_config_result bad)) w0
               = (Ok (mkLocals 0 0 (failed_result bad message)), w0)) /\
   Sample.process_all (Some 3) (pre ++ bad :: post) 0 0 [] two_page_world =
   match Sample.process_all (Some 3) pre 0 0 [] two_page_world with
   | (Ok (total_new1, total_all1, results1), w1) =>
       match Sample.process_all (Some 3) post total_new1 total_all1 [] w1 with
       | (Ok (total_new2, total_all2, results2), w2) =>
           (Ok (total_new2, total_all2,
                results1 ++ [failed_result bad message] ++ results2), w2)
       | (Raise e, w2) => (Raise e, w2)
       end
   | (Raise e, w1) => (Raise e, w1)
   end).
Proof.
  intros bad pre post message.
  assert (H : lookup_crawler (su_crawler_type bad) Sample.registry = None)
    by (vm_compute; reflexivity).
  split; [exact H|].
  exact (unregistered_type_isolated ascii_word list_digest plain_repr Sample.registry
           (Some 3) pre bad post 0 0 two_page_world H).
Defined.

Lemma empty_crawl_leaves_store_witness :
  let src := source "a" "sichuan_fgw" in
  let crawler := sichuan_fgw in
  let w1 := snd (crawl_search_url crawler list_url 3 offline_world) in
  (lookup_crawler (lit "sichuan_fgw") Sample.registry = Some crawler /\
   crawl_search_url crawler list_url 3 offline_world = (Ok [], w1)) /\
  (Sample.process_config (Some 3) src (mkLocals 5 7 (new_config_result src)) offline_world
     = (Ok (mkLocals 5 7 (new_config_result src)), w1) /\
   Sample.main_process_config (Some 3) src (5, 7) offline_world = (Ok (5, 7), w1) /\
   files w1 = files offline_world /\ ticks w1 = ticks offline_world /\
   files w1 !! lit "data/a.json" = files offline_world !! lit "data/a.json" /\
   files w1 !! lit "data/a_history.json" = files offline_world !! lit "data/a_history.json").
Proof.
  intros src crawler w1.
  assert (H1 : lookup_crawler (lit "sichuan_fgw") Sample.registry = Some crawler)
    by (vm_compute; reflexivity).
  assert (H2 : crawl_search_url crawler list_url 3 offline_world = (Ok [], w1))
    by (vm_compute; reflexivity).
  split; [by split|].
  exact (empty_crawl_leaves_store ascii_word list_digest plain_repr Sample.registry
           (Some 3) src crawler 5 7 offline_world w1 H1 H2).
Defined.

(** A run over three sources in [two_page_world]: the first source finds
    three records on two pages and stores them, the second has an
    unregistered type, the third finds the network down. *)
Example process_all_sample :
  let run := Sample.process_all (Some 3)
               [source "a" "sichuan_fgw"; source "b" "unknown_site";
                source "c" "sichuan_fgw"] 0 0 [] two_page_world in
  match fst run with
  | Ok (total_new, total_all, results) =>
      total_new = 3 /\ total_all = 3 /\
      List.map (fun r => (crawled_count r, new_count r, cr_total_count r)) results
        = [(3, 3, 3); (0, 0, 0); (0, 0, 0)] /\
      List.map (fun r => bool_decide (is_Some (error r))) results = [false; true; false]
  | Raise _ => False
  end /\
  Storage.stored_items (snd run) (lit "data/a.json")
    = [mkItem (lit "a") (lit "http://x/a") None; mkItem (lit "b") (lit "http://x/b") None;
       mkItem (lit "c") (lit "http://x/c") None] /\
  files (snd run) !! lit "data/c.json" = None /\
  next_requests (trace (snd run))
    = [(lit "http://x/list", 1); (lit "http://x/list", 2)].
Proof. vm_compute. repeat split; reflexivity. Qed.

End RunnerFacts.

(** ** More on the store *)

Module StorageMore.

Import Storage StorageFacts.

Section Facts.

Variable unicode_word : N -> bool.
Variable md5_hexdigest : pystr -> pystr.
Variable data_dir : pystr.
Variable py_repr : pystr -> pystr.

Local Abbreviation data_file := (_get_data_file unicode_word md5_hexdigest data_dir).
Local Abbreviation history_file := (_get_history_file unicode_word md5_hexdigest data_dir).
Local Abbreviation save := (save_data unicode_word md5_hexdigest data_dir).
Local Abbreviation summary := (get_summary unicode_word md5_hexdigest data_dir).
Local Abbreviation export := (export_to_csv unicode_word md5_hexdigest data_dir).

Lemma save_data_effects url results key name w :
  let w' := snd (save url results key name w) in
  net w' = net w /\ gets w' = gets w /\ trace w' = trace w /\ clock w' = clock w /\
  (ticks w <= ticks w' <= ticks w + 2)%nat /\
  forall p, p <> data_file url name -> p <> history_file url name ->
            files w' !! p = files w !! p.
Proof.
  cbv zeta. rewrite (save_data_eq unicode_word md5_hexdigest data_dir).
  assert (Hgoal :
    let existing := stored_items w (data_file url name) in
    let new := new_of existing results in
    let all := existing ++ new in
    let w1 := written w (data_file url name)
                (DataFile (mkSet url key name (clock w (ticks w)) (len all) all)) in
    let w' := snd match _save_history unicode_word md5_hexdigest data_dir url new key name w1
                  with
                  | (Ok _, w2) => (Ok (all, new), w2)
                  | (Raise e, w2) => (Raise e, w2)
                  end in
    net w' = net w /\ gets w' = gets w /\ trace w' = trace w /\ clock w' = clock w /\
    (ticks w <= ticks w' <= ticks w + 2)%nat /\
    forall p, p <> data_file url name -> p <> history_file url name ->
              files w' !! p = files w !! p).
  { cbv zeta. rewrite (_save_history_eq unicode_word md5_hexdigest data_dir).
    destruct (new_of _ results) as [|r new]; simpl.
    - repeat split; try lia. intros p Hp _. by rewrite lookup_insert_ne.
    - unfold stored_history, written. simpl.
      rewrite lookup_insert_ne by apply data_history_distinct.
      destruct (files w !! history_file url name) as [[]|]; simpl;
        repeat split; try lia; intros p Hp Hh;
        rewrite ?lookup_insert_ne by (by apply not_eq_sym); reflexivity. }
  destruct (files w !! data_file url name) as [[]|]; try exact Hgoal.
  simpl. repeat split; try lia.
Qed.

(** X1. Whatever it returns or raises, [save_data] makes no request, leaves
    the trace alone, reads the clock at most twice and changes no file
    other than the data file and the history file of the source. *)
Theorem save_data_frame url results key name w :
  let w' := snd (save url results key name w) in
  net w' = net w /\ gets w' = gets w /\ trace w' = trace w /\ clock w' = clock w /\
  (ticks w <= ticks w' <= ticks w + 2)%nat /\
  forall p, p <> data_file url name -> p <> history_file url name ->
            files w' !! p = files w !! p.
Proof. apply save_data_effects. Qed.

Lemma NoDup_urls_filter (f : Item -> bool) (l : list Item) :
  NoDup (List.map Env.url l) -> NoDup (List.map Env.url (List.filter f l)).
Proof.
  induction l as [|r l IH]; simpl; [done|]. intros Hnd.
  apply NoDup_cons in Hnd as [Hr Hnd]. destruct (f r); simpl; [|by apply IH].
  apply NoDup_cons. split; [|by apply IH].
  intros Hin. apply Hr. apply list_elem_of_In in Hin. apply list_elem_of_In.
  apply List.in_map_iff in Hin as (x & Hx & Hin). apply List.filter_In in Hin as [Hin _].
  apply List.in_map_iff. by exists x.
Qed.

(** X2. After a call of [save_data] that returns, the urls stored are the
    urls stored before together with the urls of the input, and nothing
    else; when no url is stored twice before the call and the input repeats
    no url, no url is stored twice after it. *)
Theorem save_data_urls url results key name w all new w' :
  save url results key name w = (Ok (all, new), w') ->
  let before := stored_items w (data_file url name) in
  stored_items w' (data_file url name) = all /\
  (forall u, In u (List.map Env.url all) <->
             In u (List.map Env.url before) \/ In u (List.map Env.url results)) /\
  (NoDup (List.map Env.url before) -> NoDup (List.map Env.url results) ->
   NoDup (List.map Env.url all)).
Proof.
  intros H before.
  destruct (save_data_inv _ _ _ _ _ _ _ _ _ _ _ H) as (Hnew & Hall & Hfile & _).
  fold before in Hnew, Hall. split; [unfold stored_items; by rewrite Hfile|].
  subst all. split.
  - intros u. rewrite List.map_app, List.in_app_iff. split.
    + intros [Hu|Hu]; [by left|right]. rewrite Hnew in Hu.
      apply List.in_map_iff in Hu as (r & <- & Hr). apply new_of_In in Hr as [Hr _].
      by apply List.in_map.
    + intros [Hu|Hu]; [by left|].
      destruct (decide (u ∈ List.map Env.url before)) as [Hold|Hfresh];
        rewrite list_elem_of_In in *; [by left|right].
      apply List.in_map_iff in Hu as (r & <- & Hr). apply List.in_map.
      rewrite Hnew. apply new_of_In. by split.
  - intros Hbefore Hresults. rewrite List.map_app. apply NoDup_app.
    split; [exact Hbefore|]. split.
    + intros u Hu Hu'. rewrite list_elem_of_In in *. rewrite Hnew in Hu'.
      apply List.in_map_iff in Hu' as (r & <- & Hr). apply new_of_In in Hr as [_ Hr].
      contradiction.
    + rewrite Hnew, new_of_filter. by apply NoDup_urls_filter.
Qed.

Lemma save_each_inv url key name inputs : forall w outs w',
  save_each unicode_word md5_hexdigest data_dir url key name inputs w = (Ok outs, w') ->
  stored_items w (data_file url name) `prefix_of` stored_items w' (data_file url name) /\
  (forall u, In u (List.map Env.url (stored_items w' (data_file url name))) <->
             In u (List.map Env.url (stored_items w (data_file url name))) \/
             exists results, In results inputs /\ In u (List.map Env.url results)) /\
  (inputs <> [] ->
   exists d, files w' !! data_file url name = Some (DataFile d) /\
             total_count d = len (items d)).
Proof.
  induction inputs as [|results rest IH]; intros w outs w' Hrun.
  - inversion Hrun; subst. split; [done|]. split; [|done].
    intros u. split; [by left|]. intros [Hu|(r & [] & _)]. exact Hu.
  - simpl in Hrun. unfold mbind at 1, M_bind at 1 in Hrun.
    destruct (save url results key name w) as [[[all new]|e] w1] eqn:Hsave; [|discriminate].
    unfold mbind, M_bind in Hrun.
    destruct (save_each _ _ _ _ _ _ rest w1) as [[outs'|e] w2] eqn:Hrest; [|discriminate].
    inversion Hrun; subst; clear Hrun.
    destruct (IH _ _ _ Hrest) as (Hpre & Hurls & Hfile).
    destruct (save_data_inv _ _ _ _ _ _ _ _ _ _ _ Hsave) as (Hnew & Hall & Hfile1 & _).
    assert (Hstored : stored_items w1 (data_file url name) = all)
      by (unfold stored_items; by rewrite Hfile1).
    assert (Hurls1 : forall u, In u (List.map Env.url all) <->
              In u (List.map Env.url (stored_items w (data_file url name))) \/
              In u (List.map Env.url results)).
    { intros u. rewrite Hall, List.map_app, List.in_app_iff. split.
      - intros [Hu|Hu]; [by left|right]. rewrite Hnew in Hu.
        apply List.in_map_iff in Hu as (r & <- & Hr). apply new_of_In in Hr as [Hr _].
        by apply List.in_map.
      - intros [Hu|Hu]; [by left|].
        destruct (decide (u ∈ List.map Env.url (stored_items w (data_file url name))))
          as [Hold|Hfresh]; rewrite list_elem_of_In in *; [by left|right].
        apply List.in_map_iff in Hu as (r & <- & Hr). apply List.in_map.
        rewrite Hnew. apply new_of_In. by split. }
    split.
    { etrans; [|exact Hpre]. rewrite Hstored, Hall. by apply prefix_app_r. }
    split.
    { intros u. rewrite Hurls, Hstored, Hurls1. split.
      - intros [[Hu|Hu]|(r & Hr & Hu)]; [by left| |].
        + right. exists results. split; [by left|exact Hu].
        + right. exists r. split; [by right|exact Hu].
      - intros [Hu|(r & [<-|Hr] & Hu)]; [by left; left|by left; right|].
        right. by exists r. }
    intros _. destruct rest as [|results' rest].
    + inversion Hrest; subst. eexists. split; [exact Hfile1|]. reflexivity.
    + by apply Hfile.
Qed.

(** X3. Over any run of [save_data] calls for a source that all return, the
    store only grows at its end: the items stored at the start are a prefix
    of the items stored at the end, the urls stored at the end are those
    stored at the start and those of the inputs, and after at least one
    call the data file has [total_count] equal to the number of its items. *)
Theorem save_each_append_only url key name inputs w outs w' :
  save_each unicode_word md5_hexdigest data_dir url key name inputs w = (Ok outs, w') ->
  stored_items w (data_file url name) `prefix_of` stored_items w' (data_file url name) /\
  (forall u, In u (List.map Env.url (stored_items w' (data_file url name))) <->
             In u (List.map Env.url (stored_items w (data_file url name))) \/
             exists results, In results inputs /\ In u (List.map Env.url results)) /\
  (inputs <> [] ->
   exists d, files w' !! data_file url name = Some (DataFile d) /\
             total_count d = len (items d)).
Proof. apply save_each_inv. Qed.

Lemma get_summary_eq url name w :
  summary url name w =
  match files w !! data_file url name with
  | Some (HistoryFile _) =>
      (Raise (Exn AttributeError (lit "'list' object has no attribute 'get'")), w)
  | data =>
      match files w !! history_file url name with
      | Some (DataFile _) => (Raise (Exn KeyError (lit "-1")), w)
      | _ =>
          let h := stored_history w (history_file url name) in
          let latest := match last h with Some e => new_items_count e | None => 0 end in
          (Ok match data with
              | Some (DataFile d) =>
                  mkSummary url (set_source_key d) (set_source_name d) (total_count d)
                            (last_updated d) (len h) latest
              | _ => mkSummary url None None 0 (lit "Never") (len h) latest
              end, w)
      end
  end.
Proof.
  unfold get_summary, stored_history. unfold mbind at 1, M_bind at 1.
  rewrite (load_existing_data_eq unicode_word md5_hexdigest data_dir).
  unfold mbind, M_bind, path_exists, try_except, json_load.
  destruct (files w !! data_file url name) as [[]|];
    destruct (files w !! history_file url name) as [[]|] eqn:E; simpl; rewrite ?E;
    reflexivity.
Qed.

(** X4. [get_summary] changes nothing, whether it returns or raises; for a
    source that has neither a readable data file nor a readable history
    file it returns 0 items, ['Never'], 0 history entries and 0 latest new
    items. *)
Theorem get_summary_read_only url name :
  (forall w, snd (summary url name w) = w) /\
  (forall w,
     (forall d, files w !! data_file url name <> Some (DataFile d)) ->
     (forall h, files w !! data_file url name <> Some (HistoryFile h)) ->
     (forall d, files w !! history_file url name <> Some (DataFile d)) ->
     (forall h, files w !! history_file url name <> Some (HistoryFile h)) ->
     summary url name w = (Ok (mkSummary url None None 0 (lit "Never") 0 0), w)).
Proof.
  split.
  - intros w. rewrite get_summary_eq.
    destruct (files w !! data_file url name) as [[]|];
      destruct (files w !! history_file url name) as [[]|]; reflexivity.
  - intros w Hd1 Hd2 Hh1 Hh2. rewrite get_summary_eq. unfold stored_history.
    destruct (files w !! data_file url name) as [[d|h| | |]|];
      try (by destruct (Hd1 d)); try (by destruct (Hd2 h));
      destruct (files w !! history_file url name) as [[d'|h'| | |]|];
      try (by destruct (Hh1 d')); try (by destruct (Hh2 h')); reflexivity.
Qed.

(** X5. [get_summary] right after a call of [save_data] that returned, as
    the runner calls it: unless the call had no new record and the history
    path holds a JSON object, it returns the url, key and name of the call,
    [total_items] the number of items now stored, [last_updated] the time of
    the call, [history_entries] the length of the history file, and, when
    the call had new records, [latest_new_items] their number. *)
Theorem get_summary_after_save url results key name w all new w' :
  save url results key name w = (Ok (all, new), w') ->
  (new = [] -> forall d, files w !! history_file url name <> Some (DataFile d)) ->
  exists s,
    summary url name w' = (Ok s, w') /\
    sm_url s = url /\ sm_source_key s = key /\ sm_source_name s = name /\
    total_items s = len all /\ sm_last_updated s = clock w (ticks w) /\
    history_entries s = len (stored_history w' (history_file url name)) /\
    (new <> [] -> latest_new_items s = len new /\ 1 <= history_entries s).
Proof.
  intros Hsave Hhist.
  destruct (save_data_inv _ _ _ _ _ _ _ _ _ _ _ Hsave) as (_ & _ & Hfile & Hsame & Happ).
  rewrite get_summary_eq, Hfile.
  destruct new as [|r new].
  - specialize (Hsame eq_refl). specialize (Hhist eq_refl). rewrite Hsame.
    unfold stored_history. rewrite Hsame.
    destruct (files w !! history_file url name) as [[d|h| | |]|];
      try (by destruct (Hhist d)); eexists; repeat split; done.
  - assert (Hne : r :: new <> []) by discriminate. specialize (Happ Hne).
    rewrite keep_recent_last50 in Happ.
    assert (Hh : stored_history w' (history_file url name)
                 = last50 (stored_history w (history_file url name)
                           ++ [mkEntry (clock w (S (ticks w))) key name
                                       (len (r :: new)) (r :: new)]))
      by (unfold stored_history at 1; by rewrite Happ).
    rewrite Happ. cbv zeta. rewrite Hh.
    eexists. split; [reflexivity|]. cbn [sm_url sm_source_key sm_source_name total_items
      sm_last_updated history_entries latest_new_items set_source_key set_source_name
      total_count last_updated].
    do 6 (split; [reflexivity|]). intros _. unfold last50.
    set (h := stored_history w _ ++ _).
    assert (Hlen : length h = S (length (stored_history w (history_file url name))))
      by (unfold h; rewrite length_app; simpl; lia).
    assert (Hlast : last (drop (length h - 50) h)
                    = Some (mkEntry (clock w (S (ticks w))) key name
                                    (len (r :: new)) (r :: new))).
    { destruct (drop (length h - 50) h) as [|e rest] eqn:Hdrop.
      - apply (f_equal length) in Hdrop. rewrite length_drop in Hdrop. simpl in Hdrop. lia.
      - rewrite <- Hdrop. unfold h at 2. rewrite drop_app_le by lia. apply last_snoc. }
    rewrite Hlast. split; [reflexivity|].
    unfold len. rewrite length_drop. lia.
Qed.


Lemma clean_char_fixed c : clean_char unicode_word (clean_char unicode_word c)
                           = clean_char unicode_word c.
Proof.
  unfold clean_char.
  destruct (negb (unicode_word c || (0x4e00 <=? c)%N && (c <=? 0x9fff)%N
                  || (c =? 45)%N || (c =? 95)%N)) eqn:Hc.
  - match goal with |- (if ?b then _ else _) = _ => destruct b end; reflexivity.
  - by rewrite Hc.
Qed.

(** X7. The file of a source: with a non-empty display name it does not
    depend on the url, so two sources with one name share their files; with
    no name or an empty one it is the file of the url digest.  The name
    part keeps the length of the display name, has only word characters,
    CJK ideographs, [-] and [_], and cleaning it again changes nothing. *)
Theorem file_identity :
  (forall url1 url2 name, truthy name = true ->
     data_file url1 (Some name) = data_file url2 (Some name) /\
     history_file url1 (Some name) = history_file url2 (Some name)) /\
  (forall url, data_file url (Some []) = data_file url None /\
               history_file url (Some []) = history_file url None) /\
  (forall url name, truthy name = true ->
     let file_name := _get_file_name unicode_word md5_hexdigest url (Some name) in
     length file_name = length name /\
     _get_file_name unicode_word md5_hexdigest url (Some file_name) = file_name /\
     forall c, In c file_name ->
       unicode_word c = true \/ (0x4e00 <= c <= 0x9fff)%N \/ c = 45%N \/ c = 95%N).
Proof.
  split; [|split].
  - intros url1 url2 name Hname. unfold _get_data_file, _get_history_file, _get_file_name.
    by rewrite Hname.
  - done.
  - intros url name Hname. cbv zeta. unfold _get_file_name. rewrite Hname.
    split; [apply List.length_map|]. split.
    + destruct name as [|c name]; [done|]. simpl. f_equal; [apply clean_char_fixed|].
      rewrite List.map_map. apply List.map_ext. intros a. apply clean_char_fixed.
    + intros c Hc. apply List.in_map_iff in Hc as (a & <- & _). unfold clean_char.
      destruct (unicode_word a) eqn:Hw; simpl; [by left|].
      destruct ((0x4e00 <=? a)%N && (a <=? 0x9fff)%N) eqn:Hcjk; simpl.
      { right; left. apply andb_true_iff in Hcjk as [H1 H2].
        apply N.leb_le in H1. apply N.leb_le in H2. done. }
      destruct (a =? 45)%N eqn:H45; simpl.
      { right; right; left. by apply N.eqb_eq. }
      destruct (a =? 95)%N eqn:H95; simpl; right; right; right; [by apply N.eqb_eq|done].
Qed.

(** X8. Two sources with one display name: after a save for the first, a
    save for the second source reads the first one's items as its own.  Its
    records whose url the first source stored are not new, the file keeps
    the first source's items in front, and its [url] and [source_key]
    fields become those of the second source. *)
Theorem same_name_shares_store url1 url2 results1 results2 key1 key2 name
    w all1 new1 w1 all2 new2 w2 :
  truthy name = true ->
  save url1 results1 key1 (Some name) w = (Ok (all1, new1), w1) ->
  save url2 results2 key2 (Some name) w1 = (Ok (all2, new2), w2) ->
  all2 = all1 ++ new2 /\
  (forall r, In r results2 -> In (Env.url r) (List.map Env.url all1) -> ~ In r new2) /\
  exists d,
    files w2 !! data_file url1 (Some name) = Some (DataFile d) /\
    set_url d = url2 /\ set_source_key d = key2 /\ items d = all1 ++ new2.
Proof.
  intros Hname H1 H2.
  assert (Hpath : data_file url2 (Some name) = data_file url1 (Some name)).
  { unfold _get_data_file, _get_file_name. by rewrite Hname. }
  destruct (save_data_inv _ _ _ _ _ _ _ _ _ _ _ H1) as (_ & _ & Hfile1 & _).
  destruct (save_data_inv _ _ _ _ _ _ _ _ _ _ _ H2) as (Hnew2 & Hall2 & Hfile2 & _).
  rewrite Hpath in Hnew2, Hall2, Hfile2. unfold stored_items in Hnew2, Hall2.
  rewrite Hfile1 in Hnew2, Hall2. simpl in Hnew2, Hall2.
  split; [exact Hall2|]. split.
  - intros r _ Hurl Hr. rewrite Hnew2 in Hr. apply new_of_In in Hr as [_ Hr]. contradiction.
  - eexists. split; [exact Hfile2|]. simpl. by rewrite Hall2.
Qed.

(** X9. When the history path of a source holds a JSON object (the data
    file of a source whose name is this one's followed by [_history]) and
    the input has new records, [save_data] raises [AttributeError] after it
    has rewritten the data file: the new records are stored, the history
    path is untouched, and the same call made again returns with no new
    record, so that these records never get a history entry. *)
Theorem save_data_history_clash url results key name w d :
  files w !! history_file url name = Some (DataFile d) ->
  (forall h, files w !! data_file url name <> Some (HistoryFile h)) ->
  new_of (stored_items w (data_file url name)) results <> [] ->
  exists w1 w2,
    save url results key name w
      = (Raise (Exn AttributeError (lit "'dict' object has no attribute 'append'")), w1) /\
    stored_items w1 (data_file url name)
      = stored_items w (data_file url name)
        ++ new_of (stored_items w (data_file url name)) results /\
    files w1 !! history_file url name = Some (DataFile d) /\
    save url results key name w1 = (Ok (stored_items w1 (data_file url name), []), w2) /\
    files w2 !! history_file url name = Some (DataFile d).
Proof.
  intros Hhist Hdata Hnew.
  pose proof (data_history_distinct unicode_word md5_hexdigest data_dir url name) as Hne.
  assert (Hfirst : exists w1,
    save url results key name w
      = (Raise (Exn AttributeError (lit "'dict' object has no attribute 'append'")), w1) /\
    files w1 !! data_file url name
      = Some (DataFile (mkSet url key name (clock w (ticks w))
                (len (stored_items w (data_file url name)
                      ++ new_of (stored_items w (data_file url name)) results))
                (stored_items w (data_file url name)
                 ++ new_of (stored_items w (data_file url name)) results))) /\
    files w1 !! history_file url name = Some (DataFile d)).
  { rewrite (save_data_eq unicode_word md5_hexdigest data_dir).
    assert (Hrun :
      exists w1,
        match _save_history unicode_word md5_hexdigest data_dir url
                (new_of (stored_items w (data_file url name)) results) key name
                (written w (data_file url name)
                   (DataFile (mkSet url key name (clock w (ticks w))
                      (len (stored_items w (data_file url name)
                            ++ new_of (stored_items w (data_file url name)) results))
                      (stored_items w (data_file url name)
                       ++ new_of (stored_items w (data_file url name)) results)))) with
        | (Ok _, w2) =>
            (Ok (stored_items w (data_file url name)
                 ++ new_of (stored_items w (data_file url name)) results,
                 new_of (stored_items w (data_file url name)) results), w2)
        | (Raise e, w2) => (Raise e, w2)
        end = (Raise (Exn AttributeError (lit "'dict' object has no attribute 'append'")),
               w1) /\
        files w1 !! data_file url name
          = Some (DataFile (mkSet url key name (clock w (ticks w))
                    (len (stored_items w (data_file url name)
                          ++ new_of (stored_items w (data_file url name)) results))
                    (stored_items w (data_file url name)
                     ++ new_of (stored_items w (data_file url name)) results))) /\
        files w1 !! history_file url name = Some (DataFile d)).
    { rewrite (_save_history_eq unicode_word md5_hexdigest data_dir).
      destruct (new_of (stored_items w (data_file url name)) results) as [|r new] eqn:Hn;
        [done|].
      unfold written. simpl. rewrite lookup_insert_ne, Hhist by exact Hne.
      eexists. split; [reflexivity|]. simpl.
      by rewrite lookup_insert_eq, lookup_insert_ne, Hhist by exact Hne. }
    destruct (files w !! data_file url name) as [[d0|h| | |]|] eqn:Hd; try exact Hrun.
    by destruct (Hdata h). }
  destruct Hfirst as (w1 & Hraise & Hfile1 & Hhist1).
  assert (Hstored : stored_items w1 (data_file url name)
                    = stored_items w (data_file url name)
                      ++ new_of (stored_items w (data_file url name)) results)
    by (unfold stored_items at 1; by rewrite Hfile1).
  assert (Hsecond : exists w2,
    save url results key name w1 = (Ok (stored_items w1 (data_file url name), []), w2) /\
    files w2 !! history_file url name = Some (DataFile d)).
  { rewrite (save_data_eq unicode_word md5_hexdigest data_dir), Hfile1. cbv zeta.
    rewrite Hstored, new_of_saved, (_save_history_eq unicode_word md5_hexdigest data_dir).
    rewrite app_nil_r. eexists. split; [reflexivity|].
    unfold written. simpl. by rewrite lookup_insert_ne by exact Hne. }
  destruct Hsecond as (w2 & Hok & Hhist2).
  exists w1, w2. done.
Qed.

(** *** The listing of all sources *)

Lemma startswith_app (a b : pystr) : startswith a (a ++ b) = true.
Proof. induction a as [|c a IH]; [done|]. simpl. by rewrite N.eqb_refl. Qed.

Lemma startswith_drop (a b : pystr) : startswith a b = true -> a ++ drop (length a) b = b.
Proof.
  revert b. induction a as [|c a IH]; intros [|c' b] H; try done. simpl in *.
  apply andb_true_iff in H as [Hc H]. apply N.eqb_eq in Hc as ->. by rewrite IH.
Qed.



Lemma contains_char (c : N) (l : pystr) : contains [c] l = true <-> In c l.
Proof.
  induction l as [|a l IH]; simpl; [split; [done|intros []]|].
  rewrite andb_true_r, orb_true_iff, IH, N.eqb_eq. split; intros [H|H]; auto.
Qed.

Lemma contains_char_false (c : N) (l : pystr) : contains [c] l = false <-> ~ In c l.
Proof. rewrite <- contains_char. by destruct (contains [c] l). Qed.

Lemma os_path_join_name (dir name : pystr) :
  contains (lit "/") name = false ->
  os_path_join dir name = os_path_join dir [] ++ name.
Proof.
  intros H. unfold os_path_join.
  assert (Hstart : startswith (lit "/") name = false).
  { destruct name as [|c name]; [done|]. simpl in *. by apply orb_false_iff in H as [H _]. }
  rewrite Hstart. simpl.
  destruct (negb (truthy dir) || endswith (lit "/") dir); by rewrite ?app_nil_r, <- ?app_assoc.
Qed.

Lemma name_in_Some (dir p name : pystr) :
  name_in dir p = Some name <->
  p = os_path_join dir name /\ truthy name = true /\ contains (lit "/") name = false.
Proof.
  unfold name_in. split.
  - destruct (startswith _ p) eqn:Hp; [|done]. simpl.
    destruct (truthy _) eqn:Ht; [|done]. simpl.
    destruct (contains _ _) eqn:Hc; [done|]. simpl. intros [= <-].
    split; [|done]. rewrite (os_path_join_name dir _ Hc). symmetry.
    by apply startswith_drop.
  - intros (-> & Ht & Hc). rewrite (os_path_join_name dir name Hc).
    by rewrite startswith_app, drop_app_length, Ht, Hc.
Qed.

Lemma listdir_spec (dir : pystr) (fs : gmap pystr file) (name : pystr) :
  name ∈ listdir dir fs <->
  truthy name = true /\ contains (lit "/") name = false /\
  is_Some (fs !! os_path_join dir name).
Proof.
  unfold listdir. rewrite list_elem_of_omap. split.
  - intros ([p f] & Hin & Hname). apply elem_of_map_to_list in Hin.
    apply name_in_Some in Hname as (Hp & Ht & Hc). simpl in Hp. subst p. by eauto.
  - intros (Ht & Hc & [f Hf]). exists (os_path_join dir name, f).
    split; [by apply elem_of_map_to_list|]. by apply name_in_Some.
Qed.

Lemma summarize_eq w : forall filenames summaries,
  summarize data_dir filenames summaries w
  = (Ok (summaries ++ omap (reported data_dir w) filenames), w).
Proof.
  induction filenames as [|filename rest IH]; intros summaries.
  - simpl. unfold mret, M_ret. by rewrite app_nil_r.
  - simpl. unfold reported at 1.
    destruct (endswith (lit ".json") filename && negb (endswith _ filename)); [|apply IH].
    unfold mbind at 1, M_bind at 1, try_except, mbind, M_bind, json_load.
    destruct (files w !! os_path_join data_dir filename) as [[]|]; simpl; rewrite IH;
      by rewrite <- ?app_assoc.
Qed.

Lemma get_all_summaries_run w :
  get_all_summaries data_dir py_repr w =
  match files w !! data_dir with
  | Some _ => (Raise (not_a_directory py_repr data_dir), w)
  | None => (Ok (omap (reported data_dir w) (listdir data_dir (files w))), w)
  end.
Proof.
  unfold get_all_summaries, mbind, M_bind, dir_exists, os_listdir.
  destruct (files w !! data_dir) as [f|] eqn:Hdir.
  - rewrite bool_decide_true by (by eexists). simpl. by rewrite Hdir.
  - rewrite bool_decide_false by (by intros [f Hf]). simpl.
    destruct (listdir data_dir (files w)) as [|filename rest] eqn:Hlist; [reflexivity|].
    simpl. rewrite Hdir, summarize_eq, Hlist. reflexivity.
Qed.

Lemma get_all_summaries_elem w :
  files w !! data_dir = None ->
  exists summaries,
    get_all_summaries data_dir py_repr w = (Ok summaries, w) /\
    forall s, s ∈ summaries <->
      exists filename d,
        truthy filename = true /\ contains (lit "/") filename = false /\
        endswith (lit ".json") filename = true /\
        endswith (lit "_history.json") filename = false /\
        files w !! os_path_join data_dir filename = Some (DataFile d) /\
        s = mkSourceSummary (set_url d) (set_source_key d) (set_source_name d)
                            (total_count d) (last_updated d).
Proof.
  intros Hdir. rewrite get_all_summaries_run, Hdir. eexists. split; [reflexivity|].
  intros s. rewrite list_elem_of_omap. split.
  - intros (filename & Hin & Hrep). apply listdir_spec in Hin as (Ht & Hc & _).
    unfold reported in Hrep.
    destruct (endswith (lit ".json") filename) eqn:Hjson; [|done].
    destruct (endswith (lit "_history.json") filename) eqn:Hhist; [done|]. simpl in Hrep.
    destruct (files w !! os_path_join data_dir filename) as [[d| | | |]|] eqn:Hf; try done.
    injection Hrep as <-. by exists filename, d.
  - intros (filename & d & Ht & Hc & Hjson & Hhist & Hf & ->). exists filename. split.
    + apply listdir_spec. by rewrite Hf.
    + unfold reported. by rewrite Hjson, Hhist, Hf.
Qed.

(** X10. [get_all_summaries] changes nothing, whether it returns or raises.
    When the data directory is a regular file it raises the
    [NotADirectoryError] of [os.listdir], which is outside the [try].
    Otherwise it returns, and reports exactly the files of the data
    directory itself whose name ends with [.json] but not with
    [_history.json] and that hold a JSON object, each with the url, key,
    name, count and time the file holds; history arrays, export files and
    unreadable files are passed over. *)
Theorem get_all_summaries_spec w :
  snd (get_all_summaries data_dir py_repr w) = w /\
  (is_Some (files w !! data_dir) ->
   get_all_summaries data_dir py_repr w
   = (Raise (Exn NotADirectoryError
               (lit "[Errno 20] Not a directory: " ++ py_repr data_dir)), w)) /\
  (files w !! data_dir = None ->
   exists summaries,
     get_all_summaries data_dir py_repr w = (Ok summaries, w) /\
     forall s, s ∈ summaries <->
       exists filename d,
         truthy filename = true /\ contains (lit "/") filename = false /\
         endswith (lit ".json") filename = true /\
         endswith (lit "_history.json") filename = false /\
         files w !! os_path_join data_dir filename = Some (DataFile d) /\
         s = mkSourceSummary (set_url d) (set_source_key d) (set_source_name d)
                             (total_count d) (last_updated d)).
Proof.
  split; [|split].
  - rewrite get_all_summaries_run. by destruct (files w !! data_dir).
  - intros [f Hf]. by rewrite get_all_summaries_run, Hf.
  - apply get_all_summaries_elem.
Qed.








End Facts.


Import Sample.

(** ["T"] is stored for [http://x/1]; the next call brings ["T2"] for the
    same url and ["U"] for [http://x/2]. *)
Lemma save_data_urls_witness :
  let stored := item "T" "http://x/1" in
  let results := [item "T2" "http://x/1"; item "U" "http://x/2"] in
  let all := [stored; item "U" "http://x/2"] in
  let w := snd (save list_url [stored] (Some (lit "k")) (Some (lit "src")) offline_world) in
  let w' := snd (save list_url results (Some (lit "k")) (Some (lit "src")) w) in
  let before := stored_items w (lit "data/src.json") in
  save list_url results (Some (lit "k")) (Some (lit "src")) w
    = (Ok (all, [item "U" "http://x/2"]), w') /\
  (stored_items w' (lit "data/src.json") = all /\
   (forall u, In u (List.map Env.url all) <->
              In u (List.map Env.url before) \/ In u (List.map Env.url results)) /\
   (NoDup (List.map Env.url before) -> NoDup (List.map Env.url results) ->
    NoDup (List.map Env.url all))).
Proof.
  intros stored results all w w' before.
  assert (H : save list_url results (Some (lit "k")) (Some (lit "src")) w
              = (Ok (all, [item "U" "http://x/2"]), w')) by (vm_compute; reflexivity).
  split; [exact H|].
  exact (save_data_urls ascii_word list_digest (lit "data") list_url results
           (Some (lit "k")) (Some (lit "src")) w all [item "U" "http://x/2"] w' H).
Defined.

Lemma save_each_append_only_witness :
  let t := item "T" "http://x/1" in
  let u := item "U" "http://x/2" in
  let inputs := [[t]; [t; u]] in
  let key := Some (lit "k") in
  let name := Some (lit "src") in
  let w' := snd (save_each list_url key name inputs offline_world) in
  save_each list_url key name inputs offline_world
    = (Ok [([t], [t]); ([t; u], [u])], w') /\
  (stored_items offline_world (lit "data/src.json")
     `prefix_of` stored_items w' (lit "data/src.json") /\
   (forall a, In a (List.map Env.url (stored_items w' (lit "data/src.json"))) <->
              In a (List.map Env.url (stored_items offline_world (lit "data/src.json"))) \/
              exists results, In results inputs /\ In a (List.map Env.url results)) /\
   (inputs <> [] ->
    exists d, files w' !! lit "data/src.json" = Some (DataFile d) /\
              total_count d = len (items d))).
Proof.
  intros t u inputs key name w'.
  assert (H : save_each list_url key name inputs offline_world
              = (Ok [([t], [t]); ([t; u], [u])], w')) by (vm_compute; reflexivity).
  split; [exact H|].
  exact (save_each_append_only ascii_word list_digest (lit "data") list_url key name
           inputs offline_world [([t], [t]); ([t; u], [u])] w' H).
Defined.

Lemma get_summary_after_save_witness :
  let results := [item "T" "http://x/1"; item "U" "http://x/2"] in
  let key := Some (lit "k") in
  let name := Some (lit "src") in
  let w' := snd (save list_url results key name offline_world) in
  (save list_url results key name offline_world = (Ok (results, results), w') /\
   (results = [] ->
    forall d, files offline_world !! lit "data/src_history.json" <> Some (DataFile d))) /\
  exists s,
    get_summary ascii_word list_digest (lit "data") list_url name w' = (Ok s, w') /\
    sm_url s = list_url /\ sm_source_key s = key /\ sm_source_name s = name /\
    total_items s = len results /\
    sm_last_updated s = clock offline_world (ticks offline_world) /\
    history_entries s = len (stored_history w' (lit "data/src_history.json")) /\
    (results <> [] -> latest_new_items s = len results /\ 1 <= history_entries s).
Proof.
  intros results key name w'.
  assert (H1 : save list_url results key name offline_world = (Ok (results, results), w'))
    by (vm_compute; reflexivity).
  assert (H2 : results = [] ->
               forall d, files offline_world !! lit "data/src_history.json"
                         <> Some (DataFile d))
    by (intros Hnil; discriminate Hnil).
  split; [exact (conj H1 H2)|].
  exact (get_summary_after_save ascii_word list_digest (lit "data") list_url results
           key name offline_world results results w' H1 H2).
Defined.


(** Two sources named [src], at [http://x/list] and at [http://y/list]; the
    second one finds the record the first one stored and one more. *)
Lemma same_name_shares_store_witness :
  let t := item "T" "http://x/1" in
  let u := item "U" "http://x/2" in
  let name := lit "src" in
  let url2 := lit "http://y/list" in
  let w1 := snd (save list_url [t] (Some (lit "k1")) (Some name) offline_world) in
  let w2 := snd (save url2 [t; u] (Some (lit "k2")) (Some name) w1) in
  (truthy name = true /\
   save list_url [t] (Some (lit "k1")) (Some name) offline_world = (Ok ([t], [t]), w1) /\
   save url2 [t; u] (Some (lit "k2")) (Some name) w1 = (Ok ([t; u], [u]), w2)) /\
  ([t; u] = [t] ++ [u] /\
   (forall r, In r [t; u] -> In (Env.url r) (List.map Env.url [t]) -> ~ In r [u]) /\
   exists d,
     files w2 !! lit "data/src.json" = Some (DataFile d) /\
     set_url d = url2 /\ set_source_key d = Some (lit "k2") /\ items d = [t] ++ [u]).
Proof.
  intros t u name url2 w1 w2.
  assert (H1 : truthy name = true) by reflexivity.
  assert (H2 : save list_url [t] (Some (lit "k1")) (Some name) offline_world
               = (Ok ([t], [t]), w1)) by (vm_compute; reflexivity).
  assert (H3 : save url2 [t; u] (Some (lit "k2")) (Some name) w1 = (Ok ([t; u], [u]), w2))
    by (vm_compute; reflexivity).
  split; [exact (conj H1 (conj H2 H3))|].
  exact (same_name_shares_store ascii_word list_digest (lit "data") list_url url2 [t] [t; u]
           (Some (lit "k1")) (Some (lit "k2")) name offline_world [t] [t] w1 [t; u] [u] w2
           H1 H2 H3).
Defined.

(** The source named [a_history] is saved first, so that
    [data/a_history.json] holds its JSON object; then the source named [a]
    is saved. *)
Lemma save_data_history_clash_witness :
  let t := item "T" "http://x/1" in
  let u := item "U" "http://x/2" in
  let key := Some (lit "k") in
  let name := Some (lit "a") in
  let w := snd (save list_url [t] key (Some (lit "a_history")) offline_world) in
  let d := match files w !! lit "data/a_history.json" with
           | Some (DataFile d) => d
           | _ => mkSet [] None None [] 0 []
           end in
  (files w !! lit "data/a_history.json" = Some (DataFile d) /\
   (forall h, files w !! lit "data/a.json" <> Some (HistoryFile h)) /\
   new_of (stored_items w (lit "data/a.json")) [u] <> []) /\
  exists w1 w2,
    save list_url [u] key name w
      = (Raise (Exn AttributeError (lit "'dict' object has no attribute 'append'")), w1) /\
    stored_items w1 (lit "data/a.json")
      = stored_items w (lit "data/a.json")
        ++ new_of (stored_items w (lit "data/a.json")) [u] /\
    files w1 !! lit "data/a_history.json" = Some (DataFile d) /\
    save list_url [u] key name w1 = (Ok (stored_items w1 (lit "data/a.json"), []), w2) /\
    files w2 !! lit "data/a_history.json" = Some (DataFile d).
Proof.
  intros t u key name w d.
  assert (H1 : files w !! lit "data/a_history.json" = Some (DataFile d))
    by (vm_compute; reflexivity).
  assert (H2 : forall h, files w !! lit "data/a.json" <> Some (HistoryFile h))
    by (intros h Hh; vm_compute in Hh; discriminate Hh).
  assert (H3 : new_of (stored_items w (lit "data/a.json")) [u] <> [])
    by (intros Hnil; vm_compute in Hnil; discriminate Hnil).
  split; [exact (conj H1 (conj H2 H3))|].
  exact (save_data_history_clash ascii_word list_digest (lit "data") list_url [u] key name
           w d H1 H2 H3).
Defined.



End StorageMore.

(** ** More on the crawler *)

Module CrawlerMore.

Import BaseCrawler CrawlerFacts.

Section Facts.

Variable self : Crawler.

Lemma total_sleep_app evs1 evs2 :
  total_sleep (evs1 ++ evs2) = total_sleep evs1 + total_sleep evs2.
Proof.
  unfold total_sleep. induction evs1 as [|ev evs1 IH]; [reflexivity|].
  simpl. destruct ev; rewrite IH; lia.
Qed.

Lemma total_sleep_attempts answers url : forall k n attempt,
  0 <= attempt ->
  total_sleep (attempts_trace answers url n attempt k) = 2 ^ attempt * (2 ^ Z.of_nat k - 1).
Proof.
  induction k as [|k IH]; intros n attempt Hattempt.
  - simpl. lia.
  - change (total_sleep (attempts_trace answers url n attempt (S k)))
      with (2 ^ attempt + total_sleep (attempts_trace answers url (S n) (attempt + 1) k)).
    rewrite IH by lia. rewrite Nat2Z.inj_succ.
    replace (attempt + 1) with (Z.succ attempt) by lia.
    rewrite !Z.pow_succ_r by lia. ring.
Qed.

(** X13. [fetch_page] with any bound: it always returns, makes at most
    [max_retries] requests and none when the bound is zero or negative
    (it then returns [None]); when it gives up it has made exactly
    [max_retries] requests and paused [2 ** (max_retries - 1) - 1] seconds
    in all; when a request succeeds after [k] failures it has paused
    [2 ** k - 1] seconds. *)
Theorem fetch_page_bounded url max_retries w :
  exists r w' evs,
    fetch_page self url max_retries w = (Ok r, w') /\ same_store w w' /\
    trace w' = trace w ++ evs /\
    (gets w <= gets w' <= gets w + Z.to_nat max_retries)%nat /\
    (max_retries <= 0 -> r = None /\ w' = w) /\
    (0 < max_retries -> r = None ->
     gets w' = (gets w + Z.to_nat max_retries)%nat /\
     total_sleep evs = 2 ^ (max_retries - 1) - 1) /\
    (is_Some r -> total_sleep evs = 2 ^ Z.of_nat (gets w' - gets w - 1) - 1).
Proof.
  destruct (fetch_page_spec self url max_retries w) as (r & w' & Hrun & Hsame & [H|H]).
  - destruct H as (Hle & -> & ->). exists None, w, []. rewrite app_nil_r.
    split; [exact Hrun|]. split; [exact Hsame|]. split; [reflexivity|].
    split; [lia|]. split; [done|]. split; [lia|]. by intros [soup Hsoup].
  - destruct H as (k & Hk & Hgets & Htrace & _ & Hlast).
    exists r, w', (attempts_trace (net w) url (gets w) 0 k).
    split; [exact Hrun|]. split; [exact Hsame|]. split; [exact Htrace|].
    split; [lia|]. split; [lia|].
    rewrite total_sleep_attempts by lia. split.
    + intros Hpos ->. destruct Hlast as [Hlast _]. split; [lia|].
      replace (Z.of_nat k) with (max_retries - 1) by lia. lia.
    + intros _. replace (gets w' - gets w - 1)%nat with k by lia. lia.
Qed.

(** A call of [fetch_page] with the bound 3, as the crawl makes it. *)
Lemma fetch_page_three url w :
  exists r w' evs,
    fetch_page self url 3 w = (Ok r, w') /\ trace w' = trace w ++ evs /\
    (gets w < gets w' <= gets w + 3)%nat /\ next_requests evs = [] /\
    pages_of self evs = match r with Some soup => [soup] | None => [] end.
Proof.
  destruct (fetch_page_spec self url 3 w) as (r & w' & Hrun & _ & [(H & _)|H]); [lia|].
  destruct H as (k & Hk & Hgets & Htrace & Hfail & Hlast).
  exists r, w', (attempts_trace (net w) url (gets w) 0 k).
  split; [exact Hrun|]. split; [exact Htrace|]. split; [lia|].
  split; [apply next_requests_attempts|]. rewrite (pages_of_attempts _ _ _ _ _ _ Hfail).
  destruct r as [soup|]; [by rewrite Hlast|]. by destruct Hlast as (_ & e & ->).
Qed.

Lemma crawl_pages_bounds url max_pages : forall remaining page_num results w,
  exists out w' evs,
    crawl_pages self url max_pages page_num results remaining w = (out, w') /\
    trace w' = trace w ++ evs /\
    (gets w <= gets w' <= gets w + 3 * length (next_requests evs))%nat /\
    (length (pages_of self evs) <= length (next_requests evs))%nat /\
    Z.of_nat (length (next_requests evs)) <= Z.max 0 (max_pages - 1 - page_num).
Proof.
  induction remaining as [|remaining IH]; intros page_num results w.
  - exists (Ok (results, ExitBound)), w, []. rewrite app_nil_r. simpl. repeat split; lia.
  - destruct (Z.lt_ge_cases page_num (max_pages - 1)) as [Hlt|Hge].
    2:{ rewrite crawl_pages_done by lia. exists (Ok (results, ExitBound)), w, [].
        rewrite app_nil_r. simpl. repeat split; lia. }
    rewrite crawl_pages_unfold by exact Hlt. cbv zeta.
    set (w1 := asked_next url page_num w).
    assert (Htrace1 : trace w1 = trace w ++ [EvNextPage url (page_num + 1)]) by reflexivity.
    assert (Hgets1 : gets w1 = gets w) by reflexivity.
    destruct (truthy_opt (build_next_page_url self url (page_num + 1))).
    2:{ exists (Ok (results, ExitNoNext)), w1, [EvNextPage url (page_num + 1)]. simpl.
        repeat split; try done; lia. }
    destruct (fetch_page_three (default [] (build_next_page_url self url (page_num + 1))) w1)
      as (r & w2 & evs & Hrun & Htrace & Hgets & Hreq & Hpages).
    rewrite Hrun.
    assert (Hreq1 : next_requests ([EvNextPage url (page_num + 1)] ++ evs)
                    = [(url, page_num + 1)])
      by (rewrite next_requests_app, Hreq; reflexivity).
    assert (Hpages1 : pages_of self ([EvNextPage url (page_num + 1)] ++ evs)
                      = match r with Some soup => [soup] | None => [] end)
      by (rewrite pages_of_app, Hpages; reflexivity).
    assert (Htrace2 : trace w2 = trace w ++ [EvNextPage url (page_num + 1)] ++ evs)
      by (rewrite Htrace, Htrace1, <- app_assoc; reflexivity).
    destruct r as [soup|].
    2:{ exists (Ok (results, ExitFetchFailed)), w2, ([EvNextPage url (page_num + 1)] ++ evs).
        rewrite Hreq1, Hpages1. simpl. repeat split; try done; lia. }
    destruct (extract_search_results self soup) as [[|item items]|e].
    + exists (Ok (results, ExitEmptyPage)), w2, ([EvNextPage url (page_num + 1)] ++ evs).
      rewrite Hreq1, Hpages1. simpl. repeat split; try done; lia.
    + cbn [truthy]. set (w3 := paused w2).
      destruct (IH (page_num + 1) (results ++ item :: items) w3)
        as (out & w' & evs' & Hrun' & Htrace' & Hgets' & Hpages' & Hk).
      assert (Hgets3 : gets w3 = gets w2) by reflexivity.
      assert (Htrace3 : trace w3 = trace w2 ++ [EvSleep 1]) by reflexivity.
      exists out, w', (([EvNextPage url (page_num + 1)] ++ evs) ++ [EvSleep 1] ++ evs').
      split; [exact Hrun'|].
      split; [rewrite Htrace', Htrace3, Htrace2, <- !app_assoc; reflexivity|].
      set (first := [EvNextPage url (page_num + 1)] ++ evs) in *.
      rewrite !next_requests_app, !pages_of_app, Hreq1, Hpages1. simpl.
      repeat split; lia.
    + exists (Raise e), w2, ([EvNextPage url (page_num + 1)] ++ evs).
      rewrite Hreq1, Hpages1. simpl. repeat split; try done; lia.
Qed.

(** X14. A call of [crawl_search_url] makes at least one request and at most
    three per page, for at most [max_pages] pages (one page when
    [max_pages] is below 1): it fetches at most [max(1, max_pages)] pages
    with at most [3 * max(1, max_pages)] requests, whether it returns or
    raises.  It raises only what [extract_search_results] raises on a page
    it has fetched; when the extraction raises on none of them, it
    returns. *)
Theorem crawl_request_bound url max_pages w :
  exists r w' evs,
    crawl_search_url self url max_pages w = (r, w') /\
    trace w' = trace w ++ evs /\
    (gets w < gets w' <= gets w + 3 * Z.to_nat (Z.max 1 max_pages))%nat /\
    (length (pages_of self evs) <= Z.to_nat (Z.max 1 max_pages))%nat /\
    (forall e, r = Raise e ->
       exists soup, soup ∈ pages_of self evs /\
                    extract_search_results self soup = Raise e) /\
    ((forall soup, soup ∈ pages_of self evs ->
        exists items, extract_search_results self soup = Ok items) ->
     exists res, r = Ok res).
Proof.
  assert (Hbounds : exists r w' evs,
            crawl_search_url self url max_pages w = (r, w') /\
            trace w' = trace w ++ evs /\
            (gets w < gets w' <= gets w + 3 * Z.to_nat (Z.max 1 max_pages))%nat /\
            (length (pages_of self evs) <= Z.to_nat (Z.max 1 max_pages))%nat).
  { unfold crawl_search_url, mbind at 1, M_bind at 1.
    destruct (fetch_page_three url w)
      as (r & w1 & evs & Hrun & Htrace & Hgets & Hreq & Hpages).
    rewrite Hrun. destruct r as [soup|].
    2:{ exists (Ok []), w1, evs. split; [reflexivity|]. split; [exact Htrace|].
        rewrite Hpages. simpl. split; lia. }
    unfold mbind, M_bind, of_result.
    destruct (extract_search_results self soup) as [results|e].
    2:{ exists (Raise e), w1, evs. split; [reflexivity|]. split; [exact Htrace|].
        rewrite Hpages. simpl. split; lia. }
    destruct (crawl_pages_bounds url max_pages (Z.to_nat (max_pages - 1)) 0 results w1)
      as (out & w' & evs' & Hrun' & Htrace' & Hgets' & Hpages' & Hk).
    rewrite Hrun'. exists (gathered out), w', (evs ++ evs').
    split; [by destruct out as [[res exit]|e]|].
    split; [by rewrite Htrace', Htrace, <- app_assoc|].
    rewrite pages_of_app, Hpages, length_app. simpl. split; lia. }
  destruct Hbounds as (r & w' & evs & Hrun & Htrace & Hgets & Hpages).
  destruct (crawl_search_url_run self url max_pages w)
    as (r0 & w0 & evs0 & k & Hrun0 & _ & _ & Htrace0 & _ & _ & Hgath).
  rewrite Hrun in Hrun0. inversion Hrun0; subst r0 w0; clear Hrun0.
  rewrite Htrace in Htrace0. apply app_inv_head in Htrace0. subst evs0.
  assert (Hraise : forall e, r = Raise e ->
            exists soup, soup ∈ pages_of self evs /\
                         extract_search_results self soup = Raise e).
  { intros e ->. destruct Hgath as (soup & Hlast & Hextract). exists soup.
    split; [|exact Hextract]. apply last_Some in Hlast as [front ->].
    apply elem_of_app. right. by apply list_elem_of_singleton. }
  exists r, w', evs. split; [exact Hrun|]. split; [exact Htrace|].
  split; [exact Hgets|]. split; [exact Hpages|]. split; [exact Hraise|].
  intros Hall. destruct r as [res|e]; [by exists res|].
  destruct (Hraise e eq_refl) as (soup & Hin & Hextract).
  destruct (Hall soup Hin) as [items Hitems]. congruence.
Qed.

End Facts.

(** *** Per-page deduplication *)

Section Dedup.

Local Abbreviation ident := (fun r : Item => (title r, Env.url r)).

Lemma dedup_loop_spec : forall results (seen : gset (pystr * pystr)) unique_results,
  (forall i, i ∈ seen <-> i ∈ List.map ident unique_results) ->
  NoDup (List.map ident unique_results) ->
  exists kept,
    SichuanFGW.dedup_loop seen unique_results results = unique_results ++ kept /\
    kept `sublist_of` results /\
    NoDup (List.map ident (unique_results ++ kept)) /\
    (forall r, r ∈ results -> ident r ∈ List.map ident (unique_results ++ kept)) /\
    (NoDup (List.map ident (unique_results ++ results)) -> kept = results).
Proof.
  induction results as [|r results IH]; intros seen unique_results Hseen Hnd.
  - exists []. rewrite app_nil_r. repeat split; try done. intros r Hr. by inversion Hr.
  - simpl. destruct (bool_decide_reflect ((title r, Env.url r) ∈ seen)) as [Hin|Hnew].
    + destruct (IH seen unique_results Hseen Hnd) as (kept & Hrun & Hsub & Hnd' & Hall & Hid).
      exists kept. split; [exact Hrun|]. split; [by apply sublist_cons|].
      split; [exact Hnd'|]. split.
      * intros r' Hr'. apply elem_of_cons in Hr' as [->|Hr']; [|by apply Hall].
        rewrite List.map_app. apply elem_of_app. left. by apply Hseen.
      * intros Hdup. exfalso. rewrite List.map_app in Hdup.
        apply NoDup_app in Hdup as (_ & Hdisj & _).
        apply (Hdisj (title r, Env.url r)); [by apply Hseen|]. simpl. by left.
    + destruct (IH ({[(title r, Env.url r)]} ∪ seen) (unique_results ++ [r]))
        as (kept & Hrun & Hsub & Hnd' & Hall & Hid).
      { intros i. rewrite List.map_app, elem_of_app, elem_of_union, elem_of_singleton, Hseen.
        simpl. rewrite list_elem_of_singleton. tauto. }
      { rewrite List.map_app. apply NoDup_app. split; [exact Hnd|]. split.
        - intros i Hi Hi'. simpl in Hi'. apply list_elem_of_singleton in Hi' as ->.
          apply Hnew. by apply Hseen.
        - simpl. apply NoDup_singleton. }
      exists (r :: kept). rewrite <- app_assoc in Hrun, Hnd', Hall, Hid. simpl in *.
      split; [exact Hrun|]. split; [by apply sublist_skip|]. split; [exact Hnd'|]. split.
      * intros r' Hr'. apply elem_of_cons in Hr' as [->|Hr']; [|by apply Hall].
        rewrite List.map_app. apply elem_of_app. right. simpl. by left.
      * intros Hdup. f_equal. by apply Hid.
Qed.

(** X15. [_deduplicate_results] keeps, in their order, some of the records
    it is given, no two of which have the same title and url; every record
    given has one with its title and url among them; a list without such
    repeats comes back unchanged, and so does the result when it is
    deduplicated again.  Both crawler classes have the same function. *)
Theorem _deduplicate_results_spec results :
  let unique_results := SichuanFGW._deduplicate_results results in
  unique_results `sublist_of` results /\
  NoDup (List.map ident unique_results) /\
  (forall r, r ∈ results -> ident r ∈ List.map ident unique_results) /\
  (NoDup (List.map ident results) -> unique_results = results) /\
  SichuanFGW._deduplicate_results unique_results = unique_results /\
  ExampleOtherSite._deduplicate_results results = unique_results.
Proof.
  cbv zeta. unfold SichuanFGW._deduplicate_results.
  destruct (dedup_loop_spec results ∅ []) as (kept & Hrun & Hsub & Hnd & Hall & Hid).
  { intros i. simpl. split; intros H; [by apply not_elem_of_empty in H|by inversion H]. }
  { simpl. apply NoDup_nil_2. }
  simpl in *. rewrite Hrun.
  split; [exact Hsub|]. split; [exact Hnd|]. split; [exact Hall|]. split; [exact Hid|].
  split; [|by rewrite <- Hrun].
  destruct (dedup_loop_spec kept ∅ []) as (kept' & Hrun' & _ & _ & _ & Hid').
  { intros i. simpl. split; intros H; [by apply not_elem_of_empty in H|by inversion H]. }
  { simpl. apply NoDup_nil_2. }
  simpl in *. rewrite Hrun'. by apply Hid'.
Qed.

End Dedup.

(** *** Titles *)

Section Titles.

Variable unicode_space : N -> bool.

Local Abbreviation has_gt := (existsb (fun a => (a =? 62)%N)).

Lemma strip_tags_from_gt inside s :
  has_gt s = false -> has_gt (strip_tags_from inside s) = false.
Proof.
  revert inside. induction s as [|c s IH]; intros inside H; [done|].
  simpl in H. apply orb_false_iff in H as [Hc Hs]. simpl. rewrite Hc.
  destruct inside; [by apply IH|].
  destruct ((c =? 60)%N && closes s); [by apply IH|].
  simpl. rewrite Hc. by apply IH.
Qed.

Lemma strip_tags_closes s : closes s = false -> closes (strip_tags_from false s) = false.
Proof.
  destruct s as [|c s]; [done|]. simpl.
  destruct (c =? 62)%N eqn:Hc; simpl.
  - intros _. apply N.eqb_eq in Hc as ->. simpl. done.
  - intros Hs. destruct ((c =? 60)%N && closes s).
    + assert (Hnone : has_gt (strip_tags_from true s) = false)
        by (by apply strip_tags_from_gt).
      destruct (strip_tags_from true s) as [|a r]; [done|]. simpl in *.
      apply orb_false_iff in Hnone as [-> ->]. done.
    + simpl. rewrite Hc. simpl. by apply strip_tags_from_gt.
Qed.

Lemma strip_tags_from_tagless inside s : tagless (strip_tags_from inside s) = true.
Proof.
  revert inside. induction s as [|c s IH]; intros inside; [done|]. simpl.
  destruct inside; [destruct (c =? 62)%N; apply IH|].
  destruct (c =? 60)%N eqn:Hc; simpl; [|by rewrite Hc, IH].
  destruct (closes s) eqn:Hs; [apply IH|]. simpl.
  by rewrite Hc, strip_tags_closes, IH.
Qed.

Lemma tagless_fixed s : tagless s = true -> strip_tags_from false s = s.
Proof.
  induction s as [|c s IH]; [done|]. simpl. intros H.
  apply andb_true_iff in H as [Hc Hs]. apply negb_true_iff in Hc. rewrite Hc.
  by rewrite IH.
Qed.

Lemma tagless_lstrip s : tagless s = true -> tagless (lstrip unicode_space s) = true.
Proof.
  induction s as [|c s IH]; [done|]. intros H. simpl.
  destruct (unicode_space c); [|exact H]. apply IH. simpl in H.
  by apply andb_true_iff in H as [_ H].
Qed.

Lemma has_gt_app a b : has_gt a = true -> has_gt (a ++ b) = true.
Proof. intros H. rewrite existsb_app, H. done. Qed.

Lemma closes_app a b : closes a = true -> closes (a ++ b) = true.
Proof.
  destruct a as [|c a]; [done|]. simpl. intros H.
  apply andb_true_iff in H as [-> H]. simpl. by apply has_gt_app.
Qed.

Lemma tagless_app_l a b : tagless (a ++ b) = true -> tagless a = true.
Proof.
  induction a as [|c a IH]; [done|]. simpl. intros H.
  apply andb_true_iff in H as [Hc H]. rewrite (IH H), andb_true_r.
  destruct (c =? 60)%N; [|done]. simpl in *.
  destruct (closes a) eqn:Ha; [|done]. by rewrite (closes_app a b Ha) in Hc.
Qed.

Lemma lstrip_suffix s : exists dropped, s = dropped ++ lstrip unicode_space s.
Proof.
  induction s as [|c s [dropped IH]]; [by exists []|]. simpl.
  destruct (unicode_space c); [|by exists []]. exists (c :: dropped). simpl. by f_equal.
Qed.

Lemma tagless_rev_lstrip s :
  tagless s = true -> tagless (rev (lstrip unicode_space (rev s))) = true.
Proof.
  intros H. destruct (lstrip_suffix (rev s)) as [dropped Hd].
  apply (f_equal (@rev N)) in Hd. rewrite rev_involutive, rev_app_distr in Hd.
  rewrite Hd in H. by apply tagless_app_l in H.
Qed.

Lemma tagless_strip s : tagless s = true -> tagless (strip unicode_space s) = true.
Proof. intros H. unfold strip. apply tagless_rev_lstrip. by apply tagless_lstrip. Qed.

Lemma lstrip_fixed s :
  lstrip unicode_space (lstrip unicode_space s) = lstrip unicode_space s.
Proof.
  induction s as [|c s IH]; [done|]. simpl.
  destruct (unicode_space c) eqn:Hc; [exact IH|]. simpl. by rewrite Hc.
Qed.

Lemma lstrip_head s :
  match lstrip unicode_space s with
  | [] => True
  | c :: _ => unicode_space c = false
  end.
Proof.
  induction s as [|c s IH]; [done|]. simpl.
  destruct (unicode_space c) eqn:Hc; [exact IH|exact Hc].
Qed.

Lemma lstrip_keeps s :
  match s with [] => True | c :: _ => unicode_space c = false end ->
  lstrip unicode_space s = s.
Proof. destruct s as [|c s]; [done|]. simpl. by intros ->. Qed.

(** The first character of a stripped string is not whitespace. *)
Lemma strip_head s :
  match strip unicode_space s with
  | [] => True
  | c :: _ => unicode_space c = false
  end.
Proof.
  unfold strip. pose proof (lstrip_head s) as Hhead.
  destruct (lstrip_suffix (rev (lstrip unicode_space s))) as [dropped Hd].
  apply (f_equal (@rev N)) in Hd. rewrite rev_involutive, rev_app_distr in Hd.
  destruct (rev (lstrip unicode_space (rev (lstrip unicode_space s)))) as [|c r]; [done|].
  rewrite Hd in Hhead. exact Hhead.
Qed.

Lemma strip_fixed s : strip unicode_space (strip unicode_space s) = strip unicode_space s.
Proof.
  unfold strip at 1. rewrite (lstrip_keeps _ (strip_head s)).
  unfold strip. by rewrite rev_involutive, lstrip_fixed.
Qed.

Lemma tagless_without_lt s : ~ In 60%N s -> tagless s = true.
Proof.
  induction s as [|c s IH]; [done|]. intros H. simpl.
  destruct (N.eqb_spec c 60) as [->|Hc]; [destruct H; by left|].
  simpl. apply IH. intros Hin. apply H. by right.
Qed.

(** X22. [clean_title] leaves no tag in a title: in its result no [<] is
    followed by one or more characters other than [>] and then a [>]; the
    result neither begins nor ends with whitespace; cleaning it again
    changes nothing; a title without [<] is only stripped of the
    whitespace around it; [None] comes back as [None]. *)
Theorem clean_title_spec title :
  clean_title unicode_space (clean_title unicode_space title)
    = clean_title unicode_space title /\
  match clean_title unicode_space title with
  | Some cleaned =>
      tagless cleaned = true /\
      match cleaned with [] => True | c :: _ => unicode_space c = false end /\
      match rev cleaned with [] => True | c :: _ => unicode_space c = false end
  | None => title = None
  end /\
  (forall t, title = Some t -> ~ In 60%N t ->
             clean_title unicode_space title = Some (strip unicode_space t)).
Proof.
  destruct title as [[|c t]|].
  - split; [done|]. split; [done|]. by intros t [= <-].
  - set (title := c :: t). unfold clean_title. cbn [truthy].
    assert (Htag : tagless (strip unicode_space (strip_tags title)) = true)
      by (apply tagless_strip, strip_tags_from_tagless).
    split; [|split].
    + destruct (strip unicode_space (strip_tags title)) as [|a cleaned] eqn:Hclean; [done|].
      cbn [truthy]. f_equal. unfold strip_tags at 1.
      rewrite (tagless_fixed _ Htag), <- Hclean. apply strip_fixed.
    + split; [exact Htag|]. split; [apply strip_head|].
      unfold strip. rewrite rev_involutive. apply lstrip_head.
    + intros t' [= <-] Hlt. unfold strip_tags.
      by rewrite (tagless_fixed _ (tagless_without_lt _ Hlt)).
  - split; [done|]. split; [done|]. by intros t [=].
Qed.

End Titles.

(** *** Page addresses *)

Section Pagination.

Variable unicode_digit : N -> bool.

Lemma lit_uint_digits (d : Decimal.uint) :
  Forall (fun c => (48 <= c <= 57)%N) (lit (NilEmpty.string_of_uint d)).
Proof.
  unfold lit. induction d; simpl; [constructor|..]; (constructor; [lia|exact IHd]).
Qed.

Lemma lit_uint_nonempty (d : Decimal.uint) :
  d <> Decimal.Nil -> lit (NilEmpty.string_of_uint d) <> [].
Proof. unfold lit. destruct d; simpl; done. Qed.

(** The decimal text of a number that is not negative: digits, at least one. *)
Lemma str_of_int_digits n :
  0 <= n -> str_of_int n <> [] /\ Forall (fun c => (48 <= c <= 57)%N) (str_of_int n).
Proof.
  intros Hn. unfold str_of_int. destruct n as [|p|p]; [| |lia].
  - change (lit (NilZero.string_of_int (Z.to_int 0))) with [48%N].
    split; [done|]. apply Forall_cons. split; [lia|apply Forall_nil_2].
  - pose proof (DecimalPos.Unsigned.to_uint_nonnil p) as Hnil.
    simpl. unfold NilZero.string_of_uint.
    destruct (Pos.to_uint p) eqn:Hd; try done;
      rewrite <- Hd in *; (split; [by apply lit_uint_nonempty|apply lit_uint_digits]).
Qed.

Lemma startswith_before (sep : N) (p x y : pystr) :
  ~ In sep p -> startswith p (x ++ sep :: y) = true -> startswith p x = true.
Proof.
  revert x. induction p as [|a p IH]; intros x Hsep H; [done|].
  destruct x as [|c x]; simpl in *.
  - apply andb_true_iff in H as [Ha _]. apply N.eqb_eq in Ha. destruct Hsep. by left.
  - apply andb_true_iff in H as [-> H]. simpl. apply IH; [|exact H].
    intros Hin. apply Hsep. by right.
Qed.

Lemma re_sub_from_skipped prefix repl : forall s skip,
  (length s <= skip)%nat -> re_sub_from unicode_digit prefix repl skip s = [].
Proof.
  induction s as [|c s IH]; intros skip Hlen; [done|]. simpl in *.
  destruct skip as [|skip]; [lia|]. apply IH. lia.
Qed.

Lemma leading_digits_all ds :
  Forall (fun c => unicode_digit c = true) ds ->
  leading_digits unicode_digit ds = length ds.
Proof. induction 1 as [|c ds Hc _ IH]; [done|]. simpl. by rewrite Hc, IH. Qed.

(** Substituting in an address that ends with the parameter just appended. *)
Lemma re_sub_appended (sep : N) (prefix repl ds : pystr) : forall base,
  prefix <> [] -> ~ In sep prefix -> contains prefix base = false ->
  ds <> [] -> Forall (fun c => unicode_digit c = true) ds ->
  re_sub unicode_digit prefix repl (base ++ sep :: prefix ++ ds) = base ++ sep :: repl.
Proof.
  intros base Hprefix Hsep Hbase Hds Hdigits. unfold re_sub.
  induction base as [|b base IH].
  - simpl. unfold match_at.
    assert (Hno : startswith prefix (sep :: prefix ++ ds) = false).
    { destruct prefix as [|a prefix]; [done|]. simpl.
      destruct (N.eqb_spec a sep) as [->|_]; [|done]. destruct Hsep. by left. }
    rewrite Hno. f_equal.
    destruct prefix as [|a prefix]; [done|]. simpl. unfold match_at.
    change (a :: prefix ++ ds) with ((a :: prefix) ++ ds).
    rewrite StorageMore.startswith_app, drop_app_length, leading_digits_all by exact Hdigits.
    destruct ds as [|d ds]; [done|]. simpl length at 1.
    cbv beta iota. rewrite re_sub_from_skipped; [by rewrite app_nil_r|].
    rewrite length_app. simpl. lia.
  - simpl in Hbase. apply orb_false_iff in Hbase as [Hstart Hbase].
    change ((b :: base) ++ sep :: prefix ++ ds) with (b :: (base ++ sep :: prefix ++ ds)).
    cbn [re_sub_from]. unfold match_at at 1.
    assert (Hno : startswith prefix (b :: base ++ sep :: prefix ++ ds) = false).
    { destruct (startswith prefix (b :: base ++ sep :: prefix ++ ds)) eqn:E; [|done].
      change (b :: base ++ sep :: prefix ++ ds)
        with ((b :: base) ++ sep :: prefix ++ ds) in E.
      apply startswith_before in E; [|exact Hsep]. congruence. }
    rewrite Hno. simpl. f_equal. by apply IH.
Qed.

Lemma contains_self_app p y : contains p (p ++ y) = true.
Proof.
  destruct p as [|a p]; [by destruct y|]. simpl.
  by rewrite N.eqb_refl, StorageMore.startswith_app.
Qed.

Lemma contains_after (sep : N) (p x y : pystr) : contains p (x ++ sep :: p ++ y) = true.
Proof.
  induction x as [|c x IH]; simpl.
  - by rewrite contains_self_app, orb_true_r.
  - by rewrite IH, orb_true_r.
Qed.

(** X23. Page addresses built by appending are stable: when the base
    address has no page parameter, the address [build_next_page_url] builds
    for a page number that is not negative is one from which it builds, for
    any page number, the same address as from the base ([\d] matches the
    digits 0 to 9).  This holds for [SichuanFGWCrawler], with [pageNum=],
    and for [ExampleOtherSiteCrawler], with [page=], when the base has
    neither [page=] nor [p=]. *)
Theorem build_next_page_url_again base n m :
  (forall c, (48 <= c <= 57)%N -> unicode_digit c = true) ->
  0 <= n ->
  (contains (lit "pageNum=") base = false ->
   forall address,
     SichuanFGW.build_next_page_url unicode_digit base n = Some address ->
     SichuanFGW.build_next_page_url unicode_digit address m
     = SichuanFGW.build_next_page_url unicode_digit base m) /\
  (contains (lit "page=") base = false -> contains (lit "p=") base = false ->
   forall address,
     ExampleOtherSite.build_next_page_url unicode_digit base n = Some address ->
     ExampleOtherSite.build_next_page_url unicode_digit address m
     = ExampleOtherSite.build_next_page_url unicode_digit base m).
Proof.
  intros Hdigit Hn. destruct (str_of_int_digits n Hn) as [Hne Hds].
  assert (Hdigits : Forall (fun c => unicode_digit c = true) (str_of_int n))
    by (eapply Forall_impl; [exact Hds|]; intros c Hc; by apply Hdigit).
  assert (Hamp : forall prefix,
            prefix <> [] -> ~ In 38%N prefix -> contains prefix base = false ->
            contains prefix (base ++ lit "&" ++ prefix ++ str_of_int n) = true /\
            re_sub unicode_digit prefix (prefix ++ str_of_int m)
                   (base ++ lit "&" ++ prefix ++ str_of_int n)
            = base ++ lit "&" ++ prefix ++ str_of_int m).
  { intros prefix H1 H2 H3. change (lit "&") with [38%N]. cbn [app].
    split; [apply contains_after|by apply re_sub_appended]. }
  assert (Hqm : forall prefix,
            prefix <> [] -> ~ In 63%N prefix -> contains prefix base = false ->
            contains prefix (base ++ lit "?" ++ prefix ++ str_of_int n) = true /\
            re_sub unicode_digit prefix (prefix ++ str_of_int m)
                   (base ++ lit "?" ++ prefix ++ str_of_int n)
            = base ++ lit "?" ++ prefix ++ str_of_int m).
  { intros prefix H1 H2 H3. change (lit "?") with [63%N]. cbn [app].
    split; [apply contains_after|by apply re_sub_appended]. }
  split.
  - intros Hbase address. unfold SichuanFGW.build_next_page_url at 1 3. rewrite Hbase.
    cbv zeta. intros Haddress. apply (inj Some) in Haddress. subst address.
    unfold SichuanFGW.build_next_page_url. cbv zeta.
    destruct (contains (lit "?") base).
    + destruct (Hamp (lit "pageNum=")) as [-> ->]; try done.
      by apply StorageMore.contains_char_false.
    + destruct (Hqm (lit "pageNum=")) as [-> ->]; try done.
      by apply StorageMore.contains_char_false.
  - intros Hpage Hp address. unfold ExampleOtherSite.build_next_page_url at 1 3.
    rewrite Hpage, Hp. cbv zeta. intros Haddress. apply (inj Some) in Haddress.
    subst address. unfold ExampleOtherSite.build_next_page_url. cbv zeta.
    destruct (contains (lit "?") base).
    + destruct (Hamp (lit "page=")) as [-> ->]; try done.
      by apply StorageMore.contains_char_false.
    + destruct (Hqm (lit "page=")) as [-> ->]; try done.
      by apply StorageMore.contains_char_false.
Qed.

Lemma re_sub_no_match prefix repl s :
  (forall i, match_at unicode_digit prefix (drop i s) = None) ->
  re_sub unicode_digit prefix repl s = s.
Proof.
  unfold re_sub. induction s as [|c s IH]; intros Hnone; [reflexivity|].
  cbn [re_sub_from]. rewrite (Hnone 0%nat : match_at _ _ (c :: s) = None).
  f_equal. apply IH. intros i. exact (Hnone (S i)).
Qed.

(** X25. A page parameter without a number: when the base address contains
    [pageNum=] but no [pageNum=] in it is followed by a digit,
    [SichuanFGWCrawler.build_next_page_url] returns the base address itself
    for every page number, so that every page request goes to one address;
    the same holds for [ExampleOtherSiteCrawler] with [page=], and with
    [p=] when the base address has no [page=]. *)
Theorem build_next_page_url_stuck base page_num :
  (contains (lit "pageNum=") base = true ->
   (forall i, match_at unicode_digit (lit "pageNum=") (drop i base) = None) ->
   SichuanFGW.build_next_page_url unicode_digit base page_num = Some base) /\
  (contains (lit "page=") base = true ->
   (forall i, match_at unicode_digit (lit "page=") (drop i base) = None) ->
   ExampleOtherSite.build_next_page_url unicode_digit base page_num = Some base) /\
  (contains (lit "page=") base = false -> contains (lit "p=") base = true ->
   (forall i, match_at unicode_digit (lit "p=") (drop i base) = None) ->
   ExampleOtherSite.build_next_page_url unicode_digit base page_num = Some base).
Proof.
  split; [|split].
  - intros Hin Hnone. unfold SichuanFGW.build_next_page_url. rewrite Hin.
    by rewrite (re_sub_no_match _ _ _ Hnone).
  - intros Hin Hnone. unfold ExampleOtherSite.build_next_page_url. rewrite Hin.
    by rewrite (re_sub_no_match _ _ _ Hnone).
  - intros Hpage Hin Hnone. unfold ExampleOtherSite.build_next_page_url.
    rewrite Hpage, Hin. by rewrite (re_sub_no_match _ _ _ Hnone).
Qed.

End Pagination.


Import Sample.

Lemma build_next_page_url_again_witness :
  ((forall c, (48 <= c <= 57)%N -> ascii_digit c = true) /\ 0 <= 1) /\
  ((contains (lit "pageNum=") list_url = false ->
    forall address,
      SichuanFGW.build_next_page_url ascii_digit list_url 1 = Some address ->
      SichuanFGW.build_next_page_url ascii_digit address 2
      = SichuanFGW.build_next_page_url ascii_digit list_url 2) /\
   (contains (lit "page=") list_url = false -> contains (lit "p=") list_url = false ->
    forall address,
      ExampleOtherSite.build_next_page_url ascii_digit list_url 1 = Some address ->
      ExampleOtherSite.build_next_page_url ascii_digit address 2
      = ExampleOtherSite.build_next_page_url ascii_digit list_url 2)).
Proof.
  assert (H1 : forall c, (48 <= c <= 57)%N -> ascii_digit c = true).
  { intros c [Hlo Hhi]. unfold ascii_digit. apply andb_true_intro.
    split; apply N.leb_le; assumption. }
  assert (H2 : 0 <= 1) by lia.
  split; [exact (conj H1 H2)|].
  exact (build_next_page_url_again ascii_digit list_url 1 2 H1 H2).
Defined.

(** An address with an empty page parameter: the address built for page 2
    is the address itself for both classes, while the address without the
    parameter gets it appended. *)
Example build_next_page_url_stuck_sample :
  let base := lit "http://x/list?pageNum=" in
  SichuanFGW.build_next_page_url ascii_digit base 2 = Some base /\
  (forall i, match_at ascii_digit (lit "pageNum=") (drop i base) = None) /\
  ExampleOtherSite.build_next_page_url ascii_digit (lit "http://x/list?page=") 2
    = Some (lit "http://x/list?page=") /\
  SichuanFGW.build_next_page_url ascii_digit list_url 2
    = Some (lit "http://x/list?pageNum=2").
Proof.
  cbv zeta. split; [vm_compute; reflexivity|]. split; [|split; vm_compute; reflexivity].
  intros i. do 23 (destruct i as [|i]; [vm_compute; reflexivity|]).
  vm_compute (lit _). cbn [drop]. vm_compute. reflexivity.
Qed.

End CrawlerMore.

(** ** The registry *)

Module FactoryFacts.

Import BaseCrawler CrawlerFactory.

Lemma lookup_register_eq crawler_type crawler_class (_crawlers : registry) :
  lookup_crawler crawler_type (register_crawler crawler_type crawler_class _crawlers)
  = Some crawler_class.
Proof.
  induction _crawlers as [|[k c] rest IH]; simpl.
  - by rewrite bool_decide_eq_true_2.
  - destruct (bool_decide_reflect (k = crawler_type)) as [->|Hk]; simpl.
    + by rewrite bool_decide_eq_true_2.
    + by rewrite bool_decide_eq_false_2.
Qed.

Lemma lookup_register_ne crawler_type other crawler_class (_crawlers : registry) :
  other <> crawler_type ->
  lookup_crawler other (register_crawler crawler_type crawler_class _crawlers)
  = lookup_crawler other _crawlers.
Proof.
  intros Hne. induction _crawlers as [|[k c] rest IH]; simpl.
  - by rewrite bool_decide_eq_false_2 by (by apply not_eq_sym).
  - destruct (bool_decide_reflect (k = crawler_type)) as [->|Hk]; simpl.
    + by rewrite !bool_decide_eq_false_2 by (by apply not_eq_sym).
    + destruct (bool_decide (k = other)); [reflexivity|exact IH].
Qed.

Lemma lookup_crawler_None crawler_type (_crawlers : registry) :
  lookup_crawler crawler_type _crawlers = None <->
  ~ In crawler_type (get_available_crawlers _crawlers).
Proof.
  induction _crawlers as [|[k c] rest IH]; simpl; [tauto|].
  destruct (bool_decide_reflect (k = crawler_type)) as [->|Hk].
  - split; [done|]. intros H. destruct H. by left.
  - rewrite IH. tauto.
Qed.

Lemma register_keys crawler_type crawler_class (_crawlers : registry) :
  get_available_crawlers (register_crawler crawler_type crawler_class _crawlers)
  = match lookup_crawler crawler_type _crawlers with
    | Some _ => get_available_crawlers _crawlers
    | None => get_available_crawlers _crawlers ++ [crawler_type]
    end.
Proof.
  induction _crawlers as [|[k c] rest IH]; simpl; [reflexivity|].
  destruct (bool_decide_reflect (k = crawler_type)) as [->|Hk]; simpl; [reflexivity|].
  rewrite IH. by destruct (lookup_crawler crawler_type rest).
Qed.

(** X16. [register_crawler] and the lookups of the factory: after a type is
    registered, [create_crawler] for it returns the class registered, in an
    unchanged world; the other types are looked up as before; a type that
    was registered keeps its place in the list of available types, a new
    one goes to the end of it; the list never gets a repeated type. *)
Theorem register_crawler_spec py_repr crawler_type crawler_class (_crawlers : registry) :
  let registered := register_crawler crawler_type crawler_class _crawlers in
  (forall w, create_crawler py_repr registered crawler_type w = (Ok crawler_class, w)) /\
  (forall other, other <> crawler_type ->
     lookup_crawler other registered = lookup_crawler other _crawlers) /\
  get_available_crawlers registered
    = match lookup_crawler crawler_type _crawlers with
      | Some _ => get_available_crawlers _crawlers
      | None => get_available_crawlers _crawlers ++ [crawler_type]
      end /\
  (NoDup (get_available_crawlers _crawlers) -> NoDup (get_available_crawlers registered)).
Proof.
  cbv zeta. split; [|split; [|split]].
  - intros w. unfold create_crawler. by rewrite lookup_register_eq.
  - intros other Hne. by apply lookup_register_ne.
  - apply register_keys.
  - intros Hnd. rewrite register_keys.
    destruct (lookup_crawler crawler_type _crawlers) eqn:Hl; [exact Hnd|].
    apply NoDup_app. split; [exact Hnd|]. split; [|apply NoDup_singleton].
    intros k Hk Hk'. apply list_elem_of_singleton in Hk' as ->.
    apply lookup_crawler_None in Hl. apply Hl. by apply list_elem_of_In.
Qed.

(** X17. [get_crawler_info] never raises and changes nothing: for a type
    that is not registered it returns the empty dict, for a registered one
    the type with the name and the base url of its class. *)
Theorem get_crawler_info_spec py_repr (_crawlers : registry) crawler_type w :
  exists info,
    get_crawler_info py_repr _crawlers crawler_type w = (Ok info, w) /\
    (~ In crawler_type (get_available_crawlers _crawlers) -> info = None) /\
    (forall crawler_class, lookup_crawler crawler_type _crawlers = Some crawler_class ->
       info = Some (mkCrawlerInfo crawler_type (get_crawler_name crawler_class)
                                  (get_base_url crawler_class))).
Proof.
  unfold get_crawler_info, create_crawler.
  destruct (lookup_crawler crawler_type _crawlers) as [c|] eqn:Hl.
  - eexists. split; [reflexivity|]. split.
    + intros Hnot. apply lookup_crawler_None in Hnot. congruence.
    + by intros c' [= <-].
  - exists None. split; [reflexivity|]. split; [done|]. by intros c' [=].
Qed.

End FactoryFacts.

(** ** More on the runner *)

Module RunnerMore.

Import BaseCrawler CrawlerFactory CrawlerManager.

Section Facts.

Variable unicode_word : N -> bool.
Variable md5_hexdigest : pystr -> pystr.
Variable py_repr : pystr -> pystr.
Variable strftime : pystr -> pystr -> pystr.
Variable _crawlers : registry.

Local Abbreviation process_config :=
  (CrawlerManager.process_config unicode_word md5_hexdigest py_repr _crawlers).
Local Abbreviation process_all :=
  (CrawlerManager.process_all unicode_word md5_hexdigest py_repr _crawlers).
Local Abbreviation run_crawler :=
  (CrawlerManager.run_crawler unicode_word md5_hexdigest py_repr strftime _crawlers).
Local Abbreviation main_process_config :=
  (Main.process_config unicode_word md5_hexdigest py_repr _crawlers).
Local Abbreviation data_file :=
  (Storage._get_data_file unicode_word md5_hexdigest data_dir).

Lemma get_summary_world url name w :
  snd (Storage.get_summary unicode_word md5_hexdigest data_dir url name w) = w.
Proof.
  rewrite StorageMore.get_summary_eq.
  destruct (files w !! data_file url name) as [[]|];
    destruct (files w !! Storage._get_history_file unicode_word md5_hexdigest data_dir
                           url name) as [[]|]; reflexivity.
Qed.

(** What one iteration of the loop leaves in the locals. *)
Lemma process_config_post max_pages url_config total_new total_all w :
  exists st w',
    process_config max_pages url_config
      (mkLocals total_new total_all (new_config_result url_config)) w = (Ok st, w') /\
    result_source (config_result st) = config_source url_config /\
    total_new_items st = total_new + new_count (config_result st) /\
    total_all_items st = total_all + cr_total_count (config_result st) /\
    counts_fit (config_result st).
Proof.
  unfold CrawlerManager.process_config, try_stmt, counts_fit.
  destruct (create_crawler _ _ _ w) as [[crawler|e] w1];
    [|eexists _, _; split; [reflexivity|]; simpl; repeat split; (reflexivity || lia)].
  destruct (crawl_search_url crawler _ _ w1) as [[results|e] w2];
    [|eexists _, _; split; [reflexivity|]; simpl; repeat split; (reflexivity || lia)].
  destruct results as [|r results];
    [eexists _, _; split; [reflexivity|]; simpl; repeat split; (reflexivity || lia)|].
  cbn [truthy].
  destruct (Storage.save_data _ _ _ _ _ _ _ w2) as [[[all new]|e] w3] eqn:Hsave;
    [|eexists _, _; split; [reflexivity|]; simpl; unfold len; simpl; repeat split;
      (reflexivity || lia)].
  destruct (StorageFacts.save_data_inv _ _ _ _ _ _ _ _ _ _ _ Hsave) as (Hnew & Hall & _).
  assert (Hlen : (length new <= length (r :: results))%nat).
  { rewrite Hnew, StorageFacts.new_of_filter. apply List.filter_length_le. }
  assert (Hlen' : (length new <= length all)%nat) by (rewrite Hall, length_app; lia).
  destruct (Storage.get_summary _ _ _ _ _ w3) as [[summary|e] w4];
    eexists _, _; (split; [reflexivity|]); simpl; unfold len in *; repeat split;
    (reflexivity || lia).
Qed.

Lemma process_all_post max_pages : forall search_urls total_new total_all w,
  exists total_new' total_all' results w',
    process_all max_pages search_urls total_new total_all [] w
      = (Ok (total_new', total_all', results), w') /\
    List.map result_source results = List.map config_source search_urls /\
    total_new' = total_new + sum_of new_count results /\
    total_all' = total_all + sum_of cr_total_count results /\
    Forall counts_fit results.
Proof.
  induction search_urls as [|url_config rest IH]; intros total_new total_all w.
  - exists total_new, total_all, [], w. simpl. repeat split; try done; lia.
  - simpl. unfold mbind, M_bind.
    destruct (process_config_post max_pages url_config total_new total_all w)
      as (st & w1 & -> & Hsrc & Hnew & Hall & Hfit).
    rewrite RunnerFacts.process_all_results.
    destruct (IH (total_new_items st) (total_all_items st) w1)
      as (tn & ta & results & w' & -> & Hsrcs & Htn & Hta & Hfits).
    exists tn, ta, (config_result st :: results), w'. simpl.
    split; [reflexivity|]. split; [by rewrite Hsrc, Hsrcs|].
    split; [lia|]. split; [lia|]. by apply Forall_cons.
Qed.






(** [run_crawler] with a configuration, statement by statement. *)
Lemma run_crawler_eq generate_report cfg w :
  run_crawler generate_report (Some cfg) w =
  let w0 := snd (datetime_now w) in
  let search_urls := enabled_search_urls (cfg_search_urls cfg) in
  if negb (truthy search_urls) then (Ok None, w0)
  else
    match process_all (cfg_max_pages cfg) search_urls 0 0 [] w0 with
    | (Ok (total_new, total_all, run_results), w1) =>
        let w2 := snd (datetime_now w1) in
        let run_result :=
          mkRunResult (clock w (ticks w)) (clock w1 (ticks w1)) (len search_urls)
                      total_all total_new run_results in
        match Storage.get_all_summaries data_dir py_repr w2 with
        | (Ok _, w3) =>
            if generate_report then
              match save_markdown_report py_repr strftime run_result (lit "result") w3 with
              | (Ok _, w4) => (Ok (Some run_result), w4)
              | (Raise e, w4) => (Raise e, w4)
              end
            else (Ok None, w3)
        | (Raise e, w3) => (Raise e, w3)
        end
    | (Raise e, w1) => (Raise e, w1)
    end.
Proof.
  unfold CrawlerManager.run_crawler, mbind, M_bind, mret, M_ret. cbv zeta.
  change (datetime_now w) with (Ok (clock w (ticks w)), snd (datetime_now w)).
  cbv beta iota. destruct (negb _); [reflexivity|].
  destruct (process_all _ _ _ _ _ _) as [[[[total_new total_all] run_results]|e] w1];
    [|reflexivity].
  change (datetime_now w1) with (Ok (clock w1 (ticks w1)), snd (datetime_now w1)).
  cbv beta iota.
  destruct (Storage.get_all_summaries _ _ _) as [[summaries|e] w3]; [|reflexivity].
  destruct generate_report; [|reflexivity].
  destruct (save_markdown_report _ _ _ _ _) as [[path|e] w4]; reflexivity.
Qed.


(** X19. The totals of a run are the sums of the counts of its results:
    [total_new_items] is the sum of [new_count] and [total_all_items] the
    sum of [total_count]; and in each result [new_count] is the number of
    [new_items], at most [crawled_count] and at most [total_count]. *)
Theorem run_crawler_totals generate_report config w run_result w' :
  run_crawler generate_report config w = (Ok (Some run_result), w') ->
  rr_total_new_items run_result = sum_of new_count (rr_results run_result) /\
  rr_total_all_items run_result = sum_of cr_total_count (rr_results run_result) /\
  Forall counts_fit (rr_results run_result).
Proof.
  destruct config as [cfg|]; [|discriminate].
  rewrite run_crawler_eq. cbv zeta. destruct (negb _); [discriminate|].
  destruct (process_all_post (cfg_max_pages cfg)
              (enabled_search_urls (cfg_search_urls cfg)) 0 0 (snd (datetime_now w)))
    as (tn & ta & results & w1 & -> & _ & Htn & Hta & Hfit).
  destruct (Storage.get_all_summaries _ _ _) as [[summaries|e] w2]; [|discriminate].
  destruct generate_report; [|discriminate].
  destruct (save_markdown_report _ _ _ _ _) as [[path|e] w3]; [|discriminate].
  intros [= <- <-]. cbn [rr_total_new_items rr_total_all_items rr_results].
  repeat split; [lia|lia|exact Hfit].
Qed.

(** X20. The loop of [main.py] and the loop of [crawler_manager.py] do the
    same to the world and to the totals: an iteration of [main] ends in the
    world, and with the two totals, in which the iteration of [run_crawler]
    for the same source ends. *)
Theorem main_agrees_with_run_crawler max_pages url_config total_new total_all w :
  exists st w',
    process_config max_pages url_config
      (mkLocals total_new total_all (new_config_result url_config)) w = (Ok st, w') /\
    main_process_config max_pages url_config (total_new, total_all) w
      = (Ok (total_new_items st, total_all_items st), w').
Proof.
  unfold CrawlerManager.process_config, Main.process_config, try_stmt, Main.try_stmt.
  destruct (create_crawler _ _ _ w) as [[crawler|e] w1]; [|by eexists _, _].
  destruct (crawl_search_url crawler _ _ w1) as [[results|e] w2]; [|by eexists _, _].
  destruct (truthy results); [|by eexists _, _].
  destruct (Storage.save_data _ _ _ _ _ _ _ w2) as [[[all new]|e] w3]; [|by eexists _, _].
  destruct (Storage.get_summary _ _ _ _ _ w3) as [[summary|e] w4]; by eexists _, _.
Qed.

(** X21. A source processed without an error whose crawl brought records:
    after the iteration every url crawled is stored in the data file of the
    source, [crawled_count] is the number of records crawled, [total_count]
    the number of items stored, and the new items are records of the crawl. *)
Theorem crawled_urls_are_stored max_pages url_config crawler total_new total_all
    w results w1 st w' :
  lookup_crawler (su_crawler_type url_config) _crawlers = Some crawler ->
  crawl_search_url crawler (su_url url_config) (default 20 max_pages) w = (Ok results, w1) ->
  results <> [] ->
  process_config max_pages url_config
    (mkLocals total_new total_all (new_config_result url_config)) w = (Ok st, w') ->
  error (config_result st) = None ->
  let stored := Storage.stored_items w'
                  (data_file (su_url url_config) (Some (su_name url_config))) in
  (forall r, In r results -> In (Env.url r) (List.map Env.url stored)) /\
  crawled_count (config_result st) = len results /\
  cr_total_count (config_result st) = len stored /\
  (forall r, In r (cr_new_items (config_result st)) -> In r results).
Proof.
  intros Hreg Hcrawl Hne Hrun Herr. cbv zeta.
  unfold CrawlerManager.process_config, try_stmt, create_crawler in Hrun.
  rewrite Hreg in Hrun. unfold mret at 1, M_ret at 1 in Hrun. rewrite Hcrawl in Hrun.
  destruct results as [|r0 results]; [done|]. cbn [truthy] in Hrun.
  destruct (Storage.save_data _ _ _ _ _ _ _ w1) as [[[all new]|e] w3] eqn:Hsave.
  2:{ inversion Hrun; subst. discriminate Herr. }
  pose proof (get_summary_world (su_url url_config) (Some (su_name url_config)) w3) as Hw.
  destruct (Storage.get_summary _ _ _ _ _ w3) as [[summary|e] w4].
  2:{ inversion Hrun; subst. discriminate Herr. }
  simpl in Hw. subst w4. inversion Hrun; subst; clear Hrun. simpl.
  destruct (StorageFacts.save_data_inv _ _ _ _ _ _ _ _ _ _ _ Hsave) as (Hnew & Hall & Hfile & _).
  assert (Hstored : Storage.stored_items w'
                      (data_file (su_url url_config) (Some (su_name url_config))) = all)
    by (unfold Storage.stored_items; by rewrite Hfile).
  rewrite Hstored. split; [|split; [reflexivity|split; [reflexivity|]]].
  - intros r Hr. rewrite Hall, List.map_app, List.in_app_iff.
    destruct (decide (Env.url r ∈ List.map Env.url
                (Storage.stored_items w1
                   (data_file (su_url url_config) (Some (su_name url_config))))))
      as [Hold|Hfresh]; rewrite list_elem_of_In in *; [by left|right].
    apply List.in_map. rewrite Hnew. apply StorageFacts.new_of_In. by split.
  - intros r Hr. rewrite Hnew in Hr. by apply StorageFacts.new_of_In in Hr as [Hr _].
Qed.

End Facts.


Import Sample.

(** A run over a source that finds three records on two pages and a source
    of an unregistered type. *)
Lemma run_crawler_totals_witness :
  let config := Some sample_config in
  let run := Sample.run_crawler true config two_page_world in
  let run_result := match fst run with
                    | Ok (Some r) => r
                    | _ => mkRunResult [] [] 0 0 0 []
                    end in
  Sample.run_crawler true config two_page_world = (Ok (Some run_result), snd run) /\
  (rr_total_new_items run_result = sum_of new_count (rr_results run_result) /\
   rr_total_all_items run_result = sum_of cr_total_count (rr_results run_result) /\
   Forall counts_fit (rr_results run_result)).
Proof.
  intros config run run_result.
  assert (H : Sample.run_crawler true config two_page_world
              = (Ok (Some run_result), snd run)) by (vm_compute; reflexivity).
  split; [exact H|].
  exact (run_crawler_totals ascii_word list_digest plain_repr sample_strftime
           Sample.registry true config two_page_world run_result (snd run) H).
Defined.

Lemma crawled_urls_are_stored_witness :
  let src := source "a" "sichuan_fgw" in
  let crawler := sichuan_fgw in
  let results := [mkItem (lit "a") (lit "http://x/a") None;
                  mkItem (lit "b") (lit "http://x/b") None;
                  mkItem (lit "c") (lit "http://x/c") None] in
  let w1 := snd (crawl_search_url crawler list_url 3 two_page_world) in
  let run := Sample.process_config (Some 3) src (mkLocals 0 0 (new_config_result src))
               two_page_world in
  let st := match fst run with
            | Ok st => st
            | Raise _ => mkLocals 0 0 (new_config_result src)
            end in
  let stored := Storage.stored_items (snd run) (lit "data/a.json") in
  (lookup_crawler (lit "sichuan_fgw") Sample.registry = Some crawler /\
   crawl_search_url crawler list_url 3 two_page_world = (Ok results, w1) /\
   results <> [] /\
   Sample.process_config (Some 3) src (mkLocals 0 0 (new_config_result src)) two_page_world
     = (Ok st, snd run) /\
   error (config_result st) = None) /\
  ((forall r, In r results -> In (Env.url r) (List.map Env.url stored)) /\
   crawled_count (config_result st) = len results /\
   cr_total_count (config_result st) = len stored /\
   (forall r, In r (cr_new_items (config_result st)) -> In r results)).
Proof.
  intros src crawler results w1 run st stored.
  assert (H1 : lookup_crawler (lit "sichuan_fgw") Sample.registry = Some crawler)
    by (vm_compute; reflexivity).
  assert (H2 : crawl_search_url crawler list_url 3 two_page_world = (Ok results, w1))
    by (vm_compute; reflexivity).
  assert (H3 : results <> []) by discriminate.
  assert (H4 : Sample.process_config (Some 3) src (mkLocals 0 0 (new_config_result src))
                 two_page_world = (Ok st, snd run)) by (vm_compute; reflexivity).
  assert (H5 : error (config_result st) = None) by (vm_compute; reflexivity).
  split; [exact (conj H1 (conj H2 (conj H3 (conj H4 H5))))|].
  exact (crawled_urls_are_stored ascii_word list_digest plain_repr Sample.registry
           (Some 3) src crawler 0 0 two_page_world results w1 st (snd run)
           H1 H2 H3 H4 H5).
Defined.

(** Two runs over [sample_config].  In [two_page_world] the run returns:
    three records are stored for the first source, the second has an error,
    the clock is read seven times and the report is written.  Without
    network and with [data] a regular file, no source stores anything and
    the run raises the error of [os.listdir] after the loop, without a
    report. *)
Example run_crawler_sample :
  let run := Sample.run_crawler true (Some sample_config) two_page_world in
  let blocked := mkWorld (net offline_world) 0 (clock offline_world) 0
                         {[ lit "data" := Unparseable ]} [] in
  let failed := Sample.run_crawler true (Some sample_config) blocked in
  match fst run with
  | Ok (Some run_result) =>
      rr_total_configs run_result = 2 /\
      rr_total_new_items run_result = 3 /\
      List.map (fun r => bool_decide (is_Some (error r))) (rr_results run_result)
        = [false; true]
  | _ => False
  end /\
  ticks (snd run) = 7%nat /\
  is_Some (files (snd run) !! lit "result/result_20240101_000004.md") /\
  fst failed = Raise (Exn NotADirectoryError (lit "[Errno 20] Not a directory: 'data'")) /\
  files (snd failed) = files blocked.
Proof.
  vm_compute. split; [repeat split; reflexivity|]. split; [reflexivity|].
  split; [by eexists|]. split; reflexivity.
Qed.

End RunnerMore.

(** ** Sources whose names differ by the suffix of history files *)

Module NameClash.

Import Storage StorageFacts.

Section Facts.

Variable unicode_word : N -> bool.
Variable md5_hexdigest : pystr -> pystr.
Variable data_dir : pystr.

Local Abbreviation data_file := (_get_data_file unicode_word md5_hexdigest data_dir).
Local Abbreviation history_file := (_get_history_file unicode_word md5_hexdigest data_dir).
Local Abbreviation save := (save_data unicode_word md5_hexdigest data_dir).

Lemma clean_word (s : pystr) :
  Forall (fun c => unicode_word c = true) s -> List.map (clean_char unicode_word) s = s.
Proof.
  induction 1 as [|c s Hc _ IH]; [done|]. simpl. rewrite IH. f_equal.
  unfold clean_char. by rewrite Hc.
Qed.

(** The data file of the source named [name ++ "_history"] is the history
    file of the source named [name]. *)
Lemma history_named_data_file url1 url2 name :
  Forall (fun c => unicode_word c = true) (lit "history") ->
  truthy name = true ->
  data_file url2 (Some (name ++ lit "_history")) = history_file url1 (Some name).
Proof.
  intros Hword Hname. unfold _get_data_file, _get_history_file, _get_file_name.
  rewrite Hname. replace (truthy (name ++ lit "_history")) with true
    by (by destruct name).
  rewrite List.map_app. change (lit "_history") with (95%N :: lit "history").
  cbn [List.map]. rewrite (clean_word _ Hword).
  replace (clean_char unicode_word 95) with 95%N.
  2:{ unfold clean_char. destruct (negb _); reflexivity. }
  by rewrite <- app_assoc.
Qed.

(** X24. Two sources named [name] and [name] followed by [_history]: once a
    save for the first has written a history entry, every save for the
    second raises [AttributeError] before it writes anything, because its
    data file is the first one's history file ([h], [i], [s], [t], [o],
    [r], [y] are word characters). *)
Theorem history_named_source_blocked url1 url2 results1 results2 key1 key2 name
    w all new w1 :
  Forall (fun c => unicode_word c = true) (lit "history") ->
  truthy name = true ->
  save url1 results1 key1 (Some name) w = (Ok (all, new), w1) ->
  new <> [] ->
  save url2 results2 key2 (Some (name ++ lit "_history")) w1
  = (Raise (Exn AttributeError (lit "'list' object has no attribute 'get'")), w1).
Proof.
  intros Hword Hname Hsave Hnew.
  destruct (save_data_inv _ _ _ _ _ _ _ _ _ _ _ Hsave) as (_ & _ & _ & _ & Hhist).
  specialize (Hhist Hnew).
  rewrite (save_data_eq unicode_word md5_hexdigest data_dir).
  rewrite (history_named_data_file url1 url2 name Hword Hname), Hhist. reflexivity.
Qed.

End Facts.


Import Sample.

(** The source named [a] is saved first, then the source named
    [a_history]. *)
Lemma history_named_source_blocked_witness :
  let t := item "T" "http://x/1" in
  let u := item "U" "http://x/2" in
  let name := lit "a" in
  let w1 := snd (save list_url [t] (Some (lit "k1")) (Some name) offline_world) in
  (Forall (fun c => ascii_word c = true) (lit "history") /\
   truthy name = true /\
   save list_url [t] (Some (lit "k1")) (Some name) offline_world = (Ok ([t], [t]), w1) /\
   [t] <> []) /\
  save (lit "http://y/list") [u] (Some (lit "k2")) (Some (name ++ lit "_history")) w1
  = (Raise (Exn AttributeError (lit "'list' object has no attribute 'get'")), w1).
Proof.
  intros t u name w1.
  assert (H1 : Forall (fun c => ascii_word c = true) (lit "history")).
  { change (lit "history") with [104; 105; 115; 116; 111; 114; 121]%N.
    repeat (constructor; [reflexivity|]). constructor. }
  assert (H2 : truthy name = true) by reflexivity.
  assert (H3 : save list_url [t] (Some (lit "k1")) (Some name) offline_world
               = (Ok ([t], [t]), w1)) by (vm_compute; reflexivity).
  assert (H4 : [t] <> []) by discriminate.
  split; [exact (conj H1 (conj H2 (conj H3 H4)))|].
  exact (history_named_source_blocked ascii_word list_digest (lit "data") list_url
           (lit "http://y/list") [t] [u] (Some (lit "k1")) (Some (lit "k2")) name
           offline_world [t] [t] w1 H1 H2 H3 H4).
Defined.

End NameClash.

